(* ===== verification/_CoqProject ===== *)
-Q . S2P
Prelude.v
PyFloat.v
Dates.v
Frame.v
Figure.v
Streamlit.v
Widgets.v
Catalog.v
Fetch.v
Overlay.v
Returns.v
App.v
Session.v
