(* ===== verification/Prelude.v ===== *)
(** * A verification development of herissonfinance ([src/idl/app.py])

    ** The program

    [src/idl/app.py] is a Streamlit script.  On every run it:
    - draws the style block and the sidebar texts (lines 30-67);
    - reads two dates from date inputs (lines 70-73);
    - reads one multiselect per category of the static table
      [assets_by_category] (lines 76-131);
    - merges the choices into a ticker list and a ticker-to-name map
      (lines 134-140);
    - downloads and normalises each ticker's closing prices with
      [get_normalized_data] (lines 9-26, 143-150), which writes its own
      warnings and errors;
    - then either shows the aggregate error (line 154), or:
      + joins the kept Series into a DataFrame (lines 157-158);
      + draws a plotly chart with recession bands and event lines
        (lines 161-240);
      + lists total returns (lines 243-253);
      + offers the table as CSV in a centred column (lines 256-264);
    - shows the logo in a corner column if its file exists
      (lines 267-270).
    Streamlit reruns the whole script each time the user changes a
    widget, handing it the widget states it keeps for the session.

    ** Files and what they model

    - [Prelude] (this file) holds:
      + the script monad [PyM]: the page written so far plus an uncaught
        exception or a value, with [emit], [raise], [catch] (a
        [try]/[except]) and [foldM] (a [for] loop);
      + the laws of [PyM], and the [local] property (a script only
        appends to the page);
      + Python dicts as insertion-ordered association lists ([dict_get],
        [dict_set]);
      + the loop lemmas [foldM_app] and [foldM_nested];
      + the tactic [by_eval] and the hint database [pyhints].
    - [PyFloat] models numpy/pandas float64 as exact rationals with [inf]
      and [nan] ([pyfloat]), giving:
      + division, multiplication and subtraction with their IEEE special
        cases;
      + Python truthiness;
      + [max] with [nan] skipped;
      + [round(x, 2)] as round-half-even, with its error bound.
    - [Dates] covers:
      + dates and their order, and Python's two-argument [max]/[min];
      + calendar validity;
      + the text [YYYY-MM-DD] that [strftime("%Y-%m-%d")] writes, and
        its reading back ([DateText]).
    - [Frame] models:
      + Series as (date, value) rows;
      + [pd.DataFrame(dict)] as an outer join on the sorted union of the
        indexes with [nan] fill ([from_dict]);
      + column relabelling, [df.max().max()], [iloc[0]]/[iloc[-1]] and
        [to_csv];
      + in [FrameFacts], pandas' CSV reader ([read_csv]), modelled from
        its documentation, to state that the export reads back.
    - [Figure] is the plotly figure as lists of traces, shapes and
      annotations plus a layout.
    - [Streamlit] holds:
      + the page outputs [out], one constructor per kind of Streamlit
        call; an element placed by [with st.columns(...)[i]] is wrapped
        in [OColumn];
      + the exceptions [exn].
    - [Widgets] holds Streamlit's [date_input] and [checkbox], modelled
      from Streamlit's documentation.  [date_input] raises
      [StreamlitAPIException] when [min_value > max_value] or when its
      default lies outside the bounds.  Its module [Sidebar] holds the
      date inputs of lines 70-73 ([pick_dates]).
    - [Catalog] holds:
      + the asset table;
      + the multiselect loop ([select_assets]);
      + the merge of the selections ([merge_selections]);
      + the well-formedness of a table and of a selection.
    - [Fetch] holds [get_normalized_data] and the fetch loop
      ([fetch_all]).  The data source [yf.download] is a parameter
      [source]: it returns a frame or raises.  A frame has flat column
      labels, or (field, ticker) labels for the requested ticker.
    - [Overlay] holds the recession and event loops of lines 184-217
      ([add_overlays]) and their abstract plan ([OverlayPlan]).
    - [Returns] holds the returns report of lines 243-253.
    - [App] holds one run of the whole script ([run_app]), over an
      environment [env]: today's date, the widget states, the data source
      and whether the logo exists.
    - [Session] holds Streamlit's rerun loop, modelled from Streamlit's
      documentation:
      + a state is the widget states plus the date of the next rerun;
      + widget states are kept by widget identity: the multiselects by
        their keys, the key-less date inputs by their parameters, so a
        new day or a new start date resets them to their defaults;
      + a [step] is one user action the browser offers;
      + [reachable] is [rtc step] from a fresh session.

    ** What is proved (claim ids of the manifest)

    Every claim is stated on the code's own definitions: on [run_app], on
    the page it writes, or on the function that translates the lines it
    names.

    - Normalisation and fetching:
      + the first normalised value is exactly 100 (C1);
      + the fetch loop isolates failures, keeping exactly the tickers
        whose own fetch gave data (C3);
      + its table is well typed: distinct keys, and non-empty Series
        with strictly increasing dates (C19);
      + [get_normalized_data] never lets an exception escape (C5);
      + and the behaviours the code gets wrong: a zero first price is
        kept (C27), a missing Close column is reported as a load error
        (C28), and the "no closing data" warning is unreachable (C29).
    - The whole run:
      + inside the date window, with valid widget choices, a run raises
        nothing, and the page it writes is given exactly (C2);
      + from 2026-01-01 on, every run raises at line 71 before fetching
        anything (C4);
      + the date inputs keep [2000-01-01 <= start <= end <= 2025-12-31]
        (C17);
      + a run downloads at most 24 times (C21);
      + the chart's legend names exactly the chosen assets whose data
        loaded, in selection order (C13);
      + under yfinance's window (end exclusive), no date of the chart
        reaches the end date the page shows (C16).
    - Sessions: from every reachable session, one user action brings any
      asset of the table into the next rerun's downloads (C18).
    - Table, chart, returns and export:
      + the join is an outer join (C9);
      + [df.max().max()] is the largest cell of the table, [nan]
        skipped (C10);
      + the chart is one trace per column plus the overlay plan (C12);
      + the CSV is a header row plus one row per joined date (C14), and
        reading it back gives the table again (C15);
      + the returns report raises no [IndexError] (C7);
      + a stored return is a whole number of hundredths, at least -100,
        within 0.005 of the exact change (C8);
      + fetching and reporting a ticker gives the return of its raw
        prices (C25);
      + a Series that starts later gets a [nan] return (C26).
    - Overlays:
      + the loops draw exactly the plan (C6);
      + every band rectangle lies inside the range and its recession
        (C22);
      + a recession inside the range is drawn unclamped, one outside it
        not at all (C23);
      + the closed-range event test (C24);
      + the bands and their labels rise above every value of the table
        (C30).
    - Catalog: the merge returns the chosen tickers in order (C11),
      without duplicates (C20).
    - Dates: the request dates survive the text round trip (C31).

    ** Modelling choices, bounds and fuel

    - Floats are exact rationals.  IEEE rounding and the sign of zero are
      not modelled, so [-0.0] is [0.0].  Claims that compare two float
      computations (C25) hold exactly in the model; in float64 the two
      sides differ by rounding in the last bits, which can change the
      rounded return only when the exact value lies within a few units in
      the last place of a tie of [round(x, 2)].  Properties that hold only for exact arithmetic,
      such as invariance of line 22 under scaling the prices, are not
      stated.
    - Datetimes at midnight are dates, so
      [datetime.combine(d, min.time())] is [d].
    - Every loop of the script is a [for] over a finite list, so all
      recursion is structural and no fuel is used.  Termination of a run
      is therefore Rocq's totality, and no termination theorem is stated.
    - Streamlit widgets return the user's pick:
      + the multiselect frontend sends distinct options of its
        category;
      + a date pick lies in the widget's current bounds, or the widget
        falls back to its default.

    ** Not modelled

    - Constant styling arguments of the plotly calls: colours, opacity,
      fonts, margins, the legend box.
    - yfinance's network behaviour beyond "a frame or an exception".  Its
      date window ([start] inclusive, [end] exclusive) is a hypothesis
      ([yf_window]), not a model of the service.
    - Streamlit's cleanup of the state of a widget a run does not draw
      (the events checkbox of a run without data keeps its state in the
      model).
    - pandas internals beyond the operations the script calls.  The CSV
      export is a list of cells: the text formatting of numbers and the
      quoting of fields are not modelled, and pandas' renaming of
      repeated column labels on reading is left out. *)

From Stdlib Require Import ZArith Lia.
From stdpp Require Import base list decidable.

(** * Notation scope of the development *)
Declare Scope py_scope.
Delimit Scope py_scope with py.

Create HintDb pyhints.

(** * The script monad

    A Streamlit script writes to the page as it runs ([st.write],
    [st.warning], [st.error], ...) and may stop on an uncaught Python
    exception, which Streamlit then shows below what was already written.
    [PyM O E A] threads the page (the list of outputs of type [O] written
    so far) and ends either with an exception of type [E] or a value. *)
Definition PyM (O E A : Type) : Type := list O -> list O * (E + A).

Section PyM.
Context {O E : Type}.

Definition ret {A} (a : A) : PyM O E A := fun l => (l, inr a).

Definition bind {A B} (m : PyM O E A) (k : A -> PyM O E B) : PyM O E B :=
  fun l => match m l with
           | (l', inl e) => (l', inl e)
           | (l', inr a) => k a l'
           end.

(** [st.write]/[st.warning]/... : append one output. *)
Definition emit (o : O) : PyM O E unit := fun l => (l ++ [o], inr tt).

(** [raise e] *)
Definition raise {A} (e : E) : PyM O E A := fun l => (l, inl e).

(** [try: m except: h] *)
Definition catch {A} (m : PyM O E A) (h : E -> PyM O E A) : PyM O E A :=
  fun l => match m l with
           | (l', inl e) => h e l'
           | r => r
           end.

(** [for x in xs: f(x)] with an accumulator. *)
Fixpoint foldM {A B} (f : B -> A -> PyM O E B) (b : B) (xs : list A)
  : PyM O E B :=
  match xs with
  | [] => ret b
  | x :: xs' => bind (f b x) (fun b' => foldM f b' xs')
  end.

(** Running a script from an empty page. *)
Definition run {A} (m : PyM O E A) : list O * (E + A) := m [].

(** A computation is [local] when what it writes and returns does not
    depend on what the page already holds: it only appends. *)
Definition local {A} (m : PyM O E A) : Prop :=
  forall l, m l = (l ++ (m []).1, (m []).2).
End PyM.

Notation "x <- m ;; k" := (bind m (fun x => k))
  (at level 100, m at next level, right associativity) : py_scope.
Notation "m ;;; k" := (bind m (fun _ => k))
  (at level 100, right associativity) : py_scope.

Open Scope py_scope.

(** * Monad laws and locality *)
Section PyMLaws.
Context {O E : Type}.

Lemma bind_ret_l {A B} (a : A) (k : A -> PyM O E B) l :
  bind (ret a) k l = k a l.
Proof. reflexivity. Qed.

Lemma bind_ret_r {A} (m : PyM O E A) l : bind m ret l = m l.
Proof. unfold bind, ret. by destruct (m l) as [? []]. Qed.

Lemma bind_assoc {A B C} (m : PyM O E A) (f : A -> PyM O E B)
      (g : B -> PyM O E C) l :
  bind (bind m f) g l = bind m (fun a => bind (f a) g) l.
Proof. unfold bind. by destruct (m l) as [? []]. Qed.

Lemma bind_ext {A B} (m : PyM O E A) (k1 k2 : A -> PyM O E B) l :
  (forall a l', k1 a l' = k2 a l') -> bind m k1 l = bind m k2 l.
Proof. intros Hk. unfold bind. destruct (m l) as [? []]; auto. Qed.

Lemma local_ret {A} (a : A) : local (O:=O) (E:=E) (ret a).
Proof. intros l. unfold ret. by rewrite app_nil_r. Qed.

Lemma local_emit (o : O) : local (E:=E) (emit o).
Proof. intros l. reflexivity. Qed.

Lemma local_raise {A} (e : E) : local (O:=O) (A:=A) (raise e).
Proof. intros l. unfold raise. by rewrite app_nil_r. Qed.

Lemma local_bind {A B} (m : PyM O E A) (k : A -> PyM O E B) :
  local m -> (forall a, local (k a)) -> local (bind m k).
Proof.
  intros Hm Hk l. unfold bind. rewrite (Hm l).
  destruct (m []) as [l1 [e|a]]; simpl; [done|].
  rewrite (Hk a (l ++ l1)), (Hk a l1). simpl. by rewrite app_assoc.
Qed.

Lemma local_catch {A} (m : PyM O E A) (h : E -> PyM O E A) :
  local m -> (forall e, local (h e)) -> local (catch m h).
Proof.
  intros Hm Hh l. unfold catch. rewrite (Hm l).
  destruct (m []) as [l1 [e|a]]; simpl; [|done].
  rewrite (Hh e (l ++ l1)), (Hh e l1). simpl. by rewrite app_assoc.
Qed.

Lemma local_foldM {A B} (f : B -> A -> PyM O E B) :
  (forall b a, local (f b a)) -> forall xs b, local (foldM f b xs).
Proof.
  intros Hf xs. induction xs as [|x xs IH]; intros b; simpl.
  - apply local_ret.
  - apply local_bind; auto.
Qed.
End PyMLaws.

#[export] Hint Resolve local_ret local_emit local_raise local_bind
  local_catch local_foldM : pyhints.

(** Prove [local] of a script built from the combinators. *)
Ltac solve_local :=
  repeat (intros || apply local_bind || apply local_catch
          || apply local_foldM || apply local_ret || apply local_emit
          || apply local_raise || case_match).


(** * Evaluation of decidable goals on concrete data

    Closes a decidable goal (an equation between values with an
    [EqDecision] instance, a comparison, ...) by evaluating its decision
    procedure. *)
Ltac by_eval :=
  match goal with |- ?P => apply (bool_decide_eq_true_1 P); vm_compute; reflexivity end.

(** * Python dicts

    A Python [dict] keeps its keys in insertion order; [d[k] = v] replaces
    the value of a present key in place and appends a new key at the end.
    It is an association list without duplicate keys. *)
Section PyDict.
Context {K V : Type} `{EqDecision K}.

Fixpoint dict_get (k : K) (d : list (K * V)) : option V :=
  match d with
  | [] => None
  | (k', v) :: d' => if decide (k = k') then Some v else dict_get k d'
  end.

Fixpoint dict_set (k : K) (v : V) (d : list (K * V)) : list (K * V) :=
  match d with
  | [] => [(k, v)]
  | (k', v') :: d' => if decide (k = k') then (k, v) :: d' else (k', v') :: dict_set k v d'
  end.

Lemma dict_get_set_eq (k : K) (v : V) d : dict_get k (dict_set k v d) = Some v.
Proof. induction d as [|[k' v'] d IH]; simpl; repeat (case_decide; simpl); done. Qed.

Lemma dict_get_set_ne (k j : K) (v : V) d :
  k <> j -> dict_get j (dict_set k v d) = dict_get j d.
Proof.
  intros Hne. induction d as [|[k' v'] d IH]; simpl; repeat (case_decide; simplify_eq/=); done.
Qed.

Lemma dict_set_keys_new (k : K) (v : V) d :
  k ∉ d.*1 -> (dict_set k v d).*1 = d.*1 ++ [k].
Proof.
  induction d as [|[k' v'] d IH]; csimpl; [done|].
  rewrite not_elem_of_cons. intros [Hne Hn]. rewrite decide_False by done. csimpl. by rewrite IH.
Qed.

Lemma dict_get_Some_elem (k : K) (v : V) d : dict_get k d = Some v -> (k, v) ∈ d.
Proof.
  induction d as [|[k' v'] d IH]; simpl; [done|].
  case_decide; [intros [= <-]; subst; left|]. intros Hg. right. auto.
Qed.

Lemma dict_get_elem (k : K) (v : V) d : NoDup d.*1 -> (k, v) ∈ d -> dict_get k d = Some v.
Proof.
  induction d as [|[k' v'] d IH]; simpl; [by rewrite elem_of_nil|].
  rewrite stdpp.list_relations.list.NoDup_cons, elem_of_cons. intros [Hn Hd] [[= -> ->]|Hin].
  - by rewrite decide_True.
  - rewrite decide_False; [auto|]. intros ->. apply Hn.
    apply (list_elem_of_fmap_2 fst _ (k', v)), Hin.
Qed.
End PyDict.

Section PyDictFresh.
Context {K V : Type} `{EqDecision K}.

(** Assigning a key that is not in the dict appends it. *)
Lemma dict_set_new (k : K) (v : V) d : k ∉ d.*1 -> dict_set k v d = d ++ [(k, v)].
Proof.
  induction d as [|[k' v'] d IH]; csimpl; [done|].
  rewrite not_elem_of_cons. intros [Hne Hn]. rewrite decide_False by done. by rewrite IH.
Qed.
(** A member of [d] after [d[k] = v] is the new entry or an old one. *)
Lemma dict_set_elem (k : K) (v : V) d x : x ∈ dict_set k v d -> x = (k, v) \/ x ∈ d.
Proof.
  induction d as [|[k' v'] d IH]; simpl.
  - rewrite list_elem_of_singleton. by left.
  - case_decide; rewrite !elem_of_cons.
    + intros [->|Hx]; [by left|by right; right].
    + intros [->|Hx]; [by right; left|]. destruct (IH Hx); [by left|by right; right].
Qed.

(** Assigning a present key keeps the keys. *)
Lemma dict_set_keys_old (k : K) (v : V) d : k ∈ d.*1 -> (dict_set k v d).*1 = d.*1.
Proof.
  induction d as [|[k' v'] d IH]; csimpl; [by rewrite elem_of_nil|].
  rewrite elem_of_cons. intros Hk. case_decide as Heq; csimpl; [by subst|].
  rewrite IH; [done|]. by destruct Hk.
Qed.

(** A dict never holds a key twice. *)
Lemma dict_set_NoDup (k : K) (v : V) d : NoDup d.*1 -> NoDup (dict_set k v d).*1.
Proof.
  intros Hnd. destruct (decide (k ∈ d.*1)) as [Hk|Hk].
  - by rewrite dict_set_keys_old.
  - rewrite dict_set_keys_new by done. apply stdpp.list_relations.list.NoDup_app. split_and!; [done| |apply NoDup_singleton].
    intros x Hx ->%list_elem_of_singleton. by apply Hk.
Qed.
End PyDictFresh.

(** * Loops *)
Section FoldM.
Context {O E : Type}.

(** A loop over [xs ++ ys] runs the loop over [xs], then over [ys]. *)
Lemma foldM_app {A B} (f : B -> A -> PyM O E B) b xs ys l :
  foldM f b (xs ++ ys) l = bind (foldM f b xs) (fun b' => foldM f b' ys) l.
Proof.
  revert b l. induction xs as [|x xs IH]; intros b l; simpl; [done|].
  rewrite bind_assoc. apply bind_ext. intros. apply IH.
Qed.

(** A nested loop is the loop over the flattened pairs. *)
Lemma foldM_nested {A B C} (g : C -> B -> A -> PyM O E B) (b : B)
      (xss : list (C * list A)) l :
  foldM (fun acc cs => foldM (g cs.1) acc cs.2) b xss l
  = foldM (fun acc p => g p.1 acc p.2) b (xss ≫= fun cs => pair cs.1 <$> cs.2) l.
Proof.
  revert b l. induction xss as [|[c xs] xss IH]; intros b l; [done|].
  rewrite bind_cons, foldM_app. cbn [foldM fst snd].
  assert (Hin : forall b l, foldM (g c) b xs l = foldM (fun acc p => g p.1 acc p.2) b (pair c <$> xs) l).
  { clear. induction xs as [|x xs IHx]; intros b l; simpl; [done|].
    apply bind_ext. intros. apply IHx. }
  unfold bind. rewrite Hin. destruct (foldM _ b (pair c <$> xs) l) as [l' [e|b']]; [done|].
  apply IH.
Qed.
End FoldM.

(** * Injectivity from distinct second components *)
Lemma NoDup_snd_inj {A B} (l : list (A * B)) (a a' : A) (b : B) :
  NoDup l.*2 -> (a, b) ∈ l -> (a', b) ∈ l -> a = a'.
Proof.
  induction l as [|[x y] l IH]; csimpl; [by rewrite elem_of_nil|].
  rewrite list.NoDup_cons, !elem_of_cons. intros [Hn Hl] H1 H2.
  destruct H1 as [H1|H1], H2 as [H2|H2]; simplify_eq; auto; exfalso; apply Hn.
  - apply (list_elem_of_fmap_2 snd _ (a', y)), H2.
  - apply (list_elem_of_fmap_2 snd _ (a, y)), H1.
Qed.

Lemma dict_get_key {K V} `{EqDecision K} (k : K) (d : list (K * V)) :
  k ∈ d.*1 -> exists v, dict_get k d = Some v.
Proof.
  induction d as [|[k' v'] d IH]; csimpl; [by rewrite elem_of_nil|].
  rewrite elem_of_cons. intros Hk. case_decide; [eauto|].
  destruct Hk as [->|Hk]; [done|auto].
Qed.

Lemma dict_get_fmap {K V W} `{EqDecision K} (g : V -> W) (k : K) (d : list (K * V)) :
  dict_get k ((fun kv => (kv.1, g kv.2)) <$> d) = g <$> dict_get k d.
Proof. induction d as [|[k' v] d IH]; csimpl; [done|]. by case_decide. Qed.

Lemma zip_fmap_r {A B C} (g : B -> C) (l : list A) (k : list B) :
  zip l (g <$> k) = (fun p => (p.1, g p.2)) <$> zip l k.
Proof. revert k. induction l as [|x l IH]; intros [|y k]; csimpl; f_equal; auto. Qed.

(** Two members of a list with the same image under [f] are equal when
    the images are distinct. *)
Lemma NoDup_fmap_inj_in {A B} (f : A -> B) (l : list A) x y :
  NoDup (f <$> l) -> x ∈ l -> y ∈ l -> f x = f y -> x = y.
Proof.
  induction l as [|z l IH]; csimpl; [by rewrite elem_of_nil|].
  rewrite list.NoDup_cons, !elem_of_cons. intros [Hn Hl] Hx Hy Hf.
  destruct Hx as [->|Hx], Hy as [->|Hy]; auto; exfalso; apply Hn.
  - rewrite Hf. by apply list_elem_of_fmap_2.
  - rewrite <- Hf. by apply list_elem_of_fmap_2.
Qed.

Lemma head_fmap_list {A B} (f : A -> B) (l : list A) : head (f <$> l) = f <$> head l.
Proof. by destruct l. Qed.
