(* ===== verification/PyFloat.v ===== *)
(** * PyFloat: the float64 values the script computes with

    Closing prices arrive from the data source as numpy float64 values and
    every number the script computes ([data / data.iloc[0] * 100],
    [df.max().max() * 1.1], [(last - first) / first * 100],
    [round(x, 2)]) is one too.  A value is modelled as a rational [Fin q]
    (a canonical [Qc], so that equal numbers are equal terms), a signed
    infinity [Inf neg] or [NaN], with numpy's rules for the special
    values: [x / 0] is [inf] or [-inf] by the sign of [x] and [0 / 0] is
    [nan]; [0 * inf] is [nan]; [inf - inf] is [nan]; any operation on [nan]
    is [nan].  Arithmetic on [Fin] is exact: the model abstracts IEEE-754
    rounding away, and it identifies [-0.0] with [0.0]. *)

From Stdlib Require Import ZArith QArith Qcanon Qround Qabs Lia Lqa.
From stdpp Require Import base list decidable.
From S2P Require Import Prelude.

#[export] Instance Qc_eq_decision : EqDecision Qc := Qc_eq_dec.

#[export] Instance Qc_lt_decision : RelDecision Qclt :=
  fun x y => match Qclt_le_dec x y with
             | left H => left H
             | right H => right (Qcle_not_lt _ _ H)
             end.

#[export] Instance Qc_le_decision : RelDecision Qcle :=
  fun x y => match Qclt_le_dec y x with
             | left H => right (Qclt_not_le _ _ H)
             | right H => left H
             end.

(** A rational literal as a canonical rational. *)
Definition qc (q : Q) : Qc := Q2Qc q.

Inductive pyfloat : Type :=
| Fin (q : Qc)
| Inf (neg : bool)
| NaN.

#[export] Instance pyfloat_eq_dec : EqDecision pyfloat.
Proof. solve_decision. Defined.

Module PyFloat.

(** [x < 0] as a boolean. *)
Definition negative (q : Qc) : bool := bool_decide (q < 0)%Qc.

(** numpy [x / y] *)
Definition fdiv (x y : pyfloat) : pyfloat :=
  match x, y with
  | NaN, _ | _, NaN => NaN
  | Fin a, Fin b =>
      if decide (b = 0%Qc) then
        (if decide (a = 0%Qc) then NaN else Inf (negative a))
      else Fin (a / b)%Qc
  | Fin _, Inf _ => Fin 0%Qc
  | Inf _, Inf _ => NaN
  | Inf s, Fin b => if decide (b = 0%Qc) then Inf s else Inf (xorb s (negative b))
  end.

(** numpy [x * y] *)
Definition fmul (x y : pyfloat) : pyfloat :=
  match x, y with
  | NaN, _ | _, NaN => NaN
  | Fin a, Fin b => Fin (a * b)%Qc
  | Fin a, Inf s | Inf s, Fin a =>
      if decide (a = 0%Qc) then NaN else Inf (xorb s (negative a))
  | Inf s, Inf t => Inf (xorb s t)
  end.

(** numpy [x - y] *)
Definition fsub (x y : pyfloat) : pyfloat :=
  match x, y with
  | NaN, _ | _, NaN => NaN
  | Fin a, Fin b => Fin (a - b)%Qc
  | Inf s, Fin _ => Inf s
  | Fin _, Inf s => Inf (negb s)
  | Inf s, Inf t => if Bool.eqb s t then NaN else Inf s
  end.

(** Python truthiness [bool(x)]: only zero is false; [nan] is true. *)
Definition truthy (x : pyfloat) : bool :=
  match x with
  | Fin a => bool_decide (a <> 0%Qc)
  | _ => true
  end.

(** The order of numbers, [-inf < q < inf]; [nan] is unordered. *)
Definition flt (x y : pyfloat) : bool :=
  match x, y with
  | Fin a, Fin b => bool_decide (a < b)%Qc
  | Inf true, Fin _ | Inf true, Inf false | Fin _, Inf false => true
  | _, _ => false
  end.

(** pandas [Series.max()] (skipna): the largest non-[nan] value, [nan]
    when there is none.  Ties keep the value seen first. *)
Definition max_step (acc x : pyfloat) : pyfloat :=
  match x with
  | NaN => acc
  | _ => match acc with
         | NaN => x
         | _ => if flt acc x then x else acc
         end
  end.

Definition max_skipna (xs : list pyfloat) : pyfloat := fold_left max_step xs NaN.

(** Python [round(x, 2)]: to the nearest hundredth, ties to even, on
    the exact value; [inf] and [nan] are returned unchanged. *)
Definition round_half_even (q : Q) : Z :=
  let f := Qfloor q in
  match Qcompare (q - inject_Z f) (1 # 2) with
  | Lt => f
  | Gt => (f + 1)%Z
  | Eq => if Z.even f then f else (f + 1)%Z
  end.

Definition round2 (x : pyfloat) : pyfloat :=
  match x with
  | Fin a => Fin (qc (inject_Z (round_half_even (this a * 100)) / 100))
  | _ => x
  end.

End PyFloat.

(** ** Arithmetic facts *)
Module PyFloatFacts.
Import PyFloat.

Lemma fdiv_self (a : Qc) : a <> 0%Qc -> fdiv (Fin a) (Fin a) = Fin 1%Qc.
Proof.
  intros Ha. simpl. rewrite decide_False by done. f_equal.
  unfold Qcdiv. by apply Qcmult_inv_r.
Qed.

Lemma fmul_fin (a b : Qc) : fmul (Fin a) (Fin b) = Fin (a * b)%Qc.
Proof. reflexivity. Qed.

Lemma fdiv_fin (a b : Qc) : b <> 0%Qc -> fdiv (Fin a) (Fin b) = Fin (a / b)%Qc.
Proof. intros Hb. simpl. by rewrite decide_False. Qed.

Lemma truthy_false (x : pyfloat) : truthy x = false <-> x = Fin 0%Qc.
Proof.
  destruct x as [a| |]; simpl; [|done..].
  rewrite bool_decide_eq_false. split; [|intros [= ->] H; by apply H].
  intros H. f_equal. by apply dec_stable.
Qed.
Lemma truthy_nonzero (a : Qc) : a <> 0%Qc -> truthy (Fin a) = true.
Proof. intros Ha. by apply bool_decide_eq_true_2. Qed.

(** Multiplying by a non-negative number is monotone in the factor. *)
Lemma mul_le_mono_nonneg (m a b : Qc) :
  (0 <= m)%Qc -> (a <= b)%Qc -> (m * a <= m * b)%Qc.
Proof. intros Hm Hab. rewrite !(Qcmult_comm m). by apply Qcmult_le_compat_r. Qed.

Lemma mul_nonneg (m a : Qc) : (0 <= m)%Qc -> (0 <= a)%Qc -> (0 <= m * a)%Qc.
Proof. intros Hm Ha. rewrite <- (Qcmult_0_r m). by apply mul_le_mono_nonneg. Qed.


(** ** pandas' [max] with [nan] skipped *)

(** [flt] is a strict total order on the values other than [nan]. *)
Lemma flt_trans x y z : flt x y = true -> flt y z = true -> flt x z = true.
Proof.
  destruct x as [a|[]|], y as [b|[]|], z as [c|[]|]; simpl; try done.
  rewrite !bool_decide_eq_true. apply Qclt_trans.
Qed.

Lemma flt_asym x y : flt x y = true -> flt y x = false.
Proof.
  destruct x as [a|[]|], y as [b|[]|]; simpl; try done.
  rewrite bool_decide_eq_true, bool_decide_eq_false. intros H H'. by apply (Qclt_not_le _ _ H'), Qclt_le_weak.
Qed.

Lemma flt_total x y : x <> NaN -> y <> NaN -> flt x y = false -> flt y x = false -> x = y.
Proof.
  destruct x as [a|[]|], y as [b|[]|]; simpl; try done. rewrite !bool_decide_eq_false.
  intros _ _ H1 H2. f_equal. apply Qcle_antisym; by apply Qcnot_lt_le.
Qed.

Lemma max_step_nan_l x : max_step NaN x = x.
Proof. by destruct x. Qed.

(** [max_step] is associative: the fold may group the values as it
    likes, as [df.max().max()] groups them by column. *)
Lemma max_step_assoc a b c : max_step (max_step a b) c = max_step a (max_step b c).
Proof.
  destruct a as [p|[]|], b as [q|[]|], c as [r|[]|]; simpl; try done;
    repeat (case_bool_decide; simpl); try done;
    try (exfalso; unfold Qclt in *; lra);
    f_equal; apply Qcle_antisym; by apply Qcnot_lt_le.
Qed.

Lemma flt_irrefl x : flt x x = false.
Proof. destruct x as [a|[]|]; simpl; try done. apply bool_decide_eq_false. intros H. by apply (Qclt_not_le a a H), Qcle_refl. Qed.

Lemma flt_fin_false (m q : Qc) : flt (Fin m) (Fin q) = false -> (q <= m)%Qc.
Proof. simpl. rewrite bool_decide_eq_false. apply Qcnot_lt_le. Qed.

Lemma flt_nan_r x : flt x NaN = false.
Proof. by destruct x as [|[]|]. Qed.

(** Nothing above [m] is above a value [m] is not below. *)
Lemma flt_not_above x m y : m <> NaN -> flt x m = false -> flt m y = false -> flt x y = false.
Proof.
  intros Hm Hxm Hmy. destruct (flt x y) eqn:Hxy; [|done]. exfalso.
  assert (Hy : y <> NaN) by (intros ->; by rewrite flt_nan_r in Hxy).
  destruct (flt y m) eqn:Hym.
  - by rewrite (flt_trans x y m Hxy Hym) in Hxm.
  - rewrite (flt_total m y Hm Hy Hmy Hym) in Hxm. congruence.
Qed.

Lemma max_skipna_acc xs acc : fold_left max_step xs acc = max_step acc (max_skipna xs).
Proof.
  unfold max_skipna. revert acc. induction xs as [|x xs IH]; intros acc; simpl.
  - by destruct acc.
  - rewrite IH, (IH (max_step NaN x)), max_step_nan_l. apply max_step_assoc.
Qed.

Lemma max_skipna_cons x xs : max_skipna (x :: xs) = max_step x (max_skipna xs).
Proof. unfold max_skipna at 1. simpl. by rewrite max_skipna_acc, max_step_nan_l. Qed.

(** pandas' [max()] with [nan] skipped is the largest value of the
    list: [nan] exactly when every value is [nan], and otherwise one of
    the values that no value exceeds. *)
Lemma max_skipna_app xs ys : max_skipna (xs ++ ys) = max_step (max_skipna xs) (max_skipna ys).
Proof. unfold max_skipna at 1. rewrite fold_left_app. apply max_skipna_acc. Qed.

Lemma max_step_nan_r x : max_step x NaN = x.
Proof. done. Qed.

Lemma max_step_num x m : x <> NaN -> m <> NaN -> max_step x m = if flt x m then m else x.
Proof. destruct x, m; done. Qed.

Lemma max_skipna_spec xs :
  (max_skipna xs = NaN <-> Forall (fun x => x = NaN) xs) /\
  (max_skipna xs <> NaN -> max_skipna xs ∈ xs /\ Forall (fun x => flt (max_skipna xs) x = false) xs).
Proof.
  induction xs as [|x xs [IH1 IH2]]; [split; [split; constructor|done]|].
  rewrite max_skipna_cons, !Forall_cons_iff. set (m := max_skipna xs) in *.
  destruct (decide (m = NaN)) as [Hm|Hm].
  { rewrite Hm, max_step_nan_r. apply IH1 in Hm.
    split; [naive_solver|intros _; split; [left|split]].
    - apply flt_irrefl.
    - eapply Forall_impl; [|exact Hm]. intros y ->. apply flt_nan_r. }
  destruct (IH2 Hm) as [Hin Hall].
  destruct (decide (x = NaN)) as [->|Hx].
  { rewrite max_step_nan_l. split; [naive_solver|intros _; split; [by right|]].
    split; [apply flt_nan_r|done]. }
  rewrite max_step_num by done. destruct (flt x m) eqn:Hf.
  - split; [naive_solver|intros _; split; [by right|]]. split; [by apply flt_asym|done].
  - split; [naive_solver|intros _; split; [left|split]]; [apply flt_irrefl|].
    eapply Forall_impl; [|exact Hall]. intros y Hy. by apply (flt_not_above x m y).
Qed.

(** ** Rounding to two decimals *)
Section Rounding.
Local Open Scope Q_scope.

(** The rounded integer is within one half of its argument. *)
Lemma round_half_even_approx (q : Q) : (Qabs (q - inject_Z (round_half_even q)) <= 1 # 2)%Q.
Proof.
  unfold round_half_even. pose proof (Qfloor_le q) as H1. pose proof (Qlt_floor q) as H2.
  rewrite inject_Z_plus in H2. rewrite Qabs_Qle_condition.
  destruct (Qcompare_spec (q - inject_Z (Qfloor q)) (1 # 2)) as [H|H|H];
    try destruct (Z.even _); rewrite ?inject_Z_plus; change (inject_Z 1) with 1 in *;
    set (F := inject_Z (Qfloor q)) in *; lra.
Qed.

(** Rounding never goes below an integer lower bound. *)
Lemma round_half_even_ge (n : Z) (q : Q) : (inject_Z n <= q)%Q -> (n <= round_half_even q)%Z.
Proof.
  intros H. apply Qfloor_resp_le in H. rewrite Qfloor_Z in H.
  unfold round_half_even. destruct (_ ?= _); try destruct (Z.even _); lia.
Qed.

#[export] Instance round_half_even_proper : Proper (Qeq ==> eq) round_half_even.
Proof.
  intros p q E. unfold round_half_even. rewrite (Qfloor_comp p q E). setoid_rewrite E.
  reflexivity.
Qed.

(** [round(x, 2)] on a finite value: a whole number of hundredths. *)
Lemma round2_fin (a : Qc) :
  round2 (Fin a) = Fin (qc (inject_Z (round_half_even (this a * 100)) / 100)%Q).
Proof. reflexivity. Qed.

(** The rounded value is within half a hundredth of the exact one. *)
Lemma round2_approx (x : Q) :
  (Qabs (inject_Z (round_half_even (x * 100)) / 100 - x) <= 1 # 200)%Q.
Proof.
  pose proof (round_half_even_approx (x * 100)) as H. rewrite Qabs_Qle_condition in *.
  set (Z0 := inject_Z (round_half_even (x * 100))) in *.
  change (Z0 / 100) with (Z0 * (1 # 100)). lra.
Qed.
End Rounding.
End PyFloatFacts.
