(* ===== verification/Dates.v ===== *)
(** * Dates: the [datetime] values of the script

    Every date the script handles is a [datetime] at midnight:
    [start_datetime]/[end_datetime] (lines 72-73), the recession bounds
    (lines 174-175) and the historical events (lines 162-167).  Python
    orders such values lexicographically by (year, month, day); [max] and
    [min] on two arguments return the first argument unless the second is
    strictly larger (resp. smaller).  A date is a record of three integers
    ordered the same way. *)

From Stdlib Require Import ZArith Lia.
From Stdlib Require Import Ascii String.
From stdpp Require Import base list decidable strings.
From S2P Require Import Prelude.

Record date : Type := mkdate { year : Z; month : Z; day : Z }.

#[export] Instance date_eq_dec : EqDecision date.
Proof. solve_decision. Defined.

Module Dates.

(** Python's comparison of two [datetime]s at midnight. *)
Definition date_cmp (a b : date) : comparison :=
  match Z.compare (year a) (year b) with
  | Eq => match Z.compare (month a) (month b) with
          | Eq => Z.compare (day a) (day b)
          | c => c
          end
  | c => c
  end.

Definition date_le (a b : date) : Prop := date_cmp a b <> Gt.
Definition date_lt (a b : date) : Prop := date_cmp a b = Lt.

#[global] Instance date_le_dec : RelDecision date_le :=
  fun a b => not_dec (decide (date_cmp a b = Gt)).
#[global] Instance date_lt_dec : RelDecision date_lt :=
  fun a b => decide (date_cmp a b = Lt).

(** Python [max(a, b)] and [min(a, b)]. *)
Definition pymax (a b : date) : date := if decide (date_lt a b) then b else a.
Definition pymin (a b : date) : date := if decide (date_lt b a) then b else a.

(** Days of a month in the proleptic Gregorian calendar of [datetime]. *)
Definition leap (y : Z) : bool :=
  (Z.eqb (y mod 4) 0 && negb (Z.eqb (y mod 100) 0)) || Z.eqb (y mod 400) 0.

Definition days_in_month (y m : Z) : Z :=
  match m with
  | 2 => if leap y then 29 else 28
  | 4 | 6 | 9 | 11 => 30
  | _ => 31
  end%Z.

(** The dates [datetime(y, m, d)] accepts (it raises [ValueError] on
    the others). *)
Definition valid_date (d : date) : Prop :=
  (1 <= year d <= 9999 /\ 1 <= month d <= 12 /\ 1 <= day d <= days_in_month (year d) (month d))%Z.

#[global] Instance valid_date_dec d : Decision (valid_date d).
Proof. unfold valid_date. apply _. Defined.

End Dates.

(** ** Order facts *)
Module DateFacts.
Import Dates.

Ltac cmp_cases :=
  unfold date_le, date_lt, date_cmp in *;
  repeat match goal with H : context [Z.compare _ _] |- _ => revert H end;
  repeat match goal with
    | |- context [Z.compare ?x ?y] => destruct (Z.compare_spec x y)
    end; intros; cbn [year month day] in *; try done; try lia;
  try (by left); try (by right); try (intuition congruence).

Lemma date_cmp_eq (a b : date) : date_cmp a b = Eq <-> a = b.
Proof.
  destruct a as [y m d], b as [y' m' d']; simpl. split.
  - cmp_cases; by subst.
  - intros [= -> -> ->]. unfold date_cmp. simpl. by rewrite !Z.compare_refl.
Qed.

Lemma date_le_refl (a : date) : date_le a a.
Proof. unfold date_le. by rewrite (proj2 (date_cmp_eq a a) eq_refl). Qed.

Lemma date_le_trans (a b c : date) : date_le a b -> date_le b c -> date_le a c.
Proof. destruct a, b, c; simpl. cmp_cases. Qed.

Lemma date_le_antisym (a b : date) : date_le a b -> date_le b a -> a = b.
Proof. destruct a as [y m d], b as [y' m' d']; simpl. cmp_cases; f_equal; lia. Qed.

Lemma date_le_total (a b : date) : date_le a b \/ date_le b a.
Proof. destruct a, b; simpl. cmp_cases. Qed.

Lemma date_lt_le (a b : date) : date_lt a b -> date_le a b.
Proof. destruct a, b; simpl. cmp_cases. Qed.

Lemma date_not_lt (a b : date) : ~ date_lt a b <-> date_le b a.
Proof. destruct a, b; simpl. cmp_cases. Qed.

Lemma date_not_le (a b : date) : ~ date_le a b <-> date_lt b a.
Proof. destruct a, b; simpl. cmp_cases. Qed.

Lemma date_lt_le_trans (a b c : date) : date_lt a b -> date_le b c -> date_lt a c.
Proof. destruct a, b, c; simpl. cmp_cases. Qed.

Lemma date_le_lt_trans (a b c : date) : date_le a b -> date_lt b c -> date_lt a c.
Proof. destruct a, b, c; simpl. cmp_cases. Qed.

Lemma date_lt_irrefl (a : date) : ~ date_lt a a.
Proof. destruct a; simpl. cmp_cases. Qed.

(** [max]/[min] return an upper/lower bound of both arguments. *)
Lemma pymax_le_l (a b : date) : date_le a (pymax a b).
Proof. unfold pymax. case_decide; [by apply date_lt_le | apply date_le_refl]. Qed.

Lemma pymax_le_r (a b : date) : date_le b (pymax a b).
Proof. unfold pymax. case_decide; [apply date_le_refl | by apply date_not_lt]. Qed.

Lemma pymin_le_l (a b : date) : date_le (pymin a b) a.
Proof. unfold pymin. case_decide; [by apply date_lt_le | apply date_le_refl]. Qed.

Lemma pymin_le_r (a b : date) : date_le (pymin a b) b.
Proof. unfold pymin. case_decide; [apply date_le_refl | by apply date_not_lt]. Qed.

Lemma pymax_lub (a b c : date) : date_le a c -> date_le b c -> date_le (pymax a b) c.
Proof. unfold pymax. by case_decide. Qed.

Lemma pymin_glb (a b c : date) : date_le c a -> date_le c b -> date_le c (pymin a b).
Proof. unfold pymin. by case_decide. Qed.

Lemma pymax_r (a b : date) : date_le a b -> pymax a b = b.
Proof.
  intros H. unfold pymax. case_decide; [done|].
  apply date_le_antisym; [done|]. by apply date_not_lt.
Qed.

Lemma pymin_r (a b : date) : date_le b a -> pymin a b = b.
Proof.
  intros H. unfold pymin. case_decide; [done|].
  apply date_le_antisym; [by apply date_not_lt|done].
Qed.

Lemma pymax_l (a b : date) : date_le b a -> pymax a b = a.
Proof. intros H. unfold pymax. case_decide; [|done]. apply date_le_antisym; [done|by apply date_lt_le]. Qed.

Lemma pymin_l (a b : date) : date_le a b -> pymin a b = a.
Proof. intros H. unfold pymin. case_decide; [|done]. apply date_le_antisym; [by apply date_lt_le|done]. Qed.
End DateFacts.

#[export] Hint Resolve DateFacts.date_le_refl DateFacts.pymax_le_l DateFacts.pymax_le_r
  DateFacts.pymin_le_l DateFacts.pymin_le_r DateFacts.date_lt_le : pyhints.

(** ** Dates as text

    [date.isoformat()] (used by [str(end_date)], line 262) and
    [strftime("%Y-%m-%d")] (line 146) write a date as [YYYY-MM-DD], the
    year on four digits; the data source reads the two request dates back
    from that text. *)
Module DateText.
Import Dates.

Definition digit (n : Z) : Ascii.ascii := Ascii.ascii_of_nat (48 + Z.to_nat n).

Definition digit_val (c : Ascii.ascii) : option Z :=
  let n := Ascii.nat_of_ascii c in
  if decide (48 <= n <= 57)%nat then Some (Z.of_nat n - 48)%Z else None.

Definition pad2 (n : Z) : string :=
  String (digit ((n / 10) mod 10)) (String (digit (n mod 10)) EmptyString).

Definition pad4 (n : Z) : string :=
  String (digit ((n / 1000) mod 10)) (String (digit ((n / 100) mod 10)) (pad2 n)).

(** ["%Y-%m-%d"] *)
Definition iso_date (d : date) : string :=
  pad4 (year d) +:+ "-" +:+ pad2 (month d) +:+ "-" +:+ pad2 (day d).

(** Reading [YYYY-MM-DD] back. *)
Definition parse_iso (s : string) : option date :=
  match s with
  | String y1 (String y2 (String y3 (String y4 (String "-"%char
      (String m1 (String m2 (String "-"%char (String d1 (String d2 EmptyString))))))))) =>
      a ← digit_val y1; b ← digit_val y2; c ← digit_val y3; e ← digit_val y4;
      f ← digit_val m1; g ← digit_val m2; h ← digit_val d1; i ← digit_val d2;
      Some (mkdate (1000 * a + 100 * b + 10 * c + e) (10 * f + g) (10 * h + i))
  | _ => None
  end.

Lemma digit_val_digit (n : Z) : (0 <= n <= 9)%Z -> digit_val (digit n) = Some n.
Proof.
  intros Hn. unfold digit_val, digit.
  rewrite Ascii.nat_ascii_embedding by lia.
  rewrite decide_True by lia. f_equal. lia.
Qed.

Lemma days_in_month_le (y m : Z) : (days_in_month y m <= 31)%Z.
Proof. unfold days_in_month. repeat case_match; lia. Qed.

Lemma digit_val_mod (n : Z) : digit_val (digit (n mod 10)) = Some (n mod 10)%Z.
Proof. apply digit_val_digit. pose proof (Z.mod_pos_bound n 10). lia. Qed.

Lemma div_small_digit (n k : Z) : (0 < k)%Z -> (0 <= n < k * 10)%Z -> ((n / k) mod 10 = n / k)%Z.
Proof.
  intros Hk Hn. apply Z.mod_small.
  split; [apply Z.div_pos|apply Z.div_lt_upper_bound]; lia.
Qed.

(** The digits [pad2] writes spell the number back. *)
Lemma two_digits (n : Z) : (0 <= n < 100)%Z -> (10 * ((n / 10) mod 10) + n mod 10 = n)%Z.
Proof.
  intros Hn. rewrite (div_small_digit n 10) by lia.
  pose proof (Z.div_mod n 10). lia.
Qed.

(** The digits [pad4] writes spell the number back. *)
Lemma four_digits (n : Z) : (0 <= n < 10000)%Z ->
  (1000 * ((n / 1000) mod 10) + 100 * ((n / 100) mod 10) + 10 * ((n / 10) mod 10) + n mod 10 = n)%Z.
Proof.
  intros Hn. rewrite (div_small_digit n 1000) by lia.
  assert (E1 : (n / 100 = n / 10 / 10)%Z) by (rewrite Z.div_div by lia; reflexivity).
  assert (E2 : (n / 1000 = n / 10 / 10 / 10)%Z) by (rewrite !Z.div_div by lia; reflexivity).
  rewrite E1, E2.
  pose proof (Z.div_mod n 10). pose proof (Z.div_mod (n / 10) 10).
  pose proof (Z.div_mod (n / 10 / 10) 10). lia.
Qed.

#[local] Opaque digit digit_val.

(** Reading back the text of a valid date. *)
Lemma parse_iso_iso (d : date) : valid_date d -> parse_iso (iso_date d) = Some d.
Proof.
  destruct d as [y m dd]. unfold valid_date. simpl. intros (Hy & Hm & Hd).
  pose proof (days_in_month_le y m).
  unfold iso_date, pad4, pad2. simpl.
  rewrite !digit_val_mod. simpl.
  rewrite four_digits, !two_digits by lia. reflexivity.
Qed.

(** C31: The request dates reach the data source intact: for every date
    [datetime] accepts, reading back the text [YYYY-MM-DD] that
    [strftime("%Y-%m-%d")] writes (line 146) gives the same date; in
    particular two different dates are never sent as the same text. *)
Theorem parse_iso_date (d : date) : valid_date d -> parse_iso (iso_date d) = Some d.
Proof. apply parse_iso_iso. Qed.
End DateText.

Module DateExamples.
Import Dates DateText.

Lemma parse_iso_date_witness :
  valid_date (mkdate 2025 12 31) /\
  parse_iso (iso_date (mkdate 2025 12 31)) = Some (mkdate 2025 12 31).
Proof.
  assert (H : valid_date (mkdate 2025 12 31)) by by_eval.
  split; [exact H | apply (parse_iso_date _ H)].
Defined.
End DateExamples.
