(* ===== verification/Frame.v ===== *)
(** * Frame: the pandas Series and DataFrame of the script

    A closing-price Series (what [get_normalized_data] returns, line 22)
    is a list of (date, value) rows in index order.  [pd.DataFrame(data)]
    (line 157) aligns the Series of the dict [data] on the union of their
    indexes, in increasing date order, and fills the dates a Series lacks
    with [nan]; a column keeps its dict key as its label.  The file models
    that alignment ([from_dict]), the relabelling of line 158 ([rename]),
    [df.max().max()] (lines 191, 199, 214), [iloc[0]]/[iloc[-1]]
    (lines 246-247) and [df.to_csv(index=True)] (line 258).  [FrameFacts]
    proves the join an outer join, [df.max().max()] the largest cell, and
    the export lossless against pandas' reader [read_csv]. *)

From Stdlib Require Import ZArith QArith Qcanon Lia Sorted.
From stdpp Require Import base list decidable strings.
From S2P Require Import Prelude PyFloat Dates.
Import Dates PyFloat.

(** A Series with a DatetimeIndex. *)
Definition series : Type := list (date * pyfloat).

(** A DataFrame: its index and its labelled columns, in column order. *)
Record dataframe : Type := mkdf {
  df_index : list date;
  df_columns : list (string * list pyfloat)
}.

(** A cell of the CSV export: text, a date of the index, or a number. *)
Inductive cell : Type :=
| CText (s : string)
| CDate (d : date)
| CNum (x : pyfloat).

Module Frame.

(** Union of two increasing date lists, itself increasing: the index
    [Index.union] builds for the outer join. *)
Fixpoint union_dates (xs ys : list date) : list date :=
  match xs with
  | [] => ys
  | x :: xs' =>
      (fix go (ys : list date) : list date :=
         match ys with
         | [] => xs
         | y :: ys' =>
             if decide (date_lt x y) then x :: union_dates xs' ys
             else if decide (date_lt y x) then y :: go ys'
             else x :: union_dates xs' ys'
         end) ys
  end.

Definition union_index (data : list (string * series)) : list date :=
  foldr (fun kv acc => union_dates (kv.2).*1 acc) [] data.

(** The value of a Series at a date of the joined index, [nan] when
    the Series has no row there. *)
Fixpoint value_at (s : series) (d : date) : pyfloat :=
  match s with
  | [] => NaN
  | (d', v) :: s' => if decide (d = d') then v else value_at s' d
  end.

(** [pd.DataFrame(data)] for a dict of Series. *)
Definition from_dict (data : list (string * series)) : dataframe :=
  let idx := union_index data in
  mkdf idx ((fun kv => (kv.1, value_at kv.2 <$> idx)) <$> data).

(** [df.columns = [f(c) for c in df.columns]] *)
Definition rename (f : string -> string) (df : dataframe) : dataframe :=
  mkdf (df_index df) ((fun kc => (f kc.1, kc.2)) <$> df_columns df).

(** [df.max().max()]: the largest value of the frame, [nan] skipped. *)
Definition df_max (df : dataframe) : pyfloat :=
  max_skipna ((fun kc => max_skipna kc.2) <$> df_columns df).

(** [col.iloc[0]] and [col.iloc[-1]]; [None] stands for the
    [IndexError] of an empty column. *)
Definition iloc_first (c : list pyfloat) : option pyfloat := head c.
Definition iloc_last (c : list pyfloat) : option pyfloat := last c.

(** [df.to_csv(index=True)]: a header row with the index name and the
    column labels, then one row per index date; [nan] is written as an
    empty field.  The index keeps the name "Date" the data source gives
    it. *)
Definition csv_value (x : pyfloat) : cell :=
  match x with NaN => CText "" | _ => CNum x end.

Fixpoint csv_rows (idx : list date) (cols : list (list pyfloat)) : list (list cell) :=
  match idx with
  | [] => []
  | d :: idx' => (CDate d :: map (fun c => csv_value (default NaN (head c))) cols)
                  :: csv_rows idx' (map tail cols)
  end.

Definition to_csv (df : dataframe) : list (list cell) :=
  (CText "Date" :: map (fun kc => CText kc.1) (df_columns df))
    :: csv_rows (df_index df) (map snd (df_columns df)).

End Frame.

(** ** The outer join *)
Module FrameFacts.
Import Frame DateFacts.

#[export] Instance date_lt_trans : Transitive date_lt.
Proof. intros a b c Hab Hbc. eapply date_lt_le_trans; eauto using date_lt_le. Qed.

(** A Series with a strictly increasing index, as the data source
    returns it. *)
Definition series_wf (s : series) : Prop := Sorted date_lt s.*1.

Lemma union_dates_cons_cons x xs y ys :
  union_dates (x :: xs) (y :: ys) =
  if decide (date_lt x y) then x :: union_dates xs (y :: ys)
  else if decide (date_lt y x) then y :: union_dates (x :: xs) ys
  else x :: union_dates xs ys.
Proof. reflexivity. Qed.

Lemma union_dates_nil_r xs : union_dates xs [] = xs.
Proof. by destruct xs. Qed.

Lemma elem_of_union_dates d xs ys :
  d ∈ union_dates xs ys <-> d ∈ xs \/ d ∈ ys.
Proof.
  revert ys. induction xs as [|x xs IHx]; intros ys.
  { simpl. rewrite elem_of_nil. tauto. }
  induction ys as [|y ys IHy].
  { rewrite union_dates_nil_r, elem_of_nil. tauto. }
  rewrite union_dates_cons_cons. repeat case_decide; rewrite ?elem_of_cons.
  - rewrite IHx, ?elem_of_cons. tauto.
  - rewrite IHy, ?elem_of_cons. tauto.
  - assert (x = y) as <-.
    { apply date_le_antisym; by apply date_not_lt. }
    rewrite IHx, ?elem_of_cons. tauto.
Qed.

Lemma union_dates_HdRel z xs ys :
  HdRel date_lt z xs -> HdRel date_lt z ys -> HdRel date_lt z (union_dates xs ys).
Proof.
  intros Hx Hy. destruct xs as [|x xs]; [done|].
  destruct ys as [|y ys]; [by rewrite union_dates_nil_r|].
  rewrite union_dates_cons_cons. inversion Hx; inversion Hy; subst.
  repeat case_decide; by constructor.
Qed.

(** The union of two increasing date lists is increasing. *)
Lemma union_dates_sorted xs ys :
  Sorted date_lt xs -> Sorted date_lt ys -> Sorted date_lt (union_dates xs ys).
Proof.
  revert ys. induction xs as [|x xs IHx]; intros ys Hxs Hys; [done|].
  induction ys as [|y ys IHy]; [by rewrite union_dates_nil_r|].
  apply Sorted_inv in Hxs as [Hxs Hx]. apply Sorted_inv in Hys as [Hys' Hy].
  rewrite union_dates_cons_cons. repeat case_decide.
  - constructor; [by apply IHx; [|constructor]|].
    apply union_dates_HdRel; [done|by constructor].
  - constructor; [by apply IHy|].
    apply union_dates_HdRel; [by constructor|done].
  - assert (x = y) as <-.
    { apply date_le_antisym; by apply date_not_lt. }
    constructor; [by apply IHx|]. by apply union_dates_HdRel.
Qed.

Lemma union_index_sorted data :
  Forall (fun kv => series_wf kv.2) data -> Sorted date_lt (union_index data).
Proof.
  induction data as [|[k sr] data IH]; intros Hwf; simpl; [constructor|].
  apply Forall_cons in Hwf as [Hs Hwf]. apply union_dates_sorted; auto.
Qed.

Lemma elem_of_union_index d data :
  d ∈ union_index data <-> exists kv, kv ∈ data /\ d ∈ (kv.2).*1.
Proof.
  induction data as [|kv data IH]; simpl.
  - rewrite elem_of_nil. split; [done|]. by intros (? & ?%elem_of_nil & _).
  - rewrite elem_of_union_dates, IH. split.
    + intros [Hd|(kv' & Hkv' & Hd)]; [exists kv|exists kv']; rewrite elem_of_cons; auto.
    + intros (kv' & [->|Hkv']%elem_of_cons & Hd); [by left|right; by exists kv'].
Qed.

Lemma value_at_elem (sr : series) d v :
  NoDup sr.*1 -> (d, v) ∈ sr -> value_at sr d = v.
Proof.
  induction sr as [|[d' v'] sr IH]; csimpl; [by rewrite elem_of_nil|].
  rewrite list.NoDup_cons, elem_of_cons. intros [Hn Hnd] [[= -> ->]|Hin]; simpl.
  - by rewrite decide_True.
  - rewrite decide_False; [auto|]. intros <-. apply Hn, (list_elem_of_fmap_2 fst _ (d, v)), Hin.
Qed.

(** A Series read at its own dates gives back its values. *)
Lemma value_at_own (sr : series) : NoDup sr.*1 -> value_at sr <$> sr.*1 = sr.*2.
Proof.
  induction sr as [|[d v] sr IH]; csimpl; [done|]. rewrite list.NoDup_cons.
  intros [Hn Hnd]. simpl. rewrite decide_True by done. f_equal. rewrite <- IH by done.
  apply list_fmap_ext. intros _ d' Hd'%list_elem_of_lookup_2. simpl.
  rewrite decide_False; [done|]. by intros ->.
Qed.

(** A table with at least one date has no empty column. *)
Lemma from_dict_nonempty data :
  union_index data <> [] -> Forall (fun kc => kc.2 <> []) (df_columns (from_dict data)).
Proof.
  intros Hne. unfold from_dict. simpl. apply Forall_fmap, Forall_forall. intros kv _. simpl.
  by intros ?%fmap_nil_inv.
Qed.

Lemma value_at_absent (sr : series) d : d ∉ sr.*1 -> value_at sr d = NaN.
Proof.
  induction sr as [|[d' v'] sr IH]; csimpl; [done|].
  rewrite not_elem_of_cons. intros [Hne Hn]. simpl. rewrite decide_False; auto.
Qed.

Lemma series_wf_NoDup (sr : series) : series_wf sr -> NoDup sr.*1.
Proof.
  intros Hs. apply Sorted_StronglySorted in Hs;
    [|intros x y z Hxy Hyz; by transitivity y].
  induction Hs as [|d l Hl IH Hall]; constructor; [|done].
  intros Hin. rewrite Forall_forall in Hall. by apply (date_lt_irrefl d), Hall.
Qed.

Lemma from_dict_column data j k sr :
  data !! j = Some (k, sr) ->
  df_columns (from_dict data) !! j = Some (k, value_at sr <$> union_index data).
Proof. intros Hj. unfold from_dict. simpl. rewrite list_lookup_fmap. unfold series in *. by rewrite Hj. Qed.

(** C9: [pd.DataFrame(data)] is the outer join of the Series (line 157):
    its index is strictly increasing and holds exactly the dates of the
    Series; the column of each Series keeps its key, has one cell per
    index date, holds the Series' value at each of its dates and [nan]
    at every other date. *)
Theorem from_dict_outer_join data :
  Forall (fun kv => series_wf kv.2) data ->
  let df := from_dict data in
  Sorted date_lt (df_index df) /\
  (forall d, d ∈ df_index df <-> exists kv, kv ∈ data /\ d ∈ (kv.2).*1) /\
  forall j k sr, data !! j = Some (k, sr) ->
    exists c, df_columns df !! j = Some (k, c) /\ length c = length (df_index df) /\
      (forall d v, (d, v) ∈ sr -> exists i, df_index df !! i = Some d /\ c !! i = Some v) /\
      (forall i d, df_index df !! i = Some d -> d ∉ sr.*1 -> c !! i = Some NaN).
Proof.
  intros Hwf df. split_and!; [by apply union_index_sorted|intros d; apply elem_of_union_index|].
  intros j k sr Hj. exists (value_at sr <$> union_index data). unfold df.
  change (df_index (from_dict data)) with (union_index data).
  split_and!.
  - by apply from_dict_column.
  - apply length_fmap.
  - intros d v Hin.
    assert (Hd : d ∈ union_index data).
    { apply elem_of_union_index. exists (k, sr). split; [by apply list_elem_of_lookup_2 with j|].
      apply (list_elem_of_fmap_2 fst _ (d, v)), Hin. }
    apply list_elem_of_lookup in Hd as [i Hi]. exists i. split; [done|].
    rewrite list_lookup_fmap, Hi. simpl. f_equal. apply value_at_elem; [|done].
    apply series_wf_NoDup. rewrite Forall_forall in Hwf.
    apply (Hwf (k, sr)). by apply list_elem_of_lookup_2 with j.
  - intros i d Hi Hn. rewrite list_lookup_fmap, Hi. simpl. by rewrite value_at_absent.
Qed.

Lemma sorted_head_le (l : list date) d :
  Sorted date_lt l -> d ∈ l -> exists h, head l = Some h /\ date_le h d.
Proof.
  intros Hs Hd. apply Sorted_StronglySorted in Hs; [|intros x y z Hxy Hyz; by transitivity y].
  destruct Hs as [|h l' _ Hall]; [by apply elem_of_nil in Hd|].
  exists h. split; [done|]. apply elem_of_cons in Hd as [->|Hd]; [apply date_le_refl|].
  rewrite Forall_forall in Hall. by apply date_lt_le, Hall.
Qed.

(** A Series all of whose dates come after a date [d0] of another Series
    gets [nan] as the first cell of its column. *)
Lemma later_series_first_nan data sr d0 :
  Forall (fun kv => series_wf kv.2) data ->
  (exists kv, kv ∈ data /\ d0 ∈ (kv.2).*1) -> (forall d, d ∈ sr.*1 -> date_lt d0 d) ->
  head (value_at sr <$> union_index data) = Some NaN.
Proof.
  intros Hwf Hd0 Hlater.
  assert (Hin : d0 ∈ union_index data) by by apply elem_of_union_index.
  destruct (sorted_head_le _ _ (union_index_sorted data Hwf) Hin) as (h & Hh & Hle).
  destruct (union_index data) as [|h' idx]; [done|]. simpl in Hh |- *. injection Hh as ->.
  rewrite value_at_absent; [done|]. intros Hh%Hlater.
  by apply (date_lt_irrefl h), (date_le_lt_trans _ d0).
Qed.

(** The rows [csv_rows] writes for columns that are functions of the
    index. *)
Lemma csv_rows_fun (idx : list date) (gs : list (date -> pyfloat)) :
  csv_rows idx ((fun g => g <$> idx) <$> gs)
  = (fun d => CDate d :: ((fun g => csv_value (g d)) <$> gs)) <$> idx.
Proof.
  induction idx as [|d idx IH]; [done|]. cbn [csv_rows fmap list_fmap]. f_equal.
  - f_equal. unfold fmap. rewrite map_map. reflexivity.
  - rewrite <- IH. f_equal. unfold fmap. rewrite map_map. reflexivity.
Qed.

(** C14: The CSV export of line 258 of the table of lines 157-158: a
    header row with the index name and the (relabelled) key of each
    Series in dict order, then one row per date of the joined index, in
    increasing order, holding the date and each Series' value there, an
    empty field where the Series has no row.  It has [1 + |index|] rows
    of [1 + |data|] cells each. *)
Theorem to_csv_from_dict (f : string -> string) (data : list (string * series)) :
  to_csv (rename f (from_dict data))
  = (CText "Date" :: ((fun kv => CText (f kv.1)) <$> data))
    :: ((fun d => CDate d :: ((fun kv => csv_value (value_at kv.2 d)) <$> data))
          <$> union_index data).
Proof.
  unfold to_csv, rename, from_dict. simpl. f_equal.
  - f_equal. rewrite <- !list_fmap_compose. reflexivity.
  - rewrite <- !list_fmap_compose.
    assert (E : (snd ∘ (fun kc : string * list pyfloat => (f kc.1, kc.2))
                 ∘ (fun kv : string * series => (kv.1, value_at kv.2 <$> union_index data)))
                = (fun g => g <$> union_index data) ∘ (fun kv : string * series => value_at kv.2))
      by reflexivity.
    change (map ?h ?l) with (h <$> l). rewrite E, list_fmap_compose, csv_rows_fun.
    apply list_fmap_ext. intros _ d _. f_equal. rewrite <- list_fmap_compose. reflexivity.
Qed.

(** [df.max().max()], a maximum of column maxima, is the maximum of
    all the cells of the table. *)
Lemma df_max_flat df : df_max df = max_skipna (concat (snd <$> df_columns df)).
Proof.
  unfold df_max. induction (df_columns df) as [|kc cols IH]; [done|]. cbn [fmap list_fmap concat].
  rewrite PyFloatFacts.max_skipna_cons, PyFloatFacts.max_skipna_app. f_equal. exact IH.
Qed.

(** C10: [df.max().max()] (lines 191, 199 and 214) is the largest cell
    of the table with [nan] skipped: it is [nan] exactly when every cell
    is [nan]; otherwise it is one of the cells and no cell is above
    it. *)
Theorem df_max_spec df :
  let cells := concat (snd <$> df_columns df) in
  (df_max df = NaN <-> Forall (fun x => x = NaN) cells) /\
  (df_max df <> NaN -> df_max df ∈ cells /\ Forall (fun x => flt (df_max df) x = false) cells).
Proof. rewrite df_max_flat. apply PyFloatFacts.max_skipna_spec. Qed.

(** ** Reading the export back

    [pd.read_csv(f, index_col=0, parse_dates=True)] on the file line 258
    writes: a header row naming the index "Date" and the columns, then one
    row per date whose cells are numbers or empty ([nan]).  A row of the
    wrong width, or a cell of another kind, is a parse error.  pandas
    renames repeated column labels ("X", "X.1"); that case is left out
    ([None]), the page's labels being distinct. *)
Definition read_cell (c : cell) : option pyfloat :=
  match c with
  | CNum x => Some x
  | CText EmptyString => Some NaN
  | _ => None
  end.

Definition read_name (c : cell) : option string :=
  match c with CText n => Some n | _ => None end.

(** The body rows of a file with [n] columns: the index and the columns. *)
Fixpoint read_rows (n : nat) (body : list (list cell)) : option (list date * list (list pyfloat)) :=
  match body with
  | [] => Some ([], replicate n [])
  | (CDate d :: cs) :: body' =>
      match mapM read_cell cs, read_rows n body' with
      | Some vs, Some (idx, cols) =>
          if decide (length vs = n) then Some (d :: idx, zip_with cons vs cols) else None
      | _, _ => None
      end
  | _ :: _ => None
  end.

Definition read_csv (rows : list (list cell)) : option dataframe :=
  match rows with
  | (CText idx_name :: hdr) :: body =>
      if decide (idx_name = "Date") then
        match mapM read_name hdr, read_rows (length hdr) body with
        | Some names, Some (idx, cols) =>
            if decide (NoDup names) then Some (mkdf idx (zip names cols)) else None
        | _, _ => None
        end
      else None
  | _ => None
  end.

Lemma read_csv_value x : read_cell (csv_value x) = Some x.
Proof. by destruct x. Qed.

(** Columns that all have a first cell are their heads consed on their
    tails. *)
Lemma zip_with_cons_head_tail (cols : list (list pyfloat)) :
  Forall (fun c => c <> []) cols ->
  zip_with cons ((fun c => default NaN (head c)) <$> cols) (tail <$> cols) = cols.
Proof. induction 1 as [|[|v c] cols Hc _ IH]; [done|done|]. simpl. by f_equal. Qed.

Lemma mapM_read_csv_value {A} (h : A -> pyfloat) (l : list A) :
  mapM read_cell ((fun a => csv_value (h a)) <$> l) = Some (h <$> l).
Proof. induction l as [|a l IH]; [done|]. rewrite !fmap_cons. simpl mapM. by rewrite read_csv_value, IH. Qed.

Lemma read_rows_csv (idx : list date) (cols : list (list pyfloat)) :
  Forall (fun c => length c = length idx) cols ->
  read_rows (length cols) (csv_rows idx cols) = Some (idx, cols).
Proof.
  revert cols. induction idx as [|d idx IH]; intros cols Hl; simpl.
  - f_equal. f_equal. induction Hl as [|c cols Hc _ IHc]; [done|]. simpl.
    apply nil_length_inv in Hc as ->. by f_equal.
  - change (map ?h ?l) with (h <$> l). rewrite mapM_read_csv_value.
    pose proof (IH (tail <$> cols)) as IH'. rewrite length_fmap in IH'. rewrite IH'.
    + rewrite decide_True by (by rewrite length_fmap). do 3 f_equal.
      apply zip_with_cons_head_tail. eapply Forall_impl; [exact Hl|]. by intros [|] ?.
    + apply Forall_fmap. eapply Forall_impl; [exact Hl|].
      intros [|v c]; simpl; lia.
Qed.

(** Every table whose columns are as long as its index reads back from
    its export. *)
Lemma read_csv_to_csv df :
  NoDup (df_columns df).*1 ->
  Forall (fun kc => length kc.2 = length (df_index df)) (df_columns df) ->
  read_csv (to_csv df) = Some df.
Proof.
  destruct df as [idx cols]. cbn [df_index df_columns]. intros Hnd Hl. unfold read_csv, to_csv.
  cbn [df_index df_columns]. rewrite decide_True by done. change (map ?h ?l) with (h <$> l).
  change ((fun kc : string * list pyfloat => CText kc.1) <$> cols) with ((CText ∘ fst) <$> cols).
  rewrite (list_fmap_compose fst CText), (mapM_fmap_Some read_name CText _ (fun _ => eq_refl)).
  rewrite !length_fmap, <- (length_fmap snd cols), read_rows_csv.
  - by rewrite decide_True, zip_fst_snd.
  - by apply Forall_fmap.
Qed.

(** C15: The CSV the page offers for download (line 258) loses nothing:
    reading it back with the "Date" column as index gives exactly the
    table of lines 157-158, labels, dates, values and [nan] cells
    included, whenever the labels are distinct. *)
Theorem csv_roundtrip (f : string -> string) (data : list (string * series)) :
  NoDup (f <$> data.*1) ->
  read_csv (to_csv (rename f (from_dict data))) = Some (rename f (from_dict data)).
Proof.
  intros Hnd. apply read_csv_to_csv; unfold rename, from_dict; cbn [df_index df_columns].
  { rewrite <- !list_fmap_compose. change (NoDup ((f ∘ fst) <$> data)). by rewrite list_fmap_compose. }
  rewrite <- list_fmap_compose. apply Forall_fmap, Forall_forall. intros kv _. apply length_fmap.
Qed.

(** Keeping some rows of an increasing index keeps it increasing. *)
Lemma sorted_filter (P : date -> Prop) `{!∀ d, Decision (P d)} (l : list date) :
  Sorted date_lt l -> Sorted date_lt (filter P l).
Proof.
  intros Hs. apply StronglySorted_Sorted.
  apply Sorted_StronglySorted in Hs; [|intros x y z Hxy Hyz; by transitivity y].
  induction Hs as [|d l Hl IH Hall]; [constructor|].
  rewrite filter_cons. case_decide; [|done]. constructor; [done|].
  rewrite Forall_forall in Hall |- *. intros x [_ Hx]%list_elem_of_filter. by apply Hall.
Qed.

End FrameFacts.

(** ** A concrete join *)
Module FrameExamples.
Import Frame FrameFacts.

(** Gold trades on 2 and 3 January, Tesla on 3 and 6 January. *)
Definition ex_data : list (string * series) :=
  [("GC=F", [(mkdate 2020 1 2, Fin (qc 100)); (mkdate 2020 1 3, Fin (qc 110))]);
   ("TSLA", [(mkdate 2020 1 3, Fin (qc 100)); (mkdate 2020 1 6, Fin (qc 90))])].

Lemma from_dict_outer_join_witness :
  let df := from_dict ex_data in
  (Sorted date_lt (df_index df) /\
   (forall d, d ∈ df_index df <-> exists kv, kv ∈ ex_data /\ d ∈ (kv.2).*1) /\
   forall j k sr, ex_data !! j = Some (k, sr) ->
     exists c, df_columns df !! j = Some (k, c) /\ length c = length (df_index df) /\
       (forall d v, (d, v) ∈ sr -> exists i, df_index df !! i = Some d /\ c !! i = Some v) /\
       (forall i d, df_index df !! i = Some d -> d ∉ sr.*1 -> c !! i = Some NaN)) /\
  df_index df = [mkdate 2020 1 2; mkdate 2020 1 3; mkdate 2020 1 6] /\
  df_columns df = [("GC=F", [Fin (qc 100); Fin (qc 110); NaN]); ("TSLA", [NaN; Fin (qc 100); Fin (qc 90)])].
Proof.
  split; [apply from_dict_outer_join; repeat constructor; by_eval|split; by_eval].
Defined.
(** The joined table has a [nan] in each column; its maximum is 110. *)
Lemma df_max_spec_witness :
  df_max (from_dict ex_data) = Fin (qc 110) /\
  let cells := concat (snd <$> df_columns (from_dict ex_data)) in
  (df_max (from_dict ex_data) = NaN <-> Forall (fun x => x = NaN) cells) /\
  (df_max (from_dict ex_data) <> NaN ->
   df_max (from_dict ex_data) ∈ cells /\ Forall (fun x => flt (df_max (from_dict ex_data)) x = false) cells).
Proof. split; [by_eval|apply df_max_spec]. Defined.
Lemma csv_roundtrip_witness :
  read_csv (to_csv (rename id (from_dict ex_data))) = Some (rename id (from_dict ex_data)).
Proof. apply csv_roundtrip. by_eval. Defined.
End FrameExamples.
