(* ===== verification/Figure.v ===== *)
(** * Figure: the plotly figure the script assembles

    [go.Figure()] (line 179) starts empty; [add_trace] (line 181) appends
    a line trace, [add_shape] (line 186) a rectangle, [add_vline]
    (line 212) a vertical dashed line shape, [add_annotation] (lines 197,
    213) a text label, and [update_layout] (line 220) sets the layout.
    Styling arguments that are constants of the calls (colours,
    opacities, fonts, widths) are recorded only by the kind of element. *)

From Stdlib Require Import ZArith.
From stdpp Require Import base list strings decidable.
From S2P Require Import Prelude PyFloat Dates.

(** [go.Scatter(x=df.index, y=df[column], mode='lines', name=column)] *)
Record trace : Type := mktrace { tr_x : list date; tr_y : list pyfloat; tr_name : string }.

Inductive shape : Type :=
(** [type="rect"], grey, below the traces *)
| SRect (x0 x1 : date) (y0 y1 : pyfloat)
(** [add_vline(x=..., line_dash="dash", line_color="red")] *)
| SVLine (x : date).

(** [add_annotation(x=..., y=..., text=..., showarrow=...)] *)
Record annotation : Type :=
  mkannot { an_x : date; an_y : pyfloat; an_text : string; an_showarrow : bool }.

Record layout : Type := mklayout {
  lay_title : string; lay_xaxis_title : string; lay_yaxis_title : string;
  lay_hovermode : string; lay_height : Z
}.

Record figure : Type := mkfig {
  fig_traces : list trace;
  fig_shapes : list shape;
  fig_annotations : list annotation;
  fig_layout : option layout
}.

#[export] Instance trace_eq_dec : EqDecision trace.
Proof. solve_decision. Defined.
#[export] Instance shape_eq_dec : EqDecision shape.
Proof. solve_decision. Defined.
#[export] Instance annotation_eq_dec : EqDecision annotation.
Proof. solve_decision. Defined.
#[export] Instance layout_eq_dec : EqDecision layout.
Proof. solve_decision. Defined.
#[export] Instance figure_eq_dec : EqDecision figure.
Proof. solve_decision. Defined.

Module Figure.
Definition empty : figure := mkfig [] [] [] None.

Definition add_trace (t : trace) (f : figure) : figure :=
  mkfig (fig_traces f ++ [t]) (fig_shapes f) (fig_annotations f) (fig_layout f).

Definition add_shape (s : shape) (f : figure) : figure :=
  mkfig (fig_traces f) (fig_shapes f ++ [s]) (fig_annotations f) (fig_layout f).

Definition add_vline (x : date) (f : figure) : figure := add_shape (SVLine x) f.

Definition add_annotation (a : annotation) (f : figure) : figure :=
  mkfig (fig_traces f) (fig_shapes f) (fig_annotations f ++ [a]) (fig_layout f).

Definition update_layout (l : layout) (f : figure) : figure :=
  mkfig (fig_traces f) (fig_shapes f) (fig_annotations f) (Some l).
End Figure.
