(* ===== verification/Streamlit.v ===== *)
(** * Streamlit: the page the script writes and the exceptions it raises

    A run of the script is a computation of the monad [PyM] of the
    prelude at the output type [out] (the elements written to the page,
    in order) and the exception type [exn].  Each constructor of [out] is
    one kind of Streamlit call of [src/idl/app.py]; its arguments are what
    the call shows. *)

From Stdlib Require Import ZArith.
From stdpp Require Import base list strings.
From S2P Require Import Prelude PyFloat Dates Frame Figure.

Inductive out : Type :=
(** [st.markdown(html, unsafe_allow_html=True)] (line 30) *)
| OStyle (html : string)
(** [st.sidebar.title], [st.sidebar.markdown], [st.sidebar.header] *)
| OSidebarTitle (s : string)
| OSidebarMarkdown (s : string)
| OSidebarHeader (s : string)
(** the sidebar widgets, with the value they return *)
| ODateInput (label : string) (value : date)
| OMultiselect (label : string) (selected : list string)
| OCheckbox (label : string) (value : bool)
(** [st.write], [st.warning], [st.error] in the main area *)
| OWrite (s : string)
| OWarning (s : string)
| OError (s : string)
(** [st.write(f"{asset}: {return_value}")] (line 251): the asset and
    the number Python prints *)
| OWriteReturn (asset : string) (value : pyfloat)
(** [st.plotly_chart(fig)] (line 240) *)
| OChart (f : figure)
(** [st.download_button(label, data=csv, file_name=...)] (line 259) *)
| ODownload (label : string) (data : list (list cell)) (file_name : string) (mime : string)
(** [st.image("hedgehog_logo.png", width=150)] (line 270) *)
| OImage (path : string) (width : Z)
(** [cols = st.columns(weights)] followed by [with cols[index]: ...]
    writing one element (lines 256-259, 268-270) *)
| OColumn (weights : list nat) (index : nat) (o : out).

Inductive exn : Type :=
(** [KeyError(key)], raised by a missing column label *)
| KeyError (key : string)
(** [IndexError(msg)], raised by [iloc] on an empty Series *)
| IndexError (msg : string)
(** an exception raised inside the data source, with its [str] *)
| SourceError (msg : string)
(** [StreamlitAPIException], raised by a widget given invalid arguments *)
| StreamlitAPIException (msg : string).

(** Python's [str(e)]. *)
Definition exn_str (e : exn) : string :=
  match e with
  | KeyError k => "'" +:+ k +:+ "'"
  | IndexError m => m
  | SourceError m => m
  | StreamlitAPIException m => m
  end.

(** The script monad. *)
Abbreviation St := (PyM out exn).
