(* ===== verification/Widgets.v ===== *)
(** * Widgets: the sidebar date inputs and checkbox

    Streamlit's [st.date_input] and [st.checkbox] are not part of the
    repository; they are modelled from their documented behaviour.  A
    date input first checks that [min_value <= max_value], then that its
    default [value] lies in [[min_value, max_value]], and raises
    [StreamlitAPIException] otherwise, on every run and whatever the user picked; then it returns
    the user's pick, which the date picker only offers inside the bounds,
    or the default when there is none.  Streamlit keys the state of a
    date input without [key] by its parameters, so the pick handed to a
    run is one made on a widget with the same bounds (see [Session]); a
    pick outside the bounds, which such a widget cannot hold, is read as
    no pick.
    Module [Sidebar] holds the two date inputs of lines 70-73, with the
    range they guarantee and the failure they raise once
    [datetime.now()] passes the ceiling of line 71. *)

From Stdlib Require Import ZArith.
From stdpp Require Import base list decidable strings pretty.
From S2P Require Import Prelude Dates Streamlit.
Import Dates DateText.

Module Widgets.

(** The messages of Streamlit's two checks of a date input.  The bounds
    are [date] objects formatted with [str] ([YYYY-MM-DD]); the default
    value is held as a one-element list of dates, formatted with its
    [repr], e.g. [[datetime.date(2026, 1, 5)]]. *)
Definition date_repr (d : date) : string :=
  "datetime.date(" +:+ pretty (year d) +:+ ", " +:+ pretty (month d) +:+ ", "
    +:+ pretty (day d) +:+ ")".

Definition msg_min_max (lo hi : date) : string :=
  "The `min_value`, set to " +:+ iso_date lo +:+ ", shouldn't be larger than the `max_value`, set to "
    +:+ iso_date hi +:+ ".".

Definition msg_date_range (v lo hi : date) : string :=
  "The default `value` of [" +:+ date_repr v +:+ "] must lie between the `min_value` of "
    +:+ iso_date lo +:+ " and the `max_value` of " +:+ iso_date hi +:+ ", inclusively.".

Definition in_range (lo hi d : date) : Prop := date_le lo d /\ date_le d hi.

#[export] Instance in_range_dec lo hi d : Decision (in_range lo hi d).
Proof. unfold in_range. apply _. Defined.

(** [st.sidebar.date_input(label, value=..., min_value=..., max_value=...)];
    [state] is the user's pick, [None] before the user touches the
    widget. *)
Definition date_input (label : string) (value lo hi : date) (state : option date) : St date :=
  if decide (date_lt hi lo) then raise (StreamlitAPIException (msg_min_max lo hi)) else
  if decide (in_range lo hi value) then
    let v := match state with
             | Some d => if decide (in_range lo hi d) then d else value
             | None => value
             end in
    emit (ODateInput label v);;; ret v
  else raise (StreamlitAPIException (msg_date_range value lo hi)).

(** [st.sidebar.checkbox(label, value=...)] *)
Definition checkbox (label : string) (value : bool) (state : option bool) : St bool :=
  let v := default value state in
  emit (OCheckbox label v);;; ret v.

End Widgets.

Module Sidebar.
Import Widgets.

(** The constant dates of lines 70-71. *)
Definition start_default : date := mkdate 2010 1 1.
Definition floor_date : date := mkdate 2000 1 1.
Definition ceiling_date : date := mkdate 2025 12 31.

(** Lines 70-73: [now] is the date of [datetime.now()]; the two
    [datetime.combine(d, datetime.min.time())] are midnight of the
    picked dates, which compare with the midnight datetimes of the
    reference data as the dates do. *)
Definition pick_dates (now : date) (start_pick end_pick : option date) : St (date * date) :=
  start_date <- date_input "Date de début" start_default floor_date now start_pick;;
  end_date <- date_input "Date de fin" now start_date ceiling_date end_pick;;
  ret (start_date, end_date).

End Sidebar.

Module SidebarFacts.
Import Widgets Sidebar DateFacts.

(** The value a date input returns when its default is in range. *)
Definition chosen_date (value lo hi : date) (state : option date) : date :=
  match state with
  | Some d => if decide (in_range lo hi d) then d else value
  | None => value
  end.

Lemma chosen_date_range value lo hi st :
  in_range lo hi value -> in_range lo hi (chosen_date value lo hi st).
Proof. unfold chosen_date. intros H. by repeat case_match. Qed.

Lemma date_input_ok label value lo hi st l :
  in_range lo hi value ->
  date_input label value lo hi st l
  = (l ++ [ODateInput label (chosen_date value lo hi st)], inr (chosen_date value lo hi st)).
Proof.
  intros [H1 H2]. unfold date_input. rewrite decide_False.
  - by rewrite decide_True.
  - intros Hlt. apply (date_lt_irrefl hi), (date_lt_le_trans _ lo); [done|].
    by apply (date_le_trans _ value).
Qed.

(** The message a date input raises with when its default is out of
    range. *)
Definition date_input_error (value lo hi : date) : string :=
  if decide (date_lt hi lo) then msg_min_max lo hi else msg_date_range value lo hi.

Lemma date_input_fail label value lo hi st l :
  ~ in_range lo hi value ->
  date_input label value lo hi st l
  = (l, inl (StreamlitAPIException (date_input_error value lo hi))).
Proof. intros H. unfold date_input, date_input_error. case_decide; [done|]. by rewrite decide_False. Qed.

(** The start date a run uses: the user's pick when inside
    [[2000-01-01, now]], 2010-01-01 otherwise. *)
Definition start_of (now : date) (sp : option date) : date :=
  chosen_date start_default floor_date now sp.

Lemma start_default_in_range now :
  date_le start_default now -> in_range floor_date now start_default.
Proof. intros H. split; [by_eval|done]. Qed.

Lemma start_of_range now sp :
  date_le start_default now -> in_range floor_date now (start_of now sp).
Proof. intros H. by apply chosen_date_range, start_default_in_range. Qed.

(** The end date a run uses, given the start date. *)
Definition end_of (now s : date) (ep : option date) : date :=
  chosen_date now s ceiling_date ep.

(** Lines 70-71 when [now] lies in [[2010-01-01, 2025-12-31]]: both
    inputs accept their defaults and the run goes on with the chosen
    dates. *)
Lemma pick_dates_eq now sp ep l :
  date_le start_default now -> date_le now ceiling_date ->
  pick_dates now sp ep l
  = (l ++ [ODateInput "Date de début" (start_of now sp);
           ODateInput "Date de fin" (end_of now (start_of now sp) ep)],
     inr (start_of now sp, end_of now (start_of now sp) ep)).
Proof.
  intros H1 H2. pose proof (start_of_range now sp H1) as [Hs1 Hs2].
  unfold pick_dates, bind. rewrite date_input_ok by (by apply start_default_in_range).
  rewrite date_input_ok by done. by rewrite <- app_assoc.
Qed.

(** Line 71 once [now] is past 2025-12-31: the start input still
    succeeds, and the end input raises, its default [now] being above
    its [max_value]. *)
Lemma pick_dates_crash now sp ep l :
  date_lt ceiling_date now ->
  pick_dates now sp ep l
  = (l ++ [ODateInput "Date de début" (start_of now sp)],
     inl (StreamlitAPIException (date_input_error now (start_of now sp) ceiling_date))).
Proof.
  intros H. assert (H1 : date_le start_default now)
    by (eapply date_le_trans, date_lt_le, H; by_eval).
  unfold pick_dates, bind. rewrite date_input_ok by (by apply start_default_in_range).
  rewrite date_input_fail; [done|]. intros [_ Hle].
  by apply (date_lt_irrefl now), (date_le_lt_trans _ ceiling_date).
Qed.

(** C17: The date range a run uses (lines 70-73): while [now] lies in
    [[2010-01-01, 2025-12-31]], whatever the user picked, the two date
    inputs succeed and return a start and an end with
    [2000-01-01 <= start <= end <= 2025-12-31] and [start <= now]. *)
Theorem pick_dates_range now sp ep l :
  date_le start_default now -> date_le now ceiling_date ->
  exists s e, pick_dates now sp ep l
              = (l ++ [ODateInput "Date de début" s; ODateInput "Date de fin" e], inr (s, e))
           /\ date_le floor_date s /\ date_le s e /\ date_le e ceiling_date /\ date_le s now.
Proof.
  intros H1 H2. exists (start_of now sp), (end_of now (start_of now sp) ep).
  rewrite pick_dates_eq by done.
  pose proof (start_of_range now sp H1) as [Hs1 Hs2].
  destruct (chosen_date_range now (start_of now sp) ceiling_date ep) as [He1 He2]; [done|].
  done.
Qed.

End SidebarFacts.

Module SidebarExamples.
Import Widgets Sidebar SidebarFacts.

Lemma pick_dates_range_witness :
  exists s e, pick_dates (mkdate 2025 6 1) (Some (mkdate 2024 1 1)) (Some (mkdate 2020 1 1)) []
              = ([] ++ [ODateInput "Date de début" s; ODateInput "Date de fin" e], inr (s, e))
           /\ date_le floor_date s /\ date_le s e /\ date_le e ceiling_date
           /\ date_le s (mkdate 2025 6 1).
Proof. apply pick_dates_range; by_eval. Defined.
End SidebarExamples.
