(* ===== verification/Catalog.v ===== *)
(** * Catalog: the asset table and the user's selection

    [assets_by_category] (lines 76-113) maps a category to its display
    names and their tickers.  Lines 116-131 show one multiselect per
    category and collect the chosen display names in [selected_assets];
    lines 134-140 turn them into the list of tickers to fetch,
    [all_selected_tickers], and the reverse map [ticker_to_name].  The
    multiselect widget is Streamlit's: it returns the user's current
    choice, or its default before any interaction, and raises when a
    default is not one of its options. *)

From stdpp Require Import base list decidable strings.
From S2P Require Import Prelude PyFloat Dates Frame Figure Streamlit.

Definition catalog : Type := list (string * list (string * string)).

Module Catalog.

Definition assets_by_category : catalog := [
  ("Métaux précieux", [("Or", "GC=F"); ("Argent", "SI=F"); ("Cuivre", "HG=F")]);
  ("Actions", [("Apple (AAPL)", "AAPL"); ("Tesla (TSLA)", "TSLA");
               ("Microsoft (MSFT)", "MSFT")]);
  ("Obligations", [("Obligations US Long Terme (TLT)", "TLT")]);
  ("Devises", [("Euro (EUR/USD)", "EURUSD=X"); ("Livre Sterling (GBP/USD)", "GBPUSD=X")]);
  ("ETF Populaires", [("Vanguard FTSE All-World (VWCE)", "VEUR.AS");
                      ("iShares MSCI World (IWDA)", "IWDA.AS");
                      ("Vanguard S&P 500 (VUSA)", "VUSA.AS");
                      ("iShares Core S&P 500 (CSPX)", "CSPX.AS")]);
  ("Actions Françaises", [("Accor", "AC.PA"); ("Air Liquide", "AI.PA");
                          ("Schneider Electric", "SU.PA"); ("LVMH", "MC.PA");
                          ("Hermès", "RMS.PA"); ("L'Oréal", "OR.PA");
                          ("Pernod Ricard", "RI.PA"); ("Capgemini", "CAP.PA");
                          ("Sodexo", "SW.PA"); ("TotalEnergies", "TTE.PA");
                          ("Danone", "BN.PA")])
].

(** [st.sidebar.multiselect(label, options=..., default=..., key=...)]:
    [state] is the widget's state in the session ([None] before the
    user touches it). *)
Definition multiselect (label : string) (options default : list string)
           (state : option (list string)) : St (list string) :=
  if decide (Forall (fun x => x ∈ options) default) then
    let v := match state with None => default | Some s => s end in
    emit (OMultiselect label v);;; ret v
  else raise (StreamlitAPIException
                "Every Multiselect default value must exist in options").

(** Lines 117-131, one iteration. *)
Definition select_step (pick : string -> option (list string))
           (selected_assets : list (string * list string))
           (ca : string * list (string * string)) : St (list (string * list string)) :=
  let category := ca.1 in
  let options := (ca.2).*1 in
  selected <- multiselect category options
                (if decide (category <> "Métaux précieux") then [] else ["Or"])
                (pick category);;
  (if decide (selected = [] /\ category = "Métaux précieux")
   then emit (OSidebarMarkdown "*Choisir une option*")
   else if decide (selected = []) then emit (OSidebarMarkdown "*Choisir une option*")
   else ret tt);;;
  ret (dict_set category selected selected_assets).

(** Lines 116-131. *)
Definition select_assets (cat : catalog) (pick : string -> option (list string))
  : St (list (string * list string)) :=
  foldM (select_step pick) [] cat.

(** [assets_by_category[category][asset]] *)
Definition lookup_ticker (cat : catalog) (category asset : string) : St string :=
  match dict_get category cat with
  | None => raise (KeyError category)
  | Some assets => match dict_get asset assets with
                   | None => raise (KeyError asset)
                   | Some t => ret t
                   end
  end.

(** Lines 137-140, one asset. *)
Definition merge_asset (cat : catalog) (category : string)
           (acc : list string * list (string * string)) (asset : string)
  : St (list string * list (string * string)) :=
  ticker <- lookup_ticker cat category asset;;
  ret (acc.1 ++ [ticker], dict_set ticker asset acc.2).

(** Lines 134-140: [(all_selected_tickers, ticker_to_name)]. *)
Definition merge_selections (cat : catalog) (selected_assets : list (string * list string))
  : St (list string * list (string * string)) :=
  foldM (fun acc cs => foldM (merge_asset cat cs.1) acc cs.2) ([], []) selected_assets.

(** ** Reference description *)

(** Every (category, display name, ticker) entry of the table. *)
Definition entries (cat : catalog) : list ((string * string) * string) :=
  cat ≫= fun ca => (fun nt => ((ca.1, nt.1), nt.2)) <$> ca.2.

(** The table is well formed: categories are distinct, display names
    are distinct within a category, and tickers are distinct across the
    whole table. *)
Definition catalog_wf (cat : catalog) : Prop :=
  NoDup cat.*1 /\ Forall (fun ca => NoDup (ca.2).*1) cat /\ NoDup (entries cat).*2.

#[export] Instance catalog_wf_dec cat : Decision (catalog_wf cat).
Proof. unfold catalog_wf. apply _. Defined.

(** The (category, display name) pairs a selection chooses, in order. *)
Definition chosen (sel : list (string * list string)) : list (string * string) :=
  sel ≫= fun cs => pair cs.1 <$> cs.2.

(** A selection the widgets can produce: one entry per category of the
    table, each a list of distinct display names of that category. *)
Definition selection_wf (cat : catalog) (sel : list (string * list string)) : Prop :=
  NoDup sel.*1 /\
  Forall (fun cs => NoDup cs.2 /\ match dict_get cs.1 cat with
                                  | Some assets => Forall (fun n => n ∈ assets.*1) cs.2
                                  | None => False
                                  end) sel.

#[export] Instance selection_wf_dec cat sel : Decision (selection_wf cat sel).
Proof.
  unfold selection_wf. apply and_dec; [apply _|]. apply Forall_dec. intros cs.
  apply and_dec; [apply _|]. destruct (dict_get cs.1 cat); apply _.
Defined.

End Catalog.

(** ** The merge of the selections *)
Module CatalogFacts.
Import Catalog.

(** [assets_by_category[c][n]] for a pair the code looks up. *)
Definition ticker_of (cat : catalog) (p : string * string) : string :=
  default "" (dict_get p.1 cat ≫= dict_get p.2).

(** The reverse map the merge builds for the chosen pairs. *)
Definition names_of (cat : catalog) (ps : list (string * string)) : list (string * string) :=
  (fun p => (ticker_of cat p, p.2)) <$> ps.

Definition pair_valid (cat : catalog) (p : string * string) : Prop :=
  exists assets, dict_get p.1 cat = Some assets /\ p.2 ∈ assets.*1.

Section WithCatalog.
Variable cat : catalog.
Hypothesis Hcat : catalog_wf cat.

Lemma lookup_ticker_valid p l :
  pair_valid cat p ->
  lookup_ticker cat p.1 p.2 l = (l, inr (ticker_of cat p)) /\
  ((p.1, p.2), ticker_of cat p) ∈ entries cat.
Proof.
  intros (assets & Hc & Hn). destruct (dict_get_key _ _ Hn) as [t Ht].
  unfold lookup_ticker, ticker_of. rewrite Hc. simpl. rewrite Ht. split; [done|].
  apply list_elem_of_bind. exists (p.1, assets). split; [|by apply dict_get_Some_elem].
  apply (list_elem_of_fmap_2' _ _ (p.2, t)); [by apply dict_get_Some_elem|done].
Qed.

Lemma ticker_of_inj p p' :
  pair_valid cat p -> pair_valid cat p' -> ticker_of cat p = ticker_of cat p' -> p = p'.
Proof.
  intros Hp Hp' Heq. destruct Hcat as (_ & _ & Hnd).
  destruct (lookup_ticker_valid p [] Hp) as [_ H1].
  destruct (lookup_ticker_valid p' [] Hp') as [_ H2]. rewrite Heq in H1.
  destruct p, p'. eapply NoDup_snd_inj; eauto.
Qed.

Lemma chosen_valid sel :
  selection_wf cat sel -> Forall (pair_valid cat) (chosen sel).
Proof.
  intros [_ Hsel]. apply Forall_forall. intros p (cs & Hp & Hcs)%list_elem_of_bind.
  rewrite Forall_forall in Hsel. destruct (Hsel cs Hcs) as (_ & Hm).
  destruct (dict_get cs.1 cat) as [assets|] eqn:Ha; [|done].
  apply list_elem_of_fmap in Hp as (n & -> & Hin).
  exists assets. split; [done|]. rewrite Forall_forall in Hm. by apply Hm.
Qed.

Lemma chosen_NoDup sel : selection_wf cat sel -> NoDup (chosen sel).
Proof.
  intros [Hnd Hsel]. induction sel as [|[c ns] sel IH]; [constructor|].
  unfold chosen in *. rewrite bind_cons. csimpl in *. apply list.NoDup_cons in Hnd as [Hc Hnd].
  apply Forall_cons in Hsel as [[Hns _] Hsel]. apply NoDup_app. split_and!.
  - apply NoDup_fmap_2; [apply _|done].
  - intros p (n & -> & _)%list_elem_of_fmap (cs & Hp & Hcs)%list_elem_of_bind.
    apply list_elem_of_fmap in Hp as (n' & [= Heq _] & _). apply Hc. subst.
    apply (list_elem_of_fmap_2 fst _ cs), Hcs.
  - auto.
Qed.

(** The merge loop over the chosen pairs, from a prefix [pre]. *)
Lemma merge_pairs ps pre l :
  Forall (pair_valid cat) ps -> NoDup (ticker_of cat <$> (pre ++ ps)) ->
  foldM (fun acc p => merge_asset cat p.1 acc p.2)
        (ticker_of cat <$> pre, names_of cat pre) ps l
  = (l, inr (ticker_of cat <$> (pre ++ ps), names_of cat (pre ++ ps))).
Proof.
  revert pre. induction ps as [|p ps IH]; intros pre Hv Hnd.
  { by rewrite app_nil_r. }
  apply Forall_cons in Hv as [Hp Hv]. simpl. unfold bind, merge_asset, bind.
  destruct (lookup_ticker_valid p l Hp) as [-> _]. simpl.
  rewrite dict_set_new.
  - assert (E1 : (ticker_of cat <$> pre) ++ [ticker_of cat p] = ticker_of cat <$> (pre ++ [p]))
      by (by rewrite fmap_app).
    assert (E2 : names_of cat pre ++ [(ticker_of cat p, p.2)] = names_of cat (pre ++ [p]))
      by (unfold names_of; by rewrite fmap_app).
    rewrite E1, E2, IH; [by rewrite <- app_assoc|done|by rewrite <- app_assoc].
  - unfold names_of. rewrite <- list_fmap_compose. unfold compose. simpl.
    rewrite fmap_app, fmap_cons in Hnd. apply NoDup_app in Hnd as (_ & Hd & _).
    intros Hin. apply (Hd _ Hin). left.
Qed.
Lemma chosen_tickers_NoDup sel :
  selection_wf cat sel -> NoDup (ticker_of cat <$> chosen sel).
Proof.
  intros Hsel. apply NoDup_fmap_2_strong; [|by apply chosen_NoDup].
  pose proof (chosen_valid sel Hsel) as Hv. rewrite Forall_forall in Hv.
  intros p p' Hp Hp'. apply ticker_of_inj; auto.
Qed.
End WithCatalog.

(** ** The multiselect loop *)

(** The default of the multiselect of a category (line 123). *)
Definition default_of (category : string) : list string :=
  if decide (category <> "Métaux précieux") then [] else ["Or"].

(** What the multiselect of a category returns. *)
Definition picked (pick : string -> option (list string)) (category : string) : list string :=
  default (default_of category) (pick category).

(** [selected_assets] after lines 116-131. *)
Definition selection (pick : string -> option (list string)) (cat : catalog)
  : list (string * list string) :=
  (fun ca => (ca.1, picked pick ca.1)) <$> cat.

(** What lines 116-131 write to the sidebar. *)
Definition select_page (pick : string -> option (list string)) (cat : catalog) : list out :=
  cat ≫= fun ca => OMultiselect ca.1 (picked pick ca.1)
                   :: (if decide (picked pick ca.1 = []) then [OSidebarMarkdown "*Choisir une option*"]
                       else []).

(** Every default is one of the options of its multiselect. *)
Definition defaults_ok (cat : catalog) : Prop :=
  Forall (fun ca => Forall (fun x => x ∈ (ca.2).*1) (default_of ca.1)) cat.

Lemma select_step_eq pick sel ca l :
  Forall (fun x => x ∈ (ca.2).*1) (default_of ca.1) -> ca.1 ∉ sel.*1 ->
  select_step pick sel ca l
  = (l ++ OMultiselect ca.1 (picked pick ca.1)
            :: (if decide (picked pick ca.1 = []) then [OSidebarMarkdown "*Choisir une option*"]
                else []),
     inr (sel ++ [(ca.1, picked pick ca.1)])).
Proof.
  intros Hd Hn. unfold select_step, multiselect, bind, emit, ret.
  assert (Ed : (if decide (ca.1 <> "Métaux précieux") then [] else ["Or"]) = default_of ca.1)
    by reflexivity.
  rewrite Ed, decide_True by done. simpl. rewrite dict_set_new by done.
  assert (Ep : match pick ca.1 with Some s => s | None => default_of ca.1 end = picked pick ca.1)
    by (unfold picked; by destruct (pick ca.1)).
  rewrite Ep. by repeat case_decide; simpl; rewrite <- ?app_assoc; try tauto.
Qed.

Lemma select_loop pick cat pre l :
  NoDup (pre ++ cat).*1 -> defaults_ok cat ->
  foldM (select_step pick) (selection pick pre) cat l
  = (l ++ select_page pick cat, inr (selection pick (pre ++ cat))).
Proof.
  revert pre l. induction cat as [|ca cat IH]; intros pre l Hnd Hd; simpl.
  { by rewrite !app_nil_r. }
  apply Forall_cons in Hd as [Hca Hd]. unfold bind at 1. rewrite select_step_eq; [|done|].
  - assert (E : selection pick pre ++ [(ca.1, picked pick ca.1)] = selection pick (pre ++ [ca]))
      by (unfold selection; by rewrite fmap_app).
    rewrite E, IH by (by rewrite <- ?app_assoc). unfold select_page. rewrite ?bind_cons.
    simpl. rewrite <- !app_assoc. reflexivity.
  - unfold selection. rewrite <- list_fmap_compose. intros Hin.
    rewrite fmap_app, fmap_cons in Hnd. apply NoDup_app in Hnd as (_ & Hn & _).
    apply (Hn ca.1); [exact Hin|left].
Qed.

(** Lines 116-131: with distinct categories and valid defaults, the
    loop raises nothing and stores each category's choice. *)
Lemma select_assets_eq pick cat l :
  NoDup cat.*1 -> defaults_ok cat ->
  select_assets cat pick l = (l ++ select_page pick cat, inr (selection pick cat)).
Proof. intros Hnd Hd. apply (select_loop pick cat [] l Hnd Hd). Qed.

(** Every pick of a multiselect is a list of distinct options: the
    widget offers only its options, once each. *)
Definition picks_ok (cat : catalog) (pick : string -> option (list string)) : Prop :=
  Forall (fun ca => forall v, pick ca.1 = Some v -> NoDup v /\ Forall (fun n => n ∈ (ca.2).*1) v)
         cat.

(** Display names are distinct across the whole table. *)
Definition names_distinct (cat : catalog) : Prop := NoDup (entries cat).*1.*2.

#[export] Instance defaults_ok_dec cat : Decision (defaults_ok cat).
Proof. unfold defaults_ok. apply _. Defined.
#[export] Instance names_distinct_dec cat : Decision (names_distinct cat).
Proof. unfold names_distinct. apply _. Defined.

Lemma selection_wf_of cat pick :
  catalog_wf cat -> defaults_ok cat -> picks_ok cat pick -> selection_wf cat (selection pick cat).
Proof.
  intros (Hnd & _ & _) Hd Hp. split.
  - unfold selection. by rewrite <- list_fmap_compose.
  - apply Forall_fmap, Forall_forall. intros [c assets] Hca. simpl.
    rewrite (dict_get_elem c assets cat Hnd Hca).
    unfold defaults_ok, picks_ok in Hd, Hp. rewrite Forall_forall in Hd, Hp. specialize (Hd _ Hca). specialize (Hp _ Hca).
    unfold picked. simpl in *. destruct (pick c) as [v|]; [by apply Hp|].
    simpl. split; [|done]. unfold default_of. case_decide; repeat constructor. by intros ?%elem_of_nil.
Qed.

Lemma chosen_names_NoDup cat sel :
  catalog_wf cat -> names_distinct cat -> selection_wf cat sel -> NoDup (chosen sel).*2.
Proof.
  intros Hcat Hn Hsel. apply NoDup_fmap_2_strong; [|by apply (chosen_NoDup cat)].
  pose proof (chosen_valid cat sel Hsel) as Hv. rewrite Forall_forall in Hv.
  intros p p' Hp Hp' Heq.
  destruct (lookup_ticker_valid cat p [] (Hv p Hp)) as [_ H1].
  destruct (lookup_ticker_valid cat p' [] (Hv p' Hp')) as [_ H2].
  destruct p, p'. apply (NoDup_fmap_inj_in snd (entries cat).*1); [done| | |done];
    [apply (list_elem_of_fmap_2 fst _ _ H1)|apply (list_elem_of_fmap_2 fst _ _ H2)].
Qed.

(** The merge loop of lines 134-140 as the merge of the chosen pairs. *)
Lemma merge_selections_eq (cat : catalog) sel l :
  catalog_wf cat -> selection_wf cat sel ->
  merge_selections cat sel l
  = (l, inr (ticker_of cat <$> chosen sel, names_of cat (chosen sel))).
Proof.
  intros Hcat Hsel. unfold merge_selections. rewrite foldM_nested.
  apply (merge_pairs cat (chosen sel) []); [by apply chosen_valid|].
  by apply chosen_tickers_NoDup.
Qed.

(** C11: On a well-formed table and a selection the widgets can produce,
    the merge of lines 134-140 writes nothing, raises no [KeyError], and
    returns as [all_selected_tickers] the table's ticker of every chosen
    display name, in selection order, and as [ticker_to_name] the map
    from each of those tickers to its display name. *)
Theorem merge_selections_spec (cat : catalog) sel l :
  catalog_wf cat -> selection_wf cat sel ->
  merge_selections cat sel l
  = (l, inr (ticker_of cat <$> chosen sel, names_of cat (chosen sel))).
Proof. apply merge_selections_eq. Qed.

(** C20: No ticker is fetched twice: on a well-formed table and a
    selection the widgets can produce, [all_selected_tickers] has no
    duplicate, and every ticker of it is mapped back by [ticker_to_name]
    to the display name chosen for it. *)
Theorem selected_tickers_distinct (cat : catalog) sel tickers t2n :
  catalog_wf cat -> selection_wf cat sel ->
  run (merge_selections cat sel) = ([], inr (tickers, t2n)) ->
  NoDup tickers /\ NoDup (t2n.*1) /\
  Forall (fun p => dict_get (ticker_of cat p) t2n = Some p.2) (chosen sel).
Proof.
  intros Hcat Hsel. unfold run. rewrite merge_selections_eq by done.
  intros [= <- <-]. pose proof (chosen_tickers_NoDup cat Hcat sel Hsel) as Hnd.
  assert (Hk : (names_of cat (chosen sel)).*1 = ticker_of cat <$> chosen sel).
  { unfold names_of. by rewrite <- list_fmap_compose. }
  split_and!; [done|by rewrite Hk|]. apply Forall_forall. intros p Hp.
  apply dict_get_elem; [by rewrite Hk|].
  apply (list_elem_of_fmap_2 (fun p => (ticker_of cat p, p.2))), Hp.
Qed.
(** C21: A run downloads at most 24 times: on a selection the widgets
    can produce, the merge of lines 134-140 returns distinct tickers of
    the asset table, so at most its 24 tickers, and the loop of line 144
    calls the data source at most 24 times. *)
Theorem merge_selections_bound sel l l' tickers t2n :
  selection_wf assets_by_category sel ->
  merge_selections assets_by_category sel l = (l', inr (tickers, t2n)) ->
  NoDup tickers /\ length tickers <= 24.
Proof.
  intros Hsel. assert (Hc : catalog_wf assets_by_category) by by_eval.
  rewrite merge_selections_eq by done. intros [= _ <- _].
  pose proof (chosen_tickers_NoDup _ Hc sel Hsel) as Hnd. split; [done|].
  change 24 with (length (entries assets_by_category).*2).
  apply submseteq_length, NoDup_submseteq; [done|]. intros t (p & -> & Hp)%list_elem_of_fmap.
  pose proof (chosen_valid _ _ Hsel) as Hv. rewrite Forall_forall in Hv.
  destruct (lookup_ticker_valid _ p [] (Hv p Hp)) as [_ Hent].
  apply (list_elem_of_fmap_2 snd _ _ Hent).
Qed.
End CatalogFacts.

Module CatalogData.
Import Catalog CatalogFacts.

(** The asset table of lines 76-113 is well formed: its six
    categories are distinct, the display names of each category are
    distinct, its 24 tickers are pairwise distinct, and so are its 24
    display names across categories, so the relabelling of line 158
    never gives two columns the same label. *)
Theorem assets_by_category_wf :
  catalog_wf assets_by_category /\ names_distinct assets_by_category.
Proof. split; by_eval. Qed.
End CatalogData.

(** ** Concrete runs *)
Module CatalogExamples.
Import Catalog CatalogFacts.

(** Gold and copper among the metals, Tesla among the shares. *)
Definition ex_sel : list (string * list string) :=
  [("Métaux précieux", ["Or"; "Cuivre"]); ("Actions", ["Tesla (TSLA)"]);
   ("Obligations", [])].

Lemma merge_selections_spec_witness :
  merge_selections assets_by_category ex_sel []
  = ([], inr (["GC=F"; "HG=F"; "TSLA"],
              [("GC=F", "Or"); ("HG=F", "Cuivre"); ("TSLA", "Tesla (TSLA)")])).
Proof. rewrite merge_selections_spec; [reflexivity|by_eval|by_eval]. Defined.

Lemma selected_tickers_distinct_witness :
  NoDup ["GC=F"; "HG=F"; "TSLA"] /\
  NoDup ([("GC=F", "Or"); ("HG=F", "Cuivre"); ("TSLA", "Tesla (TSLA)")].*1) /\
  Forall (fun p => dict_get (ticker_of assets_by_category p)
                     [("GC=F", "Or"); ("HG=F", "Cuivre"); ("TSLA", "Tesla (TSLA)")] = Some p.2)
         (chosen ex_sel).
Proof.
  apply (selected_tickers_distinct assets_by_category ex_sel); [by_eval|by_eval|reflexivity].
Defined.
Lemma merge_selections_bound_witness :
  selection_wf assets_by_category ex_sel /\
  NoDup ["GC=F"; "HG=F"; "TSLA"] /\ length ["GC=F"; "HG=F"; "TSLA"] <= 24.
Proof.
  assert (Hsel : selection_wf assets_by_category ex_sel) by by_eval.
  split; [exact Hsel|]. apply (merge_selections_bound ex_sel [] [] _
    [("GC=F", "Or"); ("HG=F", "Cuivre"); ("TSLA", "Tesla (TSLA)")] Hsel).
  vm_compute. reflexivity.
Defined.
End CatalogExamples.
