(* ===== verification/Fetch.v ===== *)
(** * Fetch: [get_normalized_data] and the fetch loop

    [get_normalized_data(ticker, start, end)] (lines 9-26) downloads the
    daily prices of one ticker, picks the closing-price column and divides
    it by its first value times 100; every failure is caught and reported
    on the page, and the function then returns [None].  The loop of
    lines 143-150 calls it once per selected ticker and keeps the
    non-empty results in the dict [data].

    The data source [yf.download] is external: it is a function of the
    ticker and the two date strings that returns a frame or raises.  A
    frame has an index of dates and columns labelled either by a field
    name ("Close", "Open", ...) or, under a column MultiIndex, by the
    pair (field, ticker) whose ticker is the one downloaded; these are
    the two layouts lines 15-18 handle. *)

From Stdlib Require Import ZArith QArith Qcanon Sorted.
From stdpp Require Import base list decidable strings.
From S2P Require Import Prelude PyFloat Dates Frame Figure Streamlit.
Import PyFloat.

(** The column layout of a downloaded frame. *)
Inductive columns : Type :=
(** single-level labels: [raw_data['Close']] *)
| FlatCols (cols : list (string * list pyfloat))
(** two-level labels (field, ticker) for the downloaded ticker:
    [raw_data[('Close', ticker)]] *)
| TickerCols (cols : list (string * list pyfloat)).

Record raw_frame : Type := mkraw { raw_index : list date; raw_columns : columns }.

(** What [yf.download(ticker, start=..., end=...)] does. *)
Inductive download : Type :=
| Downloaded (f : raw_frame)
| DownloadError (msg : string).

Definition source : Type := string -> string -> string -> download.

(** yfinance's documented window: [start] is inclusive and [end] is
    exclusive, so every row of a download dated [d] has
    [start <= d < end]. *)
Definition yf_window (src : source) : Prop :=
  forall t s e f ds de d, src t s e = Downloaded f ->
    DateText.parse_iso s = Some ds -> DateText.parse_iso e = Some de ->
    d ∈ raw_index f -> Dates.date_le ds d /\ Dates.date_lt d de.

Module Fetch.

Definition cols_of (c : columns) : list (string * list pyfloat) :=
  match c with FlatCols l | TickerCols l => l end.

(** [DataFrame.empty]: no row or no column. *)
Definition frame_empty (f : raw_frame) : bool :=
  bool_decide (raw_index f = [] \/ cols_of (raw_columns f) = []).

(** [yf.download(...)], raising what the source raises. *)
Definition yf_download (src : source) (ticker start end_ : string) : St raw_frame :=
  match src ticker start end_ with
  | Downloaded f => ret f
  | DownloadError m => raise (SourceError m)
  end.

(** The Series of a column: its values on the frame's index. *)
Definition column_series (f : raw_frame) (c : list pyfloat) : series :=
  zip (raw_index f) c.

(** Line 15, [('Close', ticker) in raw_data.columns], and line 16,
    [raw_data[('Close', ticker)]]. *)
Definition ticker_close (f : raw_frame) : option (list pyfloat) :=
  match raw_columns f with
  | TickerCols l => dict_get "Close" l
  | FlatCols _ => None
  end.

(** Line 18, [raw_data['Close']]: a [KeyError] when no column has the
    first-level label "Close". *)
Definition flat_close (f : raw_frame) : St (list pyfloat) :=
  match raw_columns f with
  | FlatCols l => match dict_get "Close" l with
                  | Some c => ret c
                  | None => raise (KeyError "Close")
                  end
  | TickerCols _ => raise (KeyError "Close")
  end.

(** Lines 15-18. *)
Definition select_close (f : raw_frame) : St series :=
  match ticker_close f with
  | Some c => ret (column_series f c)
  | None => c <- flat_close f;; ret (column_series f c)
  end.

(** Line 22, one value: [(v / data.iloc[0]) * 100], with [x0 = data.iloc[0]]. *)
Definition norm_value (x0 v : pyfloat) : pyfloat := fmul (fdiv v x0) (Fin (qc 100)).

(** Line 22, [(data / data.iloc[0]) * 100]: element-wise on the Series. *)
Definition normalize (x0 : pyfloat) (data : series) : series :=
  (fun dv => (dv.1, norm_value x0 dv.2)) <$> data.

(** The messages of lines 13, 20 and 25. *)
Definition msg_no_data (ticker : string) : string :=
  "Aucune donnée disponible pour " +:+ ticker +:+ " dans la période sélectionnée.".
Definition msg_no_close (ticker : string) : string :=
  "Aucune donnée de clôture disponible pour " +:+ ticker +:+ ".".
Definition msg_load_error (ticker err : string) : string :=
  "Erreur lors du chargement des données pour " +:+ ticker +:+ " : " +:+ err.

(** Lines 9-26. *)
Definition get_normalized_data (src : source) (ticker start end_ : string)
  : St (option series) :=
  catch
    (raw_data <- yf_download src ticker start end_;;
     if frame_empty raw_data then
       emit (OWarning (msg_no_data ticker));;;
       ret None
     else
       data <- select_close raw_data;;
       match data with
       | [] => emit (OWarning (msg_no_close ticker));;;
               ret None
       | (_, x0) :: _ => ret (Some (normalize x0 data))
       end)
    (fun e => emit (OError (msg_load_error ticker (exn_str e)));;;
              ret None).

(** The messages of lines 145 and 150. *)
Definition msg_loading (ticker : string) : string :=
  "Chargement des données pour " +:+ ticker +:+ "...".
Definition msg_failed (ticker : string) : string :=
  "Échec du chargement des données pour " +:+ ticker +:+ ".".

(** Lines 144-150, one ticker. *)
Definition fetch_step (src : source) (start end_ : string)
           (data : list (string * series)) (ticker : string)
  : St (list (string * series)) :=
  emit (OWrite (msg_loading ticker));;;
  result <- get_normalized_data src ticker start end_;;
  match result with
  | Some r => if decide (r <> []) then ret (dict_set ticker r data)
              else emit (OError (msg_failed ticker));;;
                   ret data
  | None => emit (OError (msg_failed ticker));;;
            ret data
  end.

(** Lines 143-150. *)
Definition fetch_all (src : source) (start end_ : string) (tickers : list string)
  : St (list (string * series)) :=
  foldM (fetch_step src start end_) [] tickers.

End Fetch.

Module FetchFacts.
Import Fetch Dates FrameFacts.

(** The closing-price column lines 15-18 find, if any. *)
Definition close_column (f : raw_frame) : option (list pyfloat) :=
  dict_get "Close" (cols_of (raw_columns f)).

(** A frame as pandas builds it: every column has one value per row. *)
Definition frame_wf (f : raw_frame) : Prop :=
  Forall (fun kc => length kc.2 = length (raw_index f)) (cols_of (raw_columns f)).

#[export] Instance frame_wf_dec f : Decision (frame_wf f).
Proof. unfold frame_wf. apply _. Defined.

Lemma select_close_eq f l :
  select_close f l = match close_column f with
                     | Some c => (l, inr (column_series f c))
                     | None => (l, inl (KeyError "Close"))
                     end.
Proof.
  unfold select_close, ticker_close, flat_close, close_column, bind, ret, raise.
  destruct f as [i [c|c]]; simpl; by destruct (dict_get _ _).
Qed.

(** What one call writes and returns, by the shape of the download. *)
Lemma get_normalized_data_eq src t s e l :
  get_normalized_data src t s e l =
  match src t s e with
  | DownloadError m => (l ++ [OError (msg_load_error t m)], inr None)
  | Downloaded f =>
      if frame_empty f then (l ++ [OWarning (msg_no_data t)], inr None)
      else match close_column f with
           | None => (l ++ [OError (msg_load_error t "'Close'")], inr None)
           | Some c => match column_series f c with
                       | [] => (l ++ [OWarning (msg_no_close t)], inr None)
                       | (_, x0) :: _ => (l, inr (Some (normalize x0 (column_series f c))))
                       end
           end
  end.
Proof.
  unfold get_normalized_data, catch, yf_download, bind, emit, ret, raise.
  destruct (src t s e) as [f|m]; [|done].
  destruct (frame_empty f); [done|].
  rewrite select_close_eq. destruct (close_column f) as [c|]; [|done].
  by destruct (column_series f c) as [|[d0 x0] data].
Qed.

Lemma close_column_wf f c :
  frame_wf f -> close_column f = Some c -> length c = length (raw_index f).
Proof.
  intros Hwf Hc. apply dict_get_Some_elem in Hc. unfold frame_wf in Hwf.
  rewrite Forall_forall in Hwf. apply (Hwf _ Hc).
Qed.

Lemma frame_nonempty f (x : pyfloat) cs :
  frame_wf f -> close_column f = Some (x :: cs) -> frame_empty f = false.
Proof.
  intros Hwf Hc. pose proof (close_column_wf f _ Hwf Hc) as Hlen.
  apply bool_decide_eq_false. intros [Hi|Hcols].
  - rewrite Hi in Hlen. discriminate.
  - unfold close_column in Hc. rewrite Hcols in Hc. discriminate.
Qed.

Lemma normalize_fst x0 data : (normalize x0 data).*1 = data.*1.
Proof. unfold normalize. rewrite <- list_fmap_compose. done. Qed.

Lemma normalize_snd x0 data :
  (normalize x0 data).*2 = norm_value x0 <$> data.*2.
Proof. unfold normalize. by rewrite <- !list_fmap_compose. Qed.

Lemma column_series_fst f c :
  length c = length (raw_index f) -> (column_series f c).*1 = raw_index f.
Proof. intros H. apply fst_zip. lia. Qed.

Lemma column_series_snd f c :
  length c = length (raw_index f) -> (column_series f c).*2 = c.
Proof. intros H. apply snd_zip. lia. Qed.

(** C5: Failures stay inside [get_normalized_data] (lines 10, 24-26):
    whatever the data source does, a call raises nothing; it either
    writes exactly one warning or error and returns [None], or writes
    nothing and returns a Series. *)
Theorem get_normalized_data_contained src t s e l :
  exists r msgs, get_normalized_data src t s e l = (l ++ msgs, inr r) /\
    ((r = None /\ length msgs = 1) \/ (exists ns, r = Some ns /\ msgs = [])).
Proof.
  rewrite get_normalized_data_eq.
  repeat case_match;
    first [ eexists None, [_]; split; [reflexivity|left; split; reflexivity]
          | eexists (Some _), []; rewrite app_nil_r; split; [reflexivity|right; eauto] ].
Qed.

(** A frame whose closing prices start with a number: the call writes
    nothing and returns line 22 applied to the closing Series. *)
Lemma get_normalized_data_close src t s e l f (a : Qc) cs :
  src t s e = Downloaded f -> frame_wf f -> close_column f = Some (Fin a :: cs) ->
  get_normalized_data src t s e l
  = (l, inr (Some (normalize (Fin a) (column_series f (Fin a :: cs))))).
Proof.
  intros Hsrc Hwf Hc. pose proof (close_column_wf f _ Hwf Hc) as Hlen.
  rewrite get_normalized_data_eq, Hsrc, (frame_nonempty f _ _ Hwf Hc), Hc.
  unfold column_series. destruct (raw_index f) as [|d0 idx]; [discriminate Hlen|]. done.
Qed.

(** C1: Base 100 (line 22): for a frame whose closing prices start with
    a non-zero number, the call writes nothing and returns the Series
    with the frame's dates whose values are the closing prices divided
    by the first one times 100; its first value is exactly 100. *)
Theorem get_normalized_data_base100 src t s e l f (a : Qc) cs :
  src t s e = Downloaded f -> frame_wf f -> close_column f = Some (Fin a :: cs) ->
  a <> 0%Qc ->
  exists ns, get_normalized_data src t s e l = (l, inr (Some ns)) /\
    ns.*1 = raw_index f /\
    ns.*2 = (fun v => fmul (fdiv v (Fin a)) (Fin (qc 100))) <$> (Fin a :: cs) /\
    head ns.*2 = Some (Fin (qc 100)).
Proof.
  intros Hsrc Hwf Hc Ha. pose proof (close_column_wf f _ Hwf Hc) as Hlen.
  rewrite (get_normalized_data_close src t s e l f a cs Hsrc Hwf Hc).
  eexists. split; [reflexivity|].
  rewrite normalize_fst, normalize_snd, column_series_fst, column_series_snd by done.
  split_and!; [done..|].
  change (Some (fmul (fdiv (Fin a) (Fin a)) (Fin (qc 100))) = Some (Fin (qc 100))).
  rewrite PyFloatFacts.fdiv_self by done. simpl. by rewrite Qcmult_1_l.
Qed.

(** ** Error paths *)

(** C28: A frame with rows but no closing-price column is reported as a
    load error carrying [str(KeyError('Close'))], that is ['Close'], and
    not as missing data: [raw_data['Close']] (line 18) raises and the
    handler of lines 24-26 catches it. *)
Theorem missing_close_is_error src t s e l f :
  src t s e = Downloaded f -> frame_empty f = false -> close_column f = None ->
  get_normalized_data src t s e l = (l ++ [OError (msg_load_error t "'Close'")], inr None).
Proof. intros Hs He Hc. by rewrite get_normalized_data_eq, Hs, He, Hc. Qed.

Lemma msg_no_data_no_close t : msg_no_data t <> msg_no_close t.
Proof.
  unfold msg_no_data, msg_no_close. intros H. apply (f_equal (String.get 16)) in H.
  simpl in H. discriminate.
Qed.

(** C29: The warning of line 20 is dead code: on a frame as pandas builds
    it, a call never writes "Aucune donnée de clôture disponible", since
    a non-empty frame gives a non-empty close column.  A close column
    holding only [nan] is thus not reported. *)
Theorem no_close_warning_unreachable src t s e f :
  src t s e = Downloaded f -> frame_wf f ->
  OWarning (msg_no_close t) ∉ (run (get_normalized_data src t s e)).1.
Proof.
  intros Hs Hwf. unfold run. rewrite get_normalized_data_eq, Hs.
  destruct (frame_empty f) eqn:He.
  { simpl. rewrite list_elem_of_singleton. intros Heq.
    apply (msg_no_data_no_close t). congruence. }
  destruct (close_column f) as [c|] eqn:Hc.
  2: { simpl. rewrite list_elem_of_singleton. done. }
  destruct (column_series f c) as [|[d x] rest] eqn:Hcs; [|simpl; apply not_elem_of_nil].
  exfalso. pose proof (close_column_wf f c Hwf Hc) as Hlen.
  apply bool_decide_eq_false in He. apply He. left.
  apply (f_equal length) in Hcs. unfold column_series in Hcs.
  rewrite length_zip_with, Hlen, Nat.min_id in Hcs. by apply length_zero_iff_nil.
Qed.

(** C27: A zero first closing price is not guarded (line 22 divides by
    it): the Series then starts with [nan] and its other values are
    [inf], [-inf] or [nan], and the loop of lines 147-148 still keeps it
    as the ticker's data, without any message. *)
Theorem zero_first_close_kept src s e t f cs :
  src t s e = Downloaded f -> frame_wf f -> close_column f = Some (Fin 0%Qc :: cs) ->
  exists ns, run (fetch_step src s e [] t) = ([OWrite (msg_loading t)], inr [(t, ns)]) /\
    ns.*2 = NaN :: ((fun v => fmul (fdiv v (Fin 0%Qc)) (Fin (qc 100))) <$> cs).
Proof.
  intros Hs Hwf Hc. pose proof (close_column_wf f _ Hwf Hc) as Hlen.
  unfold run, fetch_step, bind at 1, emit at 1.
  unfold bind at 1. rewrite get_normalized_data_eq, Hs, (frame_nonempty f _ _ Hwf Hc), Hc.
  assert (Hcs : exists d0 rest, column_series f (Fin 0%Qc :: cs) = (d0, Fin 0%Qc) :: rest).
  { unfold column_series. destruct (raw_index f) as [|d0 idx]; [discriminate Hlen|].
    by eexists _, _. }
  destruct Hcs as (d0 & rest & Hcs). rewrite Hcs. cbn beta iota.
  rewrite decide_True by (unfold normalize; rewrite fmap_cons; discriminate).
  eexists. split; [reflexivity|]. rewrite <- Hcs.
  rewrite normalize_snd, column_series_snd by done. reflexivity.
Qed.

(** ** The fetch loop *)

(** What the loop keeps for one ticker fetched on its own. *)
Definition fetch_result (src : source) (s e t : string) : option series :=
  match (run (get_normalized_data src t s e)).2 with
  | inr (Some r) => if decide (r <> []) then Some r else None
  | _ => None
  end.

(** What one iteration writes when run on its own. *)
Definition fetch_page (src : source) (s e t : string) : list out :=
  (run (fetch_step src s e [] t)).1.

Lemma fetch_step_eq src s e data t l :
  t ∉ data.*1 ->
  fetch_step src s e data t l
  = (l ++ fetch_page src s e t, inr (data ++ option_list (pair t <$> fetch_result src s e t))).
Proof.
  intros Ht. unfold fetch_page, fetch_result, run, fetch_step, bind, emit, ret.
  rewrite !get_normalized_data_eq.
  repeat case_match; simplify_eq/=; rewrite ?app_nil_r, <- ?app_assoc; try done;
    rewrite dict_set_new by done; done.
Qed.

(** What the loop has kept after the tickers [pre]. *)
Definition kept (src : source) (s e : string) (pre : list string) : list (string * series) :=
  pre ≫= fun t => option_list (pair t <$> fetch_result src s e t).

(** The keys the loop keeps, for tickers computed from a list: those
    entries whose own fetch gave a non-empty Series, in order. *)
Lemma kept_keys_filter {A} (f : A -> string) src s e (ps : list A) :
  (kept src s e (f <$> ps)).*1
  = f <$> filter (fun p => is_Some (fetch_result src s e (f p))) ps.
Proof.
  unfold kept. induction ps as [|p ps IH]; [done|].
  rewrite fmap_cons, bind_cons, fmap_app, IH, filter_cons.
  destruct (fetch_result src s e (f p)) eqn:Hr; case_decide as Hd; simpl; try done.
  all: first [exfalso; apply Hd; by eexists | by destruct Hd as [? ?]].
Qed.

Lemma kept_keys src s e pre t : t ∈ (kept src s e pre).*1 -> t ∈ pre.
Proof.
  unfold kept. intros (p & -> & Hp)%list_elem_of_fmap.
  apply list_elem_of_bind in Hp as (t' & Hp & Ht').
  destruct (fetch_result src s e t'); simpl in Hp;
    [apply list_elem_of_singleton in Hp as ->|by apply elem_of_nil in Hp]; done.
Qed.

Lemma kept_snoc src s e pre t :
  kept src s e pre ++ option_list (pair t <$> fetch_result src s e t) = kept src s e (pre ++ [t]).
Proof. unfold kept. by rewrite bind_app, bind_singleton. Qed.

Lemma fetch_loop src s e ts pre l :
  NoDup (pre ++ ts) ->
  foldM (fetch_step src s e) (kept src s e pre) ts l
  = (l ++ (ts ≫= fetch_page src s e), inr (kept src s e (pre ++ ts))).
Proof.
  revert pre l. induction ts as [|t ts IH]; intros pre l Hnd; simpl.
  { by rewrite !app_nil_r. }
  unfold bind at 1. rewrite fetch_step_eq.
  - rewrite kept_snoc, IH by (by rewrite <- app_assoc).
    by rewrite <- !app_assoc.
  - intros Hin%kept_keys. apply NoDup_app in Hnd as (_ & Hd & _).
    apply (Hd t Hin). left.
Qed.

(** Line 147 keeps non-empty Series only. *)
Lemma kept_nonempty src s e ts : Forall (fun kv => kv.2 <> []) (kept src s e ts).
Proof.
  unfold kept. induction ts as [|t ts IH]; [constructor|]. rewrite bind_cons.
  apply Forall_app. split; [|done]. unfold fetch_result.
  destruct (run _).2 as [|[r|]]; simpl; try constructor.
  case_decide; simpl; by repeat constructor.
Qed.

(** The kept tickers come in the order of [ts], each once when the
    images of [ts] under [g] are distinct. *)
Lemma kept_fmap_NoDup (g : string -> string) src s e ts :
  NoDup (g <$> ts) -> NoDup (g <$> (kept src s e ts).*1).
Proof.
  induction ts as [|t ts IH]; intros Hnd; [constructor|].
  rewrite fmap_cons, list.NoDup_cons in Hnd. destruct Hnd as [Hn Hnd].
  assert (E : kept src s e (t :: ts) = option_list (pair t <$> fetch_result src s e t) ++ kept src s e ts)
    by (unfold kept; by rewrite bind_cons).
  rewrite E. destruct (fetch_result src s e t); simpl; [|by apply IH].
  constructor; [|by apply IH]. intros (t' & Ht & Hin)%list_elem_of_fmap.
  apply Hn. rewrite Ht. by apply list_elem_of_fmap_2, (kept_keys src s e).
Qed.

(** Every ticker's fetch first writes its loading message (line 145). *)
Lemma fetch_page_loading src s e t :
  exists rest, fetch_page src s e t = OWrite (msg_loading t) :: rest.
Proof.
  unfold fetch_page, run, fetch_step, bind at 1, emit. simpl. unfold bind.
  rewrite get_normalized_data_eq. repeat case_match; simplify_eq/=; eauto.
Qed.

(** What the script assumes of the data source, as pandas builds its
    frames: every column is as long as the index, and the index (a
    DatetimeIndex of trading days) is strictly increasing. *)
Definition source_wf (src : source) : Prop :=
  forall t s e f, src t s e = Downloaded f -> frame_wf f /\ Sorted date_lt (raw_index f).

(** A kept Series has the dates of its downloaded frame. *)
Lemma fetch_result_dates src s e t r :
  fetch_result src s e t = Some r ->
  exists f, src t s e = Downloaded f /\ (frame_wf f -> r.*1 = raw_index f).
Proof.
  unfold fetch_result, run. rewrite get_normalized_data_eq.
  destruct (src t s e) as [f|m]; [|done]. exists f. split; [done|].
  destruct (frame_empty f); [done|]. destruct (close_column f) as [c|] eqn:Hc; [|done].
  destruct (column_series f c) as [|[d0 x0] rest] eqn:Hcs; [done|].
  revert H. cbn [snd]. case_decide; [|done]. intros [= <-] Hwf.
  change ((d0, norm_value x0 x0) :: normalize x0 rest) with (normalize x0 ((d0, x0) :: rest)).
  rewrite normalize_fst, <- Hcs.
  by apply column_series_fst, (close_column_wf f).
Qed.

(** The Series the loop keeps are non-empty and sorted, with distinct keys. *)
Lemma kept_wf src s e ts :
  source_wf src -> NoDup ts ->
  NoDup (kept src s e ts).*1 /\
  Forall (fun kv => kv.2 <> [] /\ series_wf kv.2) (kept src s e ts).
Proof.
  intros Hsrc Hnd. split.
  - rewrite <- (list_fmap_id (kept src s e ts).*1). apply kept_fmap_NoDup. by rewrite list_fmap_id.
  - pose proof (kept_nonempty src s e ts) as Hne. rewrite Forall_forall in Hne |- *.
    intros kv Hkv. split; [by apply Hne|]. unfold kept in Hkv.
    apply list_elem_of_bind in Hkv as (t & Hkv & _).
    destruct (fetch_result src s e t) as [r|] eqn:Hr; [|by apply elem_of_nil in Hkv].
    apply list_elem_of_singleton in Hkv as ->.
    destruct (fetch_result_dates src s e t r Hr) as (f & Hf & Hdates).
    destruct (Hsrc _ _ _ _ Hf) as [Hwf Hsorted]. unfold series_wf. simpl. by rewrite Hdates.
Qed.

(** Under yfinance's window, every date of a kept Series lies in
    [[start, end)]. *)
Lemma kept_dates src s e ds de ts kv d :
  source_wf src -> yf_window src -> DateText.parse_iso s = Some ds ->
  DateText.parse_iso e = Some de ->
  kv ∈ kept src s e ts -> d ∈ kv.2.*1 -> date_le ds d /\ date_lt d de.
Proof.
  intros Hsrc Hwin Hs He Hkv Hd. unfold kept in Hkv.
  apply list_elem_of_bind in Hkv as (t & Hkv & _).
  destruct (fetch_result src s e t) as [r|] eqn:Hr; [|by apply elem_of_nil in Hkv].
  apply list_elem_of_singleton in Hkv as ->.
  destruct (fetch_result_dates src s e t r Hr) as (f & Hf & Hdates).
  destruct (Hsrc _ _ _ _ Hf) as [Hwf _]. simpl in Hd. rewrite Hdates in Hd by done.
  by apply (Hwin t s e f).
Qed.

(** C19: The comparison table is well typed (spec: "all included series
    have non-empty data", "dates strictly increasing"): on a data source
    that builds frames as pandas does and distinct tickers, the dict
    [data] the fetch loop (lines 143-150) returns has distinct keys, and
    each of its Series is non-empty with strictly increasing dates. *)
Theorem fetch_all_table_wf src s e ts l l' data :
  source_wf src -> NoDup ts -> fetch_all src s e ts l = (l', inr data) ->
  NoDup data.*1 /\ Forall (fun kv => kv.2 <> [] /\ series_wf kv.2) data.
Proof.
  intros Hsrc Hnd Hf. pose proof (fetch_loop src s e ts [] l Hnd) as E.
  change (kept src s e []) with (@nil (string * series)) in E.
  unfold fetch_all in Hf. rewrite Hf in E. injection E as _ ->. by apply kept_wf.
Qed.

(** C3: Failure isolation (lines 143-150): for distinct tickers, the
    loop raises nothing; the page gets, ticker after ticker, what that
    ticker's fetch writes on its own; and [data] holds, in selection
    order, exactly the tickers whose own fetch gave a non-empty Series,
    each with that Series.  A failed ticker is absent, and no ticker's
    outcome depends on the others. *)
Theorem fetch_all_spec src s e tickers l :
  NoDup tickers ->
  fetch_all src s e tickers l
  = (l ++ (tickers ≫= fetch_page src s e),
     inr (tickers ≫= fun t => option_list (pair t <$> fetch_result src s e t))).
Proof. intros Hnd. apply (fetch_loop src s e tickers [] l Hnd). Qed.
End FetchFacts.

(** ** Concrete runs *)
Module FetchExamples.
Import Fetch FetchFacts.

(** Two trading days of a frame with a (field, ticker) column index. *)
Definition ex_frame : raw_frame :=
  mkraw [mkdate 2020 1 2; mkdate 2020 1 3]
        (TickerCols [("Open", [Fin (qc 49); Fin (qc 50)]);
                     ("Close", [Fin (qc 50); Fin (qc 75)])]).

(** A source that knows gold only. *)
Definition ex_source : source :=
  fun t _ _ => if decide (t = "GC=F") then Downloaded ex_frame
               else DownloadError "No data found, symbol may be delisted".

Lemma get_normalized_data_base100_witness :
  exists ns, get_normalized_data ex_source "GC=F" "2020-01-01" "2020-12-31" [] = ([], inr (Some ns)) /\
    ns.*1 = raw_index ex_frame /\
    ns.*2 = (fun v => fmul (fdiv v (Fin (qc 50))) (Fin (qc 100))) <$> [Fin (qc 50); Fin (qc 75)] /\
    head ns.*2 = Some (Fin (qc 100)).
Proof.
  apply (get_normalized_data_base100 ex_source "GC=F" "2020-01-01" "2020-12-31" [] ex_frame
           (qc 50) [Fin (qc 75)]); [reflexivity|by_eval|reflexivity|by_eval].
Defined.

(** A frame with an opening-price column only. *)
Definition ex_frame_open : raw_frame :=
  mkraw [mkdate 2020 1 2] (FlatCols [("Open", [Fin (qc 3)])]).

Definition ex_source_open : source := fun _ _ _ => Downloaded ex_frame_open.

Lemma missing_close_is_error_witness :
  get_normalized_data ex_source_open "AAPL" "2020-01-01" "2020-12-31" []
  = ([] ++ [OError (msg_load_error "AAPL" "'Close'")], inr None).
Proof. apply (missing_close_is_error _ _ _ _ _ ex_frame_open); reflexivity. Defined.

Lemma no_close_warning_unreachable_witness :
  OWarning (msg_no_close "GC=F") ∉ (run (get_normalized_data ex_source "GC=F" "2020-01-01" "2020-12-31")).1.
Proof. apply (no_close_warning_unreachable _ _ _ _ ex_frame); [reflexivity|by_eval]. Defined.

(** A frame whose first closing price is zero. *)
Definition ex_frame_zero : raw_frame :=
  mkraw [mkdate 2020 1 2; mkdate 2020 1 3] (FlatCols [("Close", [Fin 0%Qc; Fin (qc 5)])]).

Definition ex_source_zero : source := fun _ _ _ => Downloaded ex_frame_zero.

Lemma zero_first_close_kept_witness :
  exists ns, run (fetch_step ex_source_zero "2020-01-01" "2020-12-31" [] "SI=F")
             = ([OWrite (msg_loading "SI=F")], inr [("SI=F", ns)]) /\
    ns.*2 = NaN :: ((fun v => fmul (fdiv v (Fin 0%Qc)) (Fin (qc 100))) <$> [Fin (qc 5)]).
Proof. apply (zero_first_close_kept _ _ _ _ ex_frame_zero); [reflexivity|by_eval|reflexivity]. Defined.

(** Gold loads, Tesla fails: [data] holds gold only. *)
Lemma fetch_all_spec_witness :
  fetch_all ex_source "2020-01-01" "2020-12-31" ["GC=F"; "TSLA"] []
  = ([] ++ (["GC=F"; "TSLA"] ≫= fetch_page ex_source "2020-01-01" "2020-12-31"),
     inr (["GC=F"; "TSLA"] ≫= fun t => option_list (pair t <$> fetch_result ex_source "2020-01-01" "2020-12-31" t))).
Proof. apply fetch_all_spec. by_eval. Defined.
Lemma ex_source_wf : source_wf ex_source.
Proof.
  intros t s e f. unfold ex_source. case_decide; [intros [= <-]|done].
  split; [by_eval|]. repeat constructor; try by_eval.
Qed.

Lemma fetch_all_table_wf_witness :
  exists l' data,
    fetch_all ex_source "2020-01-01" "2020-12-31" ["GC=F"; "TSLA"] [] = (l', inr data) /\
    NoDup data.*1 /\ Forall (fun kv => kv.2 <> [] /\ FrameFacts.series_wf kv.2) data.
Proof.
  assert (Hnd : NoDup ["GC=F"; "TSLA"]) by by_eval.
  destruct (fetch_all ex_source "2020-01-01" "2020-12-31" ["GC=F"; "TSLA"] []) as [l' [ex|data]] eqn:E.
  - exfalso. pose proof (fetch_loop ex_source "2020-01-01" "2020-12-31" _ [] [] Hnd) as E'.
    change (kept _ _ _ []) with (@nil (string * series)) in E'.
    unfold fetch_all in E. rewrite E in E'. discriminate E'.
  - exists l', data. split; [reflexivity|].
    exact (fetch_all_table_wf ex_source _ _ _ _ _ _ ex_source_wf Hnd E).
Defined.
End FetchExamples.
