(* ===== verification/Overlay.v ===== *)
(** * Overlay: recession bands and historical-event markers

    Lines 161-176 declare the reference data: six historical events (a
    dict from label to date, in declaration order) and two recessions.
    Lines 184-206 add, for each recession that meets the selected range,
    a grey rectangle from the later of the two starts to the earlier of
    the two ends, from 0 to [df.max().max() * 1.1], and its label at
    [df.max().max() * 1.05]; lines 209-217 add, when events are shown,
    a dashed vertical line and a label at [df.max().max() * 0.95] for
    each event inside the closed range.  The Module [Overlay] models
    these loops as updates of the plotly figure; [OverlayPlan] states
    what they must produce as two ordered lists, the band and marker
    descriptors of the overlay planner, and proves the loops produce
    them. *)

From Stdlib Require Import ZArith QArith Qcanon.
From stdpp Require Import base list decidable strings.
From S2P Require Import Prelude PyFloat Dates Frame Figure.
Import PyFloat Dates.

Record recession : Type := mkrec { rec_start : date; rec_end : date; rec_label : string }.

#[export] Instance recession_eq_dec : EqDecision recession.
Proof. solve_decision. Defined.

Module Overlay.

(** Lines 161-168. *)
Definition historical_events : list (string * date) := [
  ("Début 2e mandat Chirac (16/05/2002)", mkdate 2002 5 16);
  ("Début mandat Sarkozy (16/05/2007)", mkdate 2007 5 16);
  ("Début mandat Hollande (15/05/2012)", mkdate 2012 5 15);
  ("Début mandat Macron (17/05/2017)", mkdate 2017 5 17);
  ("Début 1er mandat Trump (20/01/2017)", mkdate 2017 1 20);
  ("Début 2e mandat Trump (20/01/2025)", mkdate 2025 1 20)
].

(** Lines 173-176. *)
Definition recessions : list recession := [
  mkrec (mkdate 2007 12 1) (mkdate 2009 6 30) "Grande Récession";
  mkrec (mkdate 2020 2 1) (mkdate 2020 6 30) "Récession COVID-19"
].

(** The vertical scale factors of lines 191, 199 and 214. *)
Definition band_top (ymax : pyfloat) : pyfloat := fmul ymax (Fin (qc (11 # 10))).
Definition band_label_y (ymax : pyfloat) : pyfloat := fmul ymax (Fin (qc (21 # 20))).
Definition event_label_y (ymax : pyfloat) : pyfloat := fmul ymax (Fin (qc (19 # 20))).

(** Line 185: the recession meets [start_datetime, end_datetime]. *)
Definition recession_visible (start_dt end_dt : date) (r : recession) : Prop :=
  date_le start_dt (rec_end r) /\ date_le (rec_start r) end_dt.

#[export] Instance recession_visible_dec s e r : Decision (recession_visible s e r).
Proof. unfold recession_visible. apply _. Defined.

(** Lines 185-206, one recession; [ymax] is [df.max().max()]. *)
Definition add_recession (start_dt end_dt : date) (ymax : pyfloat)
           (fig : figure) (r : recession) : figure :=
  if decide (recession_visible start_dt end_dt r) then
    let fig := Figure.add_shape
                 (SRect (pymax (rec_start r) start_dt) (pymin (rec_end r) end_dt)
                        (Fin 0%Qc) (band_top ymax)) fig in
    Figure.add_annotation
      (mkannot (pymax (rec_start r) start_dt) (band_label_y ymax) (rec_label r) false) fig
  else fig.

(** Line 211: [start_datetime <= event_date <= end_datetime]. *)
Definition event_visible (start_dt end_dt : date) (d : date) : Prop :=
  date_le start_dt d /\ date_le d end_dt.

#[export] Instance event_visible_dec s e d : Decision (event_visible s e d).
Proof. unfold event_visible. apply _. Defined.

(** Lines 211-217, one event. *)
Definition add_event (start_dt end_dt : date) (ymax : pyfloat)
           (fig : figure) (ev : string * date) : figure :=
  if decide (event_visible start_dt end_dt ev.2) then
    let fig := Figure.add_vline ev.2 fig in
    Figure.add_annotation (mkannot ev.2 (event_label_y ymax) ev.1 true) fig
  else fig.

(** Lines 184-217. *)
Definition add_overlays (start_dt end_dt : date) (show_events : bool) (ymax : pyfloat)
           (fig : figure) : figure :=
  let fig := fold_left (add_recession start_dt end_dt ymax) recessions fig in
  if show_events then fold_left (add_event start_dt end_dt ymax) historical_events fig
  else fig.

End Overlay.

(** ** The overlay plan *)
Module OverlayPlan.
Import Overlay DateFacts Frame.

(** A band descriptor: the clamped span and the label. *)
Record band : Type := mkband { b_x0 : date; b_x1 : date; b_label : string }.

#[export] Instance band_eq_dec : EqDecision band.
Proof. solve_decision. Defined.

(** The bands of the recessions that meet the range, in declaration
    order, each clamped to the range. *)
Definition plan_bands (s e : date) : list band :=
  (fun r => mkband (pymax (rec_start r) s) (pymin (rec_end r) e) (rec_label r))
    <$> filter (recession_visible s e) recessions.

(** The markers of the events inside the closed range, in declaration
    order, when events are shown. *)
Definition plan_markers (s e : date) (show : bool) : list (string * date) :=
  if show then filter (fun ev => event_visible s e ev.2) historical_events else [].

Definition band_shape (ymax : pyfloat) (b : band) : shape :=
  SRect (b_x0 b) (b_x1 b) (Fin 0%Qc) (band_top ymax).
Definition band_annot (ymax : pyfloat) (b : band) : annotation :=
  mkannot (b_x0 b) (band_label_y ymax) (b_label b) false.
Definition marker_annot (ymax : pyfloat) (ev : string * date) : annotation :=
  mkannot ev.2 (event_label_y ymax) ev.1 true.

Lemma fold_add_recession s e ymax rs fig :
  fold_left (add_recession s e ymax) rs fig =
  mkfig (fig_traces fig)
        (fig_shapes fig ++ (band_shape ymax <$> ((fun r => mkband (pymax (rec_start r) s)
             (pymin (rec_end r) e) (rec_label r)) <$> filter (recession_visible s e) rs)))
        (fig_annotations fig ++ (band_annot ymax <$> ((fun r => mkband (pymax (rec_start r) s)
             (pymin (rec_end r) e) (rec_label r)) <$> filter (recession_visible s e) rs)))
        (fig_layout fig).
Proof.
  revert fig. induction rs as [|r rs IH]; intros fig; simpl.
  { rewrite !app_nil_r. by destruct fig. }
  rewrite IH, filter_cons. unfold add_recession. case_decide; simpl; [|done].
  by rewrite <- !app_assoc.
Qed.

Lemma fold_add_event s e ymax evs fig :
  fold_left (add_event s e ymax) evs fig =
  mkfig (fig_traces fig)
        (fig_shapes fig ++ ((fun ev => SVLine ev.2) <$> filter (fun ev => event_visible s e ev.2) evs))
        (fig_annotations fig ++ (marker_annot ymax <$> filter (fun ev => event_visible s e ev.2) evs))
        (fig_layout fig).
Proof.
  revert fig. induction evs as [|ev evs IH]; intros fig; simpl.
  { rewrite !app_nil_r. by destruct fig. }
  rewrite IH, filter_cons. unfold add_event. case_decide; simpl; [|done].
  by rewrite <- !app_assoc.
Qed.

Lemma add_overlays_eq s e show ymax fig :
  add_overlays s e show ymax fig =
  mkfig (fig_traces fig)
        (fig_shapes fig ++ (band_shape ymax <$> plan_bands s e)
                        ++ ((fun ev => SVLine ev.2) <$> plan_markers s e show))
        (fig_annotations fig ++ (band_annot ymax <$> plan_bands s e)
                             ++ (marker_annot ymax <$> plan_markers s e show))
        (fig_layout fig).
Proof.
  unfold add_overlays, plan_bands, plan_markers. rewrite fold_add_recession.
  destruct show; [rewrite fold_add_event|]; simpl; by rewrite ?app_nil_r, <- ?app_assoc.
Qed.

(** C6: Refinement of the overlay planner: the loops of lines 184-217
    leave the traces and the layout alone and append to the figure's
    shapes the band rectangles of [plan_bands], then the event lines of
    [plan_markers], and to its annotations the band labels, then the
    event labels, all in the declaration order of the reference data. *)
Theorem add_overlays_plan s e show ymax fig :
  add_overlays s e show ymax fig =
  mkfig (fig_traces fig)
        (fig_shapes fig ++ (band_shape ymax <$> plan_bands s e)
                        ++ ((fun ev => SVLine ev.2) <$> plan_markers s e show))
        (fig_annotations fig ++ (band_annot ymax <$> plan_bands s e)
                             ++ (marker_annot ymax <$> plan_markers s e show))
        (fig_layout fig).
Proof. apply add_overlays_eq. Qed.

(** The reference data are well formed: every recession starts before it
    ends, labels are distinct, and no two events share a date. *)
Lemma recessions_wf : Forall (fun r => date_le (rec_start r) (rec_end r)) recessions.
Proof. by_eval. Qed.

Lemma recession_labels_NoDup : NoDup (rec_label <$> recessions).
Proof. by_eval. Qed.

Lemma event_dates_NoDup : NoDup (snd <$> historical_events).
Proof. by_eval. Qed.

(** Every planned band for a range [s <= e] is a non-empty interval
    inside both the range and its recession. *)
Lemma plan_band_span s e b :
  date_le s e -> b ∈ plan_bands s e ->
  exists r, r ∈ recessions /\ b_label b = rec_label r /\
    date_le s (b_x0 b) /\ date_le (b_x1 b) e /\
    date_le (rec_start r) (b_x0 b) /\ date_le (b_x1 b) (rec_end r) /\
    date_le (b_x0 b) (b_x1 b).
Proof.
  intros Hse Hb. unfold plan_bands in Hb.
  apply list_elem_of_fmap in Hb as (r & -> & Hr).
  apply list_elem_of_filter in Hr as [[Hsr Hre] Hr].
  pose proof (proj1 (Forall_forall _ _) recessions_wf r Hr) as Hrr.
  exists r. simpl. split_and!; auto with pyhints.
  apply pymax_lub; apply pymin_glb; done.
Qed.

(** A recession inside the range is planned unclamped; one outside the
    range is not planned. *)
Lemma plan_bands_inside_outside s e r :
  r ∈ recessions ->
  (date_le s (rec_start r) -> date_le (rec_end r) e ->
     mkband (rec_start r) (rec_end r) (rec_label r) ∈ plan_bands s e) /\
  (date_lt (rec_end r) s \/ date_lt e (rec_start r) ->
     rec_label r ∉ b_label <$> plan_bands s e).
Proof.
  intros Hr. pose proof (proj1 (Forall_forall _ _) recessions_wf r Hr) as Hrr. split.
  - intros Hs He. unfold plan_bands.
    apply (list_elem_of_fmap_2' _ _ r).
    + apply list_elem_of_filter. split; [|done]. split.
      * by apply (date_le_trans _ (rec_start r)).
      * by apply (date_le_trans _ (rec_end r)).
    + by rewrite pymax_l, pymin_l.
  - intros Hout Hin. unfold plan_bands in Hin. rewrite <- list_fmap_compose in Hin.
    apply list_elem_of_fmap in Hin as (r' & Heq & Hr').
    apply list_elem_of_filter in Hr' as [[Hs' He'] Hr'].
    simpl in Heq. assert (r' = r) as ->.
    { apply (NoDup_fmap_inj_in rec_label recessions); auto using recession_labels_NoDup. }
    destruct Hout as [Hlt|Hlt]; eapply date_lt_irrefl, date_lt_le_trans; eauto.
Qed.

(** C24: Event markers use the closed range (line 211): with events
    shown, an event of the reference data gets its dashed line exactly
    when its date lies between the start and the end of the range, both
    included; an event one day outside either bound gets none. *)
Theorem event_line_iff s e ymax fig ev :
  ev ∈ historical_events -> SVLine ev.2 ∉ fig_shapes fig ->
  SVLine ev.2 ∈ fig_shapes (add_overlays s e true ymax fig) <->
  date_le s ev.2 /\ date_le ev.2 e.
Proof.
  intros Hev Hfig. unfold add_overlays. rewrite fold_add_event, fold_add_recession. simpl.
  rewrite !elem_of_app. split.
  - intros [[Hin|Hin]|Hin]; [done| |].
    + apply list_elem_of_fmap in Hin as (b & Hb & _). unfold band_shape in Hb. discriminate.
    + apply list_elem_of_fmap in Hin as (ev' & Heq & Hin).
      apply list_elem_of_filter in Hin as [Hvis Hin]. injection Heq as Heq.
      assert (ev' = ev) as <-; [|done].
      apply (NoDup_fmap_inj_in snd historical_events); auto using event_dates_NoDup.
  - intros Hvis. right. apply (list_elem_of_fmap_2 (fun ev => SVLine ev.2)).
    by apply list_elem_of_filter.
Qed.

(** No recession label is also an event label. *)
Lemma recession_labels_not_events :
  Forall (fun r => rec_label r ∉ historical_events.*1) recessions.
Proof. by_eval. Qed.

(** C22: Every rectangle the loop of lines 184-206 draws for a range
    [s <= e] spans [[0, df.max().max() * 1.1]] vertically and, in time, a
    non-empty interval inside both the range and one recession: the
    clamping of lines 188-189 never reaches outside the range or runs
    backwards. *)
Theorem band_rect_span s e show ymax fig x0 x1 y0 y1 :
  date_le s e -> SRect x0 x1 y0 y1 ∉ fig_shapes fig ->
  SRect x0 x1 y0 y1 ∈ fig_shapes (add_overlays s e show ymax fig) ->
  y0 = Fin 0%Qc /\ y1 = band_top ymax /\
  exists r, r ∈ recessions /\ date_le s x0 /\ date_le x1 e /\
    date_le (rec_start r) x0 /\ date_le x1 (rec_end r) /\ date_le x0 x1.
Proof.
  intros Hse Hfig Hin. rewrite add_overlays_eq in Hin. simpl in Hin.
  rewrite !elem_of_app in Hin. destruct Hin as [Hin|[Hin|Hin]]; [done| |].
  - apply list_elem_of_fmap in Hin as (b & Hb & Hbin). unfold band_shape in Hb.
    injection Hb as -> -> -> ->. split_and!; [done|done|].
    destruct (plan_band_span s e b Hse Hbin) as (r & Hr & _ & H). by exists r.
  - apply list_elem_of_fmap in Hin as (ev & Hev & _). discriminate.
Qed.

(** C23: The test of line 185: a recession lying inside the range gets
    its rectangle, unclamped; a recession that ends before the range
    starts or starts after it ends gets no band, so its label is not
    among the figure's annotations. *)
Theorem band_inside_outside s e show ymax fig r :
  r ∈ recessions ->
  (date_le s (rec_start r) -> date_le (rec_end r) e ->
     SRect (rec_start r) (rec_end r) (Fin 0%Qc) (band_top ymax)
       ∈ fig_shapes (add_overlays s e show ymax fig)) /\
  (date_lt (rec_end r) s \/ date_lt e (rec_start r) ->
     rec_label r ∉ an_text <$> fig_annotations fig ->
     rec_label r ∉ an_text <$> fig_annotations (add_overlays s e show ymax fig)).
Proof.
  intros Hr. destruct (plan_bands_inside_outside s e r Hr) as [Hin Hout].
  rewrite add_overlays_eq. simpl. split.
  - intros Hs He. rewrite !elem_of_app. right; left.
    apply (list_elem_of_fmap_2 (band_shape ymax) _ (mkband (rec_start r) (rec_end r) (rec_label r))).
    by apply Hin.
  - intros Hlt Hfig. rewrite !fmap_app, !elem_of_app. intros [H|[H|H]]; [done| |].
    + apply (Hout Hlt). apply list_elem_of_fmap in H as (a & Ha & Hb).
      apply list_elem_of_fmap in Hb as (b & -> & Hb). rewrite Ha. by apply (list_elem_of_fmap_2 b_label).
    + unfold plan_markers in H. destruct show; [|by rewrite elem_of_nil in H].
      apply list_elem_of_fmap in H as (a & Hev & Hin'). apply list_elem_of_fmap in Hin' as (ev & -> & Hin').
      apply list_elem_of_filter in Hin' as [_ Hin'].
      apply (proj1 (Forall_forall _ _) recession_labels_not_events r Hr).
      rewrite Hev. by apply (list_elem_of_fmap_2 fst).
Qed.

(** The band of a recession reaches [df.max().max() * 1.1] and its label
    [df.max().max() * 1.05]; with [df_max] the largest cell, both are
    above every value the chart plots. *)
Lemma cells_le_max df m q :
  df_max df = Fin m -> Fin q ∈ concat (snd <$> df_columns df) -> (q <= m)%Qc.
Proof.
  intros Hm Hq. rewrite FrameFacts.df_max_flat in Hm.
  destruct (PyFloatFacts.max_skipna_spec (concat (snd <$> df_columns df))) as [_ Hspec].
  rewrite Hm in Hspec. destruct Hspec as [_ Hall]; [done|].
  rewrite Forall_forall in Hall. by apply PyFloatFacts.flt_fin_false, Hall.
Qed.

(** C30: The recession bands and their labels clear the plotted data
    (lines 191 and 199): when the largest value of the table is a
    non-negative number [m], every band rises to [1.1 m] and every band
    label sits at [1.05 m], and each number of the table lies below the
    label, itself below the top of the band. *)
Theorem bands_cover_table df m :
  df_max df = Fin m -> (0 <= m)%Qc ->
  exists lab top, band_label_y (df_max df) = Fin lab /\ band_top (df_max df) = Fin top /\
    forall q, Fin q ∈ concat (snd <$> df_columns df) -> (q <= lab)%Qc /\ (lab <= top)%Qc.
Proof.
  intros Hm H0. rewrite Hm. eexists _, _. split_and!; [reflexivity|reflexivity|].
  intros q Hq. split; [|apply PyFloatFacts.mul_le_mono_nonneg; [done|by_eval]].
  apply (Qcle_trans _ m); [by apply (cells_le_max df)|].
  rewrite <- (Qcmult_1_r m) at 1. apply PyFloatFacts.mul_le_mono_nonneg; [done|by_eval].
Qed.
End OverlayPlan.

(** ** Concrete ranges *)
Module OverlayExamples.
Import Overlay OverlayPlan.

(** The year 2008 lies inside the Great Recession: one band, clamped to
    the year. *)
Lemma band_rect_span_witness :
  @eq pyfloat (Fin 0%Qc) (Fin 0%Qc) /\
  @eq pyfloat (band_top (Fin (qc 100))) (band_top (Fin (qc 100))) /\
  exists r, r ∈ recessions /\ date_le (mkdate 2008 1 1) (mkdate 2008 1 1) /\
    date_le (mkdate 2008 12 31) (mkdate 2008 12 31) /\
    date_le (rec_start r) (mkdate 2008 1 1) /\ date_le (mkdate 2008 12 31) (rec_end r) /\
    date_le (mkdate 2008 1 1) (mkdate 2008 12 31).
Proof.
  apply (band_rect_span (mkdate 2008 1 1) (mkdate 2008 12 31) true (Fin (qc 100)) Figure.empty);
    by_eval.
Defined.

(** The year 2020 holds the COVID-19 recession; the Great Recession is
    outside it. *)
Lemma band_inside_outside_witness :
  (date_le (mkdate 2020 1 1) (mkdate 2020 2 1) -> date_le (mkdate 2020 6 30) (mkdate 2020 12 31) ->
     SRect (mkdate 2020 2 1) (mkdate 2020 6 30) (Fin 0%Qc) (band_top (Fin (qc 100)))
       ∈ fig_shapes (add_overlays (mkdate 2020 1 1) (mkdate 2020 12 31) true (Fin (qc 100)) Figure.empty))
  /\ (date_lt (mkdate 2009 6 30) (mkdate 2020 1 1) \/ date_lt (mkdate 2020 12 31) (mkdate 2007 12 1) ->
     "Grande Récession" ∉ an_text <$> fig_annotations Figure.empty ->
     "Grande Récession" ∉ an_text <$> fig_annotations
        (add_overlays (mkdate 2020 1 1) (mkdate 2020 12 31) true (Fin (qc 100)) Figure.empty)).
Proof.
  split.
  - apply (band_inside_outside (mkdate 2020 1 1) (mkdate 2020 12 31) true (Fin (qc 100)) Figure.empty
             (mkrec (mkdate 2020 2 1) (mkdate 2020 6 30) "Récession COVID-19")). by_eval.
  - apply (band_inside_outside (mkdate 2020 1 1) (mkdate 2020 12 31) true (Fin (qc 100)) Figure.empty
             (mkrec (mkdate 2007 12 1) (mkdate 2009 6 30) "Grande Récession")). by_eval.
Defined.

(** A range starting on the day of Macron's inauguration shows its line. *)
Lemma event_line_iff_witness :
  SVLine (mkdate 2017 5 17)
    ∈ fig_shapes (add_overlays (mkdate 2017 5 17) (mkdate 2017 12 31) true (Fin (qc 100)) Figure.empty).
Proof.
  apply (proj2 (event_line_iff (mkdate 2017 5 17) (mkdate 2017 12 31) (Fin (qc 100)) Figure.empty
                  ("Début mandat Macron (17/05/2017)", mkdate 2017 5 17) ltac:(by_eval) ltac:(by_eval))).
  by_eval.
Defined.

(** Gold and Tesla of the join example: the largest value is 110. *)
Lemma bands_cover_table_witness :
  exists lab top,
    band_label_y (Frame.df_max (Frame.from_dict FrameExamples.ex_data)) = Fin lab /\
    band_top (Frame.df_max (Frame.from_dict FrameExamples.ex_data)) = Fin top /\
    forall q, Fin q ∈ concat (snd <$> df_columns (Frame.from_dict FrameExamples.ex_data)) ->
      (q <= lab)%Qc /\ (lab <= top)%Qc.
Proof. apply (bands_cover_table _ (qc 110)); by_eval. Defined.
End OverlayExamples.
