(* ===== verification/Returns.v ===== *)
(** * Returns: the total return of each column (lines 242-253)

    For every column of the comparison table, line 246 tests
    [df[column].iloc[-1] and df[column].iloc[0]] with Python's
    truthiness (so only an exact zero is false, and [nan] is true), and
    lines 247-248 store [round((last - first) / first * 100, 2)] under the
    column's label.  Lines 249-253 then print one line per stored return,
    or a single message when none was stored. *)

From Stdlib Require Import ZArith QArith Qcanon Qabs Lqa.
From stdpp Require Import base list decidable strings.
From S2P Require Import Prelude PyFloat Dates Frame Figure Streamlit Fetch.
Import PyFloat.

Module Returns.

(** The texts of lines 243 and 253. *)
Definition msg_header : string := "Rendement total (%) sur la période :".
Definition msg_none : string := "Aucun rendement calculable pour les actifs sélectionnés.".

(** What [iloc] raises on an empty Series. *)
Definition iloc_error : exn := IndexError "single positional indexer is out-of-bounds".

(** Lines 247-248: [round((last - first) / first * 100, 2)]. *)
Definition total_return (first last : pyfloat) : pyfloat :=
  round2 (fmul (fdiv (fsub last first) first) (Fin (qc 100))).

(** Lines 246-248, one column; [and] evaluates [iloc[-1]] first and
    stops when it is false. *)
Definition returns_step (returns : list (string * pyfloat)) (kc : string * list pyfloat)
  : St (list (string * pyfloat)) :=
  match Frame.iloc_last kc.2 with
  | None => raise iloc_error
  | Some last =>
      if truthy last then
        match Frame.iloc_first kc.2 with
        | None => raise iloc_error
        | Some first =>
            if truthy first then ret (dict_set kc.1 (total_return first last) returns)
            else ret returns
        end
      else ret returns
  end.

(** Lines 249-253. *)
Definition print_returns (returns : list (string * pyfloat)) : St unit :=
  if decide (returns <> []) then
    foldM (fun _ av => emit (OWriteReturn av.1 av.2)) tt returns
  else emit (OWrite msg_none).

(** Lines 243-253. *)
Definition report_returns (df : dataframe) : St (list (string * pyfloat)) :=
  emit (OWrite msg_header);;;
  returns <- foldM returns_step [] (df_columns df);;
  print_returns returns;;;
  ret returns.

End Returns.

Module ReturnsFacts.
Import Returns Frame FrameFacts Dates Fetch.

(** The return lines 246-248 store for one column, if any. *)
Definition column_return (kc : string * list pyfloat) : option (string * pyfloat) :=
  match last kc.2, head kc.2 with
  | Some l, Some f => if truthy l && truthy f then Some (kc.1, total_return f l) else None
  | _, _ => None
  end.

Lemma column_return_key kc r : column_return kc = Some r -> r.1 = kc.1.
Proof.
  unfold column_return. destruct (last kc.2), (head kc.2); try done.
  destruct (_ && _); [by intros [= <-]|done].
Qed.

Lemma omap_keys (pre : list (string * list pyfloat)) k :
  k ∈ (omap column_return pre).*1 -> k ∈ pre.*1.
Proof.
  intros (r & -> & Hr)%list_elem_of_fmap. apply list_elem_of_omap in Hr as (kc & Hkc & Hr).
  rewrite (column_return_key kc r Hr). by apply list_elem_of_fmap_2.
Qed.

Lemma returns_step_eq returns kc l :
  kc.2 <> [] -> kc.1 ∉ returns.*1 ->
  returns_step returns kc l = (l, inr (returns ++ option_list (column_return kc))).
Proof.
  intros Hne Hfresh. destruct kc as [k c]. unfold returns_step, column_return, Frame.iloc_last,
    Frame.iloc_first. simpl in *.
  destruct c as [|f c]; [done|]. destruct (last (f :: c)) as [x|] eqn:Hl.
  2: { by rewrite last_None in Hl. }
  simpl. destruct (truthy x), (truthy f); simpl; rewrite ?app_nil_r; try done.
  unfold ret. by rewrite dict_set_new.
Qed.

Lemma returns_loop cols pre l :
  NoDup (pre ++ cols).*1 -> Forall (fun kc => kc.2 <> []) cols ->
  foldM returns_step (omap column_return pre) cols l = (l, inr (omap column_return (pre ++ cols))).
Proof.
  revert pre l. induction cols as [|kc cols IH]; intros pre l Hnd Hne; simpl.
  { by rewrite app_nil_r. }
  apply Forall_cons in Hne as [Hkc Hne]. unfold bind at 1. rewrite returns_step_eq; [|done|].
  - assert (E : omap column_return pre ++ option_list (column_return kc)
                = omap column_return (pre ++ [kc])).
    { rewrite omap_app. simpl. by destruct (column_return kc). }
    rewrite E, IH by (by rewrite <- ?app_assoc). by rewrite <- app_assoc.
  - intros Hin%omap_keys. rewrite fmap_app, fmap_cons in Hnd.
    apply NoDup_app in Hnd as (_ & Hd & _). apply (Hd _ Hin). left.
Qed.

Lemma print_returns_eq rs l :
  print_returns rs l
  = (l ++ (if decide (rs <> []) then (fun av => OWriteReturn av.1 av.2) <$> rs
           else [OWrite msg_none]), inr tt).
Proof.
  unfold print_returns. case_decide; [|done]. clear. revert l.
  induction rs as [|av rs IH]; intros l; simpl; [by rewrite app_nil_r|].
  unfold bind at 1, emit at 1. rewrite IH. by rewrite <- app_assoc.
Qed.

Lemma report_returns_eq (df : dataframe) l :
  NoDup (df_columns df).*1 -> Forall (fun kc => kc.2 <> []) (df_columns df) ->
  let rs := omap column_return (df_columns df) in
  report_returns df l
  = (l ++ [OWrite msg_header] ++
       (if decide (rs <> []) then (fun av => OWriteReturn av.1 av.2) <$> rs
        else [OWrite msg_none]), inr rs).
Proof.
  intros Hnd Hne rs. unfold report_returns, bind at 1, emit at 1.
  unfold bind at 1. rewrite (returns_loop (df_columns df) [] _ Hnd Hne).
  unfold bind. rewrite print_returns_eq. unfold ret. by rewrite <- app_assoc.
Qed.

(** C7: The returns report (lines 243-253) on a table with distinct
    labels and non-empty columns raises no [IndexError]; it stores, in
    column order, the return of exactly the columns whose last and first
    values are both truthy, and prints the header, then one line per
    stored return or, when none was stored, the "no computable return"
    message. *)
Theorem report_returns_spec (df : dataframe) l :
  NoDup (df_columns df).*1 -> Forall (fun kc => kc.2 <> []) (df_columns df) ->
  let rs := omap column_return (df_columns df) in
  report_returns df l
  = (l ++ [OWrite msg_header] ++
       (if decide (rs <> []) then (fun av => OWriteReturn av.1 av.2) <$> rs
        else [OWrite msg_none]), inr rs).
Proof. apply report_returns_eq. Qed.

Lemma total_return_fin (a b : Qc) :
  a <> 0%Qc -> total_return (Fin a) (Fin b) = round2 (Fin ((b - a) / a * qc 100)%Qc).
Proof. intros Ha. unfold total_return. simpl fsub. by rewrite PyFloatFacts.fdiv_fin. Qed.

Lemma normalized_fin (p0 v : Qc) :
  p0 <> 0%Qc -> fmul (fdiv (Fin v) (Fin p0)) (Fin (qc 100)) = Fin (v / p0 * qc 100)%Qc.
Proof. intros Hp. by rewrite PyFloatFacts.fdiv_fin. Qed.

Lemma qc100_nonzero : qc 100 <> 0%Qc.
Proof. by_eval. Qed.

Lemma normalized_nonzero (p0 v : Qc) :
  p0 <> 0%Qc -> v <> 0%Qc -> (v / p0 * qc 100)%Qc <> 0%Qc.
Proof.
  intros Hp Hv H. apply Qcmult_integral in H as [H|H]; [|by apply qc100_nonzero].
  unfold Qcdiv in H. apply Qcmult_integral in H as [H|H]; [done|].
  pose proof (Qcmult_inv_r p0 Hp) as H1. rewrite H, Qcmult_0_r in H1.
  by apply Q_apart_0_1.
Qed.

(** The return lines 246-248 store for a column of prices normalised by
    line 22 on a first price [p0] with non-zero first and last values. *)
Lemma column_return_normalized k (c : list pyfloat) (p0 pn : Qc) :
  head c = Some (Fin p0) -> last c = Some (Fin pn) -> p0 <> 0%Qc -> pn <> 0%Qc ->
  column_return (k, norm_value (Fin p0) <$> c) = Some (k, round2 (Fin ((pn - p0) / p0 * qc 100)%Qc)).
Proof.
  intros Hh Hl Hp Hn. unfold column_return. cbn [fst snd].
  rewrite fmap_last, head_fmap_list, Hh, Hl. cbn [fmap option_fmap option_map]. unfold norm_value.
  rewrite !normalized_fin by done.
  rewrite !PyFloatFacts.truthy_nonzero by (by apply normalized_nonzero). cbn [andb].
  rewrite total_return_fin by (by apply normalized_nonzero). do 4 f_equal.
  field. repeat split; auto using qc100_nonzero.
Qed.

(** C25: Normalising does not change the return (lines 22 and 246-248,
    composed): when the data source gives a ticker a frame whose closing
    prices run from a non-zero [p0] to a non-zero [pn], [get_normalized_data]
    returns a Series, and the returns report on the table of that Series
    stores the rounded percentage change between the raw prices,
    [round((pn - p0) / p0 * 100, 2)], under the ticker. *)
Theorem return_of_raw_prices src t s e f (p0 pn : Qc) cs :
  src t s e = Downloaded f -> FetchFacts.frame_wf f -> NoDup (raw_index f) ->
  FetchFacts.close_column f = Some (Fin p0 :: cs) -> last (Fin p0 :: cs) = Some (Fin pn) ->
  p0 <> 0%Qc -> pn <> 0%Qc ->
  exists sr, (run (get_normalized_data src t s e)).2 = inr (Some sr) /\
    (run (report_returns (from_dict [(t, sr)]))).2
    = inr [(t, round2 (Fin ((pn - p0) / p0 * qc 100)%Qc))].
Proof.
  intros Hsrc Hwf Hnd Hc Hl Hp Hn. pose proof (FetchFacts.close_column_wf f _ Hwf Hc) as Hlen.
  set (sr := normalize (Fin p0) (column_series f (Fin p0 :: cs))).
  assert (H1 : sr.*1 = raw_index f)
    by (unfold sr; by rewrite FetchFacts.normalize_fst, FetchFacts.column_series_fst).
  assert (H2 : sr.*2 = norm_value (Fin p0) <$> (Fin p0 :: cs))
    by (unfold sr; by rewrite FetchFacts.normalize_snd, FetchFacts.column_series_snd).
  exists sr. split.
  { unfold run. by rewrite (FetchFacts.get_normalized_data_close src t s e [] f p0 cs). }
  assert (Hcols : df_columns (from_dict [(t, sr)]) = [(t, norm_value (Fin p0) <$> (Fin p0 :: cs))]).
  { unfold from_dict, union_index. simpl. rewrite union_dates_nil_r, value_at_own, H2; [done|].
    by rewrite H1. }
  unfold run. rewrite report_returns_eq; rewrite Hcols.
  - cbn [snd omap list_omap]. by rewrite (column_return_normalized t _ p0 pn).
  - apply NoDup_singleton.
  - by repeat constructor.
Qed.

(** The exact percentage change, computed on canonical rationals, is
    the one on rationals. *)
Lemma this_return (a b : Qc) :
  (this ((b - a) / a * qc 100)%Qc == (this b - this a) / this a * 100)%Q.
Proof.
  unfold Qcminus, Qcdiv, Qcmult, Qcplus, Qcopp, Qcinv, qc, Q2Qc. cbn [this].
  rewrite !Qred_correct. reflexivity.
Qed.

(** A non-negative price never loses more than everything. *)
Lemma return_ge (a b : Q) : (0 < a -> 0 <= b -> -100 <= (b - a) / a * 100)%Q.
Proof.
  intros Ha Hb. assert (H : (0 <= b / a)%Q) by (apply Qle_shift_div_l; [done|]; by rewrite Qmult_0_l).
  assert (E : ((b - a) / a == b / a - 1)%Q) by (field; by apply Qnot_eq_sym, Qlt_not_eq).
  rewrite E. lra.
Qed.

(** C8: The return stored at line 248 for a column whose first price is
    positive and last price non-negative (the normalised prices of an
    asset): a whole number [z] of hundredths of a percent, at least
    [-100 %], and within half a hundredth of the exact percentage change
    [(last - first) / first * 100]. *)
Theorem total_return_bounds (first last : Qc) :
  (0 < first)%Qc -> (0 <= last)%Qc ->
  exists z : Z, total_return (Fin first) (Fin last) = Fin (qc (inject_Z z / 100))
             /\ (-10000 <= z)%Z
             /\ (Qabs (inject_Z z / 100 - (this last - this first) / this first * 100) <= 1 # 200)%Q.
Proof.
  intros H0 H1. set (x := ((this last - this first) / this first * 100)%Q).
  exists (round_half_even (x * 100)). split_and!.
  - rewrite total_return_fin by (apply not_eq_sym, Qclt_not_eq, H0).
    rewrite PyFloatFacts.round2_fin. do 4 f_equal.
    apply PyFloatFacts.round_half_even_proper. by rewrite this_return.
  - apply PyFloatFacts.round_half_even_ge. pose proof (return_ge _ _ H0 H1) as H.
    fold x in H. change (inject_Z (-10000)) with ((-10000) # 1). lra.
  - apply PyFloatFacts.round2_approx.
Qed.

Lemma value_at_truthy (sr : series) d :
  Forall (fun dv => truthy dv.2 = true) sr -> truthy (value_at sr d) = true.
Proof.
  induction sr as [|[d' v] sr IH]; intros Hs; simpl; [done|].
  apply Forall_cons in Hs as [Hv Hs]. case_decide; auto.
Qed.

(** The return lines 246-248 store for the column of a Series that
    starts after another one, all of whose prices are truthy: [nan]. *)
Lemma later_series_column_return data j k sr d0 :
  Forall (fun kv => series_wf kv.2) data -> data !! j = Some (k, sr) ->
  (exists kv, kv ∈ data /\ d0 ∈ (kv.2).*1) -> (forall d, d ∈ sr.*1 -> date_lt d0 d) ->
  Forall (fun dv => truthy dv.2 = true) sr ->
  (k, NaN) ∈ omap column_return (df_columns (from_dict data)).
Proof.
  intros Hwf Hj Hd0 Hlater Htr. apply list_elem_of_omap.
  exists (k, value_at sr <$> union_index data). split.
  { by eapply list_elem_of_lookup_2, from_dict_column. }
  pose proof (later_series_first_nan data sr d0 Hwf Hd0 Hlater) as Hh.
  unfold column_return. simpl. rewrite Hh, fmap_last.
  destruct (last (union_index data)) as [d|] eqn:Hl.
  2: { apply last_None in Hl. by rewrite Hl in Hh. }
  simpl. rewrite value_at_truthy by done. simpl. by destruct (value_at sr d).
Qed.

(** C26: A Series that starts after another one gets a [nan] return
    (lines 157 and 243-253): the outer join gives its column a [nan]
    first cell, [nan] is truthy, so the test of line 246 passes and the
    returns report stores and prints [nan] for it, even when all its own
    prices are non-zero. *)
Theorem later_series_nan_return data j k sr d0 :
  Forall (fun kv => series_wf kv.2) data -> NoDup data.*1 -> data !! j = Some (k, sr) ->
  (exists kv, kv ∈ data /\ d0 ∈ (kv.2).*1) -> (forall d, d ∈ sr.*1 -> date_lt d0 d) ->
  Forall (fun dv => truthy dv.2 = true) sr ->
  exists rs, (run (report_returns (from_dict data))).2 = inr rs /\ (k, NaN) ∈ rs /\
    OWriteReturn k NaN ∈ (run (report_returns (from_dict data))).1.
Proof.
  intros Hwf Hnd Hj Hd0 Hlater Htr.
  pose proof (later_series_column_return data j k sr d0 Hwf Hj Hd0 Hlater Htr) as Hin.
  assert (Hidx : union_index data <> []).
  { destruct Hd0 as (kv & Hkv & Hd). intros Hnil. apply (elem_of_nil d0). rewrite <- Hnil.
    apply elem_of_union_index. by exists kv. }
  unfold run. rewrite report_returns_eq.
  - eexists. split_and!; [reflexivity|done|]. rewrite decide_True by (intros Hrs; rewrite Hrs in Hin; by apply elem_of_nil in Hin).
    cbn [fst]. rewrite !elem_of_app. right; right.
    by apply (list_elem_of_fmap_2 (fun av : string * pyfloat => OWriteReturn av.1 av.2) _ (k, NaN)).
  - unfold from_dict. simpl. by rewrite <- list_fmap_compose.
  - by apply from_dict_nonempty.
Qed.
End ReturnsFacts.

(** ** Concrete tables *)
Module ReturnsExamples.
Import Returns ReturnsFacts FrameFacts Frame Fetch.

(** The spec's example: normalised values 100, 150, 80. *)
Definition ex_df : dataframe :=
  mkdf [mkdate 2020 1 2; mkdate 2020 1 3; mkdate 2020 1 6]
       [("Or", [Fin (qc 100); Fin (qc 150); Fin (qc 80)])].

Lemma report_returns_spec_witness :
  report_returns ex_df []
  = ([] ++ [OWrite msg_header] ++
       (if decide (omap column_return (df_columns ex_df) <> [])
        then (fun av => OWriteReturn av.1 av.2) <$> omap column_return (df_columns ex_df)
        else [OWrite msg_none]), inr (omap column_return (df_columns ex_df))) /\
  omap column_return (df_columns ex_df) = [("Or", Fin (qc (-20)))].
Proof. split; [apply report_returns_spec; by_eval|by_eval]. Defined.

(** Gold closes at 50 then 75: the report stores +50 %. *)
Lemma return_of_raw_prices_witness :
  exists sr,
    (run (get_normalized_data FetchExamples.ex_source "GC=F" "2020-01-01" "2020-12-31")).2
      = inr (Some sr) /\
    (run (report_returns (from_dict [("GC=F", sr)]))).2
      = inr [("GC=F", round2 (Fin ((qc 75 - qc 50) / qc 50 * qc 100)%Qc))].
Proof.
  apply (return_of_raw_prices _ _ _ _ FetchExamples.ex_frame (qc 50) (qc 75) [Fin (qc 75)]);
    first [reflexivity|by_eval].
Defined.

(** Gold trades on 2 and 3 January, Tesla from 3 January only. *)
Definition ex_data : list (string * series) :=
  [("GC=F", [(mkdate 2020 1 2, Fin (qc 100)); (mkdate 2020 1 3, Fin (qc 110))]);
   ("TSLA", [(mkdate 2020 1 3, Fin (qc 100))])].

Lemma later_series_nan_return_witness :
  exists rs, (run (report_returns (from_dict ex_data))).2 = inr rs /\ ("TSLA", NaN) ∈ rs /\
    OWriteReturn "TSLA" NaN ∈ (run (report_returns (from_dict ex_data))).1.
Proof.
  apply (later_series_nan_return ex_data 1 "TSLA" [(mkdate 2020 1 3, Fin (qc 100))] (mkdate 2020 1 2)).
  - repeat constructor; by_eval.
  - by_eval.
  - reflexivity.
  - exists (ex_data !!! 0). split; [by_eval|by_eval].
  - intros d Hd. apply list_elem_of_singleton in Hd as ->. by_eval.
  - repeat constructor.
Defined.
(** Normalised prices 100 then 80: [-20.00] exactly. *)
Lemma total_return_bounds_witness :
  total_return (Fin (qc 100)) (Fin (qc 80)) = Fin (qc (inject_Z (-2000) / 100)) /\
  exists z : Z, total_return (Fin (qc 100)) (Fin (qc 80)) = Fin (qc (inject_Z z / 100))
             /\ (-10000 <= z)%Z
             /\ (Qabs (inject_Z z / 100 - (this (qc 80) - this (qc 100)) / this (qc 100) * 100)
                 <= 1 # 200)%Q.
Proof. split; [by_eval|apply total_return_bounds; by_eval]. Defined.
End ReturnsExamples.
