(* ===== verification/App.v ===== *)
(** * App: one run of the whole script

    [run_app] is [src/idl/app.py] from top to bottom: the style block and
    sidebar texts (lines 30-67), the date inputs (lines 70-73), the
    multiselects (lines 116-131), the merge of the selections
    (lines 134-140), the fetch loop (lines 143-150), then either the
    aggregate error (line 154) or the comparison (lines 157-264: the
    table, the events checkbox, the chart, the returns and the CSV
    download), and the logo (lines 267-270).  The environment [env]
    gathers what a run reads from outside: the date, the widget states,
    the data source and whether the logo file exists. *)

From Stdlib Require Import ZArith QArith Qcanon.
From stdpp Require Import base list decidable strings.
From S2P Require Import Prelude PyFloat Dates Frame Figure Streamlit Widgets Catalog Fetch Overlay Returns.
Import Dates DateText Frame Widgets Sidebar Catalog Fetch Overlay Returns.

Module App.

(** What one run of the script reads from outside. *)
Record env : Type := mkenv {
  now : date;                                    (** [datetime.now()] *)
  start_pick : option date;                      (** the "Date de début" widget *)
  end_pick : option date;                        (** the "Date de fin" widget *)
  picks : string -> option (list string);        (** the multiselect of each category *)
  src : source;                                  (** [yf.download] *)
  show_pick : option bool;                       (** the events checkbox *)
  logo_exists : bool                             (** [os.path.exists("hedgehog_logo.png")] *)
}.

(** The style block of lines 31-60. *)
Definition style_css : string := "
    <style>
    /* Réduire la largeur de la sidebar */
    .sidebar .sidebar-content {
        width: 180px !important;
    }
    /* Mettre le graphique en valeur et minimiser les marges */
    .stPlotlyChart {
        width: 100% !important;
        max-width: 100% !important;
        margin-left: 0 !important;
        margin-right: 0 !important;
        border: 2px solid #d0d0d0 !important;
        border-radius: 10px !important;
        box-shadow: 0 6px 12px rgba(0, 0, 0, 0.15) !important;
        background-color: #f9f9f9 !important;
    }
    /* Supprimer les paddings inutiles autour du conteneur principal */
    .main .block-container {
        padding-left: 0 !important;
        padding-right: 0 !important;
        padding-top: 0 !important;
        padding-bottom: 0 !important;
    }
    /* Ajuster la hauteur minimale de la page pour éviter les espaces blancs */
    .main {
        min-height: 100vh !important;
    }
    </style>
    ".

(** Lines 30-67. *)
Definition page_header : St unit :=
  emit (OStyle style_css);;;
  emit (OSidebarTitle "📈 Comparaison des valeurs financières");;;
  emit (OSidebarMarkdown "Comparez les évolutions normalisées (base 100) d'actifs financiers.");;;
  emit (OSidebarHeader "Paramètres").

(** Line 154. *)
Definition msg_no_valid : string :=
  "Aucune donnée valide récupérée. Essayez d'autres actifs ou une période différente.".

(** [ticker_to_name.get(ticker, ticker)] (line 158). *)
Definition display_name (ticker_to_name : list (string * string)) (ticker : string) : string :=
  default ticker (dict_get ticker ticker_to_name).

(** Lines 157-158. *)
Definition app_frame (ticker_to_name : list (string * string)) (data : list (string * series))
  : dataframe :=
  rename (display_name ticker_to_name) (from_dict data).

(** Lines 180-181. *)
Definition add_traces (df : dataframe) (fig : figure) : figure :=
  fold_left (fun fig kc => Figure.add_trace (mktrace (df_index df) kc.2 kc.1) fig)
            (df_columns df) fig.

(** Lines 220-237: the layout fields the model keeps. *)
Definition chart_layout : layout :=
  mklayout "Évolution normalisée des actifs sélectionnés" "Date"
           "Valeur normalisée (base 100)" "x unified" 1000.

(** Lines 179-237. *)
Definition build_figure (start_dt end_dt : date) (show_events : bool) (df : dataframe)
  : figure :=
  let fig := add_traces df Figure.empty in
  let fig := add_overlays start_dt end_dt show_events (df_max df) fig in
  Figure.update_layout chart_layout fig.

(** Lines 256-264: the button in the middle column of [st.columns([1, 2, 1])]. *)
Definition download_label : string := "📥 Télécharger les données (CSV)".
Definition csv_file_name (end_date : date) : string :=
  "financial_comparison_" +:+ iso_date end_date +:+ ".csv".
Definition download_button (df : dataframe) (end_date : date) : out :=
  OColumn [1; 2; 1] 1 (ODownload download_label (to_csv df) (csv_file_name end_date) "text/csv").

(** Lines 157-264. *)
Definition compare (start_dt end_dt : date) (show_pick : option bool)
           (ticker_to_name : list (string * string)) (data : list (string * series)) : St unit :=
  let df := app_frame ticker_to_name data in
  emit (OSidebarHeader "Événements historiques");;;
  show_events <- checkbox "Afficher les événements historiques" true show_pick;;
  emit (OChart (build_figure start_dt end_dt show_events df));;;
  report_returns df;;;
  emit (download_button df end_dt).

(** Lines 153-264. *)
Definition report (start_dt end_dt : date) (show_pick : option bool)
           (ticker_to_name : list (string * string)) (data : list (string * series)) : St unit :=
  if decide (data = []) then emit (OError msg_no_valid)
  else compare start_dt end_dt show_pick ticker_to_name data.

(** Lines 267-270. *)
Definition show_logo (logo_exists : bool) : St unit :=
  if logo_exists then emit (OColumn [4; 1] 1 (OImage "hedgehog_logo.png" 150)) else ret tt.

(** The whole script. *)
Definition run_app (e : env) : St unit :=
  page_header;;;
  dates <- pick_dates (now e) (start_pick e) (end_pick e);;
  selected_assets <- select_assets assets_by_category (picks e);;
  merged <- merge_selections assets_by_category selected_assets;;
  data <- fetch_all (src e) (iso_date dates.1) (iso_date dates.2) merged.1;;
  report dates.1 dates.2 (show_pick e) merged.2 data;;;
  show_logo (logo_exists e).

End App.

Module AppFacts.
Import App OverlayPlan CatalogFacts.

(** The trace of line 181 for a column. *)
Definition column_trace (idx : list date) (kc : string * list pyfloat) : trace :=
  mktrace idx kc.2 kc.1.

Lemma add_traces_eq df fig :
  add_traces df fig
  = mkfig (fig_traces fig ++ (column_trace (df_index df) <$> df_columns df))
          (fig_shapes fig) (fig_annotations fig) (fig_layout fig).
Proof.
  unfold add_traces. generalize (df_index df) as idx. intros idx.
  revert fig. induction (df_columns df) as [|kc cols IH]; intros fig; simpl.
  { rewrite app_nil_r. by destruct fig. }
  rewrite IH. simpl. by rewrite <- app_assoc.
Qed.

(** C12: The chart of lines 179-237: one line trace per column of the
    table, in column order, over the table's index and named by the
    column label; then the recession bands and event lines of the
    overlay plan, with their labels; and the layout of line 220. *)
Theorem build_figure_spec s e show df :
  build_figure s e show df
  = mkfig (column_trace (df_index df) <$> df_columns df)
          ((band_shape (df_max df) <$> plan_bands s e)
             ++ ((fun ev => SVLine ev.2) <$> plan_markers s e show))
          ((band_annot (df_max df) <$> plan_bands s e)
             ++ (marker_annot (df_max df) <$> plan_markers s e show))
          (Some chart_layout).
Proof.
  unfold build_figure, add_overlays. rewrite add_traces_eq, fold_add_recession.
  unfold plan_markers. destruct show; [rewrite fold_add_event|]; simpl; by rewrite ?app_nil_r.
Qed.

Lemma app_frame_labels t2n data :
  (df_columns (app_frame t2n data)).*1 = display_name t2n <$> data.*1.
Proof. unfold app_frame, rename, from_dict. simpl. by rewrite <- !list_fmap_compose. Qed.

Lemma app_frame_index t2n data : df_index (app_frame t2n data) = union_index data.
Proof. reflexivity. Qed.

(** The loop of line 147 keeps non-empty Series only, so every column of
    the table has a first and a last cell. *)
Lemma app_frame_nonempty t2n data :
  Forall (fun kv => kv.2 <> []) data ->
  Forall (fun kc => kc.2 <> []) (df_columns (app_frame t2n data)).
Proof.
  intros Hne. destruct data as [|kv0 data']; [constructor|].
  assert (Hidx : union_index (kv0 :: data') <> []).
  { apply Forall_cons in Hne as [Hsr _]. destruct kv0 as [k [|[d v] sr]]; [done|].
    intros Hnil. apply (elem_of_nil d). rewrite <- Hnil. apply FrameFacts.elem_of_union_index.
    exists (k, (d, v) :: sr). split; [left|]. simpl. left. }
  apply Forall_forall. intros kc Hkc. unfold app_frame, rename, from_dict in Hkc.
  cbn [df_columns] in Hkc. revert Hidx Hkc. generalize (union_index (kv0 :: data')) as idx.
  intros idx Hidx Hkc.
  apply list_elem_of_fmap in Hkc as (kc' & -> & Hkc').
  apply list_elem_of_fmap in Hkc' as (kv & -> & _). simpl.
  intros Hnil%fmap_nil_inv. by apply Hidx.
Qed.

(** The page [report_returns] writes on the table (lines 243-253). *)
Definition returns_page (df : dataframe) : list out :=
  let rs := omap ReturnsFacts.column_return (df_columns df) in
  OWrite msg_header ::
  (if decide (rs <> []) then (fun av => OWriteReturn av.1 av.2) <$> rs else [OWrite msg_none]).

(** The comparison section (lines 157-264) on Series with non-empty
    data and distinct display names raises nothing (no [iloc] of line
    246 meets an empty column) and writes, in order: the events header
    and checkbox, the chart of the table, the returns report and the
    download button of the table's CSV, named after the end date. *)
Lemma compare_eq s e sp (t2n : list (string * string)) (data : list (string * series)) l :
  NoDup (display_name t2n <$> data.*1) -> Forall (fun kv => kv.2 <> []) data ->
  let df := app_frame t2n data in
  compare s e sp t2n data l
  = (l ++ [OSidebarHeader "Événements historiques";
           OCheckbox "Afficher les événements historiques" (default true sp);
           OChart (build_figure s e (default true sp) df)]
       ++ returns_page df ++ [download_button df e], inr tt).
Proof.
  intros Hnd Hne df. rewrite <- (app_frame_labels t2n data) in Hnd.
  unfold compare, checkbox, bind, emit, ret. simpl.
  unfold report_returns, bind, emit.
  rewrite (ReturnsFacts.returns_loop (df_columns df) [] _ Hnd (app_frame_nonempty t2n data Hne)).
  rewrite ReturnsFacts.print_returns_eq. simpl. unfold returns_page. rewrite <- !app_assoc. reflexivity.
Qed.

(** What lines 30-67 write. *)
Definition header_page : list out := (run page_header).1.

Lemma page_header_eq l : page_header l = (l ++ header_page, inr tt).
Proof. unfold page_header, header_page, run, bind, emit. simpl. by rewrite <- !app_assoc. Qed.

(** C4: From 2026-01-01 on, every run of the script stops at line 71:
    the default [value=datetime.now()] of the end-date input lies above
    its [max_value=datetime(2025, 12, 31)] (or the start date picked is
    itself above it), so Streamlit raises [StreamlitAPIException]
    whatever the user picked.  The page then
    holds the sidebar texts and the start-date input only: no ticker is
    fetched and no chart, return or download is shown. *)
Theorem run_app_crash e :
  date_lt ceiling_date (now e) ->
  run (run_app e)
  = (header_page ++ [ODateInput "Date de début" (SidebarFacts.start_of (now e) (start_pick e))],
     inl (StreamlitAPIException
            (SidebarFacts.date_input_error (now e) (SidebarFacts.start_of (now e) (start_pick e))
                                           ceiling_date))).
Proof.
  intros H. unfold run, run_app, bind at 1. rewrite page_header_eq.
  unfold bind at 1. by rewrite SidebarFacts.pick_dates_crash.
Qed.

(** ** A run inside the date window *)

(** What the page shows from line 153 on. *)
Definition report_page (s e : date) (sp : option bool) (t2n : list (string * string))
           (data : list (string * series)) : list out :=
  if decide (data = []) then [OError msg_no_valid]
  else let df := app_frame t2n data in
       [OSidebarHeader "Événements historiques";
        OCheckbox "Afficher les événements historiques" (default true sp);
        OChart (build_figure s e (default true sp) df)]
       ++ returns_page df ++ [download_button df e].

Definition logo_page (b : bool) : list out :=
  if b then [OColumn [4; 1] 1 (OImage "hedgehog_logo.png" 150)] else [].

Lemma report_eq s e sp t2n (data : list (string * series)) l :
  NoDup (display_name t2n <$> data.*1) -> Forall (fun kv => kv.2 <> []) data ->
  report s e sp t2n data l = (l ++ report_page s e sp t2n data, inr tt).
Proof.
  intros Hnd Hne. unfold report, report_page. case_decide; [done|]. by apply compare_eq.
Qed.

Lemma show_logo_eq b l : show_logo b l = (l ++ logo_page b, inr tt).
Proof. unfold show_logo, logo_page. destruct b; [done|]. by rewrite app_nil_r. Qed.

(** The facts of the asset table the run relies on. *)
Lemma table_facts :
  catalog_wf assets_by_category /\ names_distinct assets_by_category /\
  defaults_ok assets_by_category.
Proof. split_and!; by_eval. Qed.

(** The dates, selection, tickers, reverse map and kept Series of a
    run. *)
Definition app_start (e : env) : date := SidebarFacts.start_of (now e) (start_pick e).
Definition app_end (e : env) : date := SidebarFacts.end_of (now e) (app_start e) (end_pick e).
Definition app_selection (e : env) : list (string * list string) :=
  selection (picks e) assets_by_category.
Definition app_tickers (e : env) : list string :=
  CatalogFacts.ticker_of assets_by_category <$> chosen (app_selection e).
Definition app_names (e : env) : list (string * string) :=
  CatalogFacts.names_of assets_by_category (chosen (app_selection e)).
Definition app_data (e : env) : list (string * series) :=
  FetchFacts.kept (src e) (iso_date (app_start e)) (iso_date (app_end e)) (app_tickers e).

Lemma app_selection_wf e :
  picks_ok assets_by_category (picks e) -> selection_wf assets_by_category (app_selection e).
Proof.
  intros Hp. destruct table_facts as (Hc & _ & Hd). by apply selection_wf_of.
Qed.

Lemma app_merge e l :
  picks_ok assets_by_category (picks e) ->
  merge_selections assets_by_category (app_selection e) l = (l, inr (app_tickers e, app_names e)).
Proof.
  intros Hp. pose proof (app_selection_wf e Hp) as Hsel. destruct table_facts as (Hc & _ & _).
  unfold merge_selections. rewrite foldM_nested.
  apply (CatalogFacts.merge_pairs _ (chosen (app_selection e)) []);
    [by apply CatalogFacts.chosen_valid|by apply CatalogFacts.chosen_tickers_NoDup].
Qed.

(** Each fetched ticker is shown under the display name chosen for it. *)
(** Each chosen asset's ticker is shown under its chosen display name. *)
Lemma app_display_name_of e p :
  picks_ok assets_by_category (picks e) -> p ∈ chosen (app_selection e) ->
  display_name (app_names e) (ticker_of assets_by_category p) = p.2.
Proof.
  intros Hp Hi. pose proof (app_selection_wf e Hp) as Hsel. destruct table_facts as (Hc & _ & _).
  unfold display_name. rewrite (dict_get_elem _ p.2); [done| |].
  - unfold app_names, CatalogFacts.names_of. rewrite <- list_fmap_compose.
    by apply CatalogFacts.chosen_tickers_NoDup.
  - apply (list_elem_of_fmap_2 (fun p => (CatalogFacts.ticker_of assets_by_category p, p.2))), Hi.
Qed.

Lemma app_display_names e :
  picks_ok assets_by_category (picks e) ->
  display_name (app_names e) <$> app_tickers e = (chosen (app_selection e)).*2.
Proof.
  intros Hp. unfold app_tickers. rewrite <- list_fmap_compose. apply list_fmap_ext.
  intros i p Hi%list_elem_of_lookup_2. by apply app_display_name_of.
Qed.

Lemma app_data_names_NoDup e :
  picks_ok assets_by_category (picks e) ->
  NoDup (display_name (app_names e) <$> (app_data e).*1).
Proof.
  intros Hp. apply FetchFacts.kept_fmap_NoDup. rewrite app_display_names by done.
  destruct table_facts as (Hc & Hn & _). apply (chosen_names_NoDup assets_by_category); [done|done|by apply app_selection_wf].
Qed.

(** The page of a run inside the date window, from the components'
    own lemmas. *)
Lemma run_app_eq e :
  date_le start_default (now e) -> date_le (now e) ceiling_date ->
  picks_ok assets_by_category (picks e) ->
  run (run_app e)
  = (header_page
       ++ [ODateInput "Date de début" (app_start e); ODateInput "Date de fin" (app_end e)]
       ++ select_page (picks e) assets_by_category
       ++ (app_tickers e ≫= FetchFacts.fetch_page (src e) (iso_date (app_start e))
                                                   (iso_date (app_end e)))
       ++ report_page (app_start e) (app_end e) (show_pick e) (app_names e) (app_data e)
       ++ logo_page (logo_exists e), inr tt).
Proof.
  intros H1 H2 Hp. destruct table_facts as ((Hnd & _ & _) & _ & Hd).
  unfold run, run_app, bind at 1. rewrite page_header_eq.
  unfold bind at 1. rewrite SidebarFacts.pick_dates_eq by done. cbn [fst snd].
  unfold bind at 1. rewrite select_assets_eq by done.
  unfold bind at 1. fold (app_selection e). rewrite app_merge by done.
  unfold bind at 1. unfold fetch_all.
  rewrite (FetchFacts.fetch_loop _ _ _ _ [] _) by (apply CatalogFacts.chosen_tickers_NoDup;
    [by destruct table_facts as (? & _)|by apply app_selection_wf]).
  unfold bind. fold (app_start e) (app_end e) (app_tickers e).
  rewrite report_eq; [|apply app_data_names_NoDup, Hp|apply FetchFacts.kept_nonempty].
  rewrite show_logo_eq. rewrite <- !app_assoc. reflexivity.
Qed.

(** C2: A run while [now] lies in [[2010-01-01, 2025-12-31]], with
    widgets that return valid choices, raises nothing, and the page is,
    in order: the sidebar texts; the two date inputs with the dates the
    run uses; one multiselect per category with its choice (and the
    "Choisir une option" hint under an empty one); for each chosen
    ticker, in selection order, what its own fetch writes; then, when no
    Series was kept, the aggregate error of line 154 and nothing else,
    otherwise the events checkbox, the chart, the returns and the CSV
    download of the table of the kept Series under their display names;
    and the logo when its file exists. *)
Theorem run_app_spec e :
  date_le start_default (now e) -> date_le (now e) ceiling_date ->
  picks_ok assets_by_category (picks e) ->
  run (run_app e)
  = (header_page
       ++ [ODateInput "Date de début" (app_start e); ODateInput "Date de fin" (app_end e)]
       ++ select_page (picks e) assets_by_category
       ++ (app_tickers e ≫= FetchFacts.fetch_page (src e) (iso_date (app_start e))
                                                   (iso_date (app_end e)))
       ++ report_page (app_start e) (app_end e) (show_pick e) (app_names e) (app_data e)
       ++ logo_page (logo_exists e), inr tt).
Proof. apply run_app_eq. Qed.

(** Under yfinance's window every date of the table lies in
    [[start_date, end_date)]. *)
Lemma table_dates_window e :
  FetchFacts.source_wf (src e) -> yf_window (src e) ->
  valid_date (app_start e) -> valid_date (app_end e) ->
  forall d, d ∈ df_index (app_frame (app_names e) (app_data e)) ->
    date_le (app_start e) d /\ date_lt d (app_end e).
Proof.
  intros Hsrc Hwin Hvs Hve d Hd. rewrite app_frame_index in Hd.
  apply FrameFacts.elem_of_union_index in Hd as (kv & Hkv & Hd).
  eapply FetchFacts.kept_dates; [done|done|by apply parse_iso_iso|by apply parse_iso_iso|done|done].
Qed.

(** The overlays and the layout leave the traces of lines 180-181
    alone. *)
Lemma build_figure_traces s e show df :
  fig_traces (build_figure s e show df) = column_trace (df_index df) <$> df_columns df.
Proof.
  unfold build_figure, add_overlays. rewrite add_traces_eq, fold_add_recession.
  destruct show; [rewrite fold_add_event|]; reflexivity.
Qed.

(** The trace names of the chart of the run's table. *)
Lemma table_legend e s en show :
  picks_ok assets_by_category (picks e) ->
  tr_name <$> fig_traces (build_figure s en show (app_frame (app_names e) (app_data e)))
  = snd <$> filter (fun p => is_Some (FetchFacts.fetch_result (src e) (iso_date (app_start e))
                                        (iso_date (app_end e)) (ticker_of assets_by_category p)))
                   (chosen (app_selection e)).
Proof.
  intros Hp. rewrite build_figure_traces, <- list_fmap_compose.
  change (tr_name ∘ column_trace (df_index (app_frame (app_names e) (app_data e))))
    with (@fst string (list pyfloat)).
  rewrite app_frame_labels. unfold app_data, app_tickers. rewrite FetchFacts.kept_keys_filter.
  rewrite <- list_fmap_compose. apply list_fmap_ext.
  intros i p Hi%list_elem_of_lookup_2. apply list_elem_of_filter in Hi as [_ Hi].
  by apply app_display_name_of.
Qed.

(** ** What a run inside the window puts on the page *)

(** The date inputs and the chart: the elements the next claims read. *)
Definition chart_or_date (o : out) : bool :=
  match o with ODateInput _ _ | OChart _ => true | _ => false end.

Lemma select_page_plain pick cat : Forall (fun o => chart_or_date o = false) (select_page pick cat).
Proof.
  apply Forall_forall. intros o (ca & Ho & _)%list_elem_of_bind.
  apply elem_of_cons in Ho as [->|Ho]; [done|]. case_decide; [|by apply elem_of_nil in Ho].
  by apply list_elem_of_singleton in Ho as ->.
Qed.

Lemma fetch_page_plain src s e t :
  Forall (fun o => chart_or_date o = false) (FetchFacts.fetch_page src s e t).
Proof.
  unfold FetchFacts.fetch_page, run, fetch_step, bind, emit, ret.
  rewrite FetchFacts.get_normalized_data_eq. repeat case_match; simplify_eq/=; by repeat constructor.
Qed.

Lemma report_page_elem s en sp t2n (data : list (string * series)) o :
  o ∈ report_page s en sp t2n data -> chart_or_date o = true ->
  o = OChart (build_figure s en (default true sp) (app_frame t2n data)).
Proof.
  unfold report_page, returns_page. case_decide.
  { by intros ->%list_elem_of_singleton. }
  rewrite !elem_of_app, !elem_of_cons, elem_of_nil.
  intros [[->|[->|[->|[]]]]|[[->|Ho]|[->|[]]]]; try done. case_decide.
  - by apply list_elem_of_fmap in Ho as (av & -> & _).
  - by apply list_elem_of_singleton in Ho as ->.
Qed.

(** A date input or chart on the page of a run inside the window is one
    of the two date inputs of lines 70-71 with the dates the run uses, or
    the chart of line 240 of the run's table. *)
Lemma run_app_page_elem e o :
  date_le start_default (now e) -> date_le (now e) ceiling_date ->
  picks_ok assets_by_category (picks e) ->
  o ∈ (run (run_app e)).1 -> chart_or_date o = true ->
  o = ODateInput "Date de début" (app_start e) \/ o = ODateInput "Date de fin" (app_end e) \/
  o = OChart (build_figure (app_start e) (app_end e) (default true (show_pick e))
                           (app_frame (app_names e) (app_data e))).
Proof.
  intros H1 H2 Hp Ho Hc. rewrite run_app_eq in Ho by done. cbn [fst] in Ho.
  rewrite !elem_of_app in Ho.
  destruct Ho as [Ho|[Ho|[Ho|[Ho|[Ho|Ho]]]]].
  - exfalso. assert (Hh : Forall (fun o => chart_or_date o = false) header_page) by by_eval.
    rewrite Forall_forall in Hh. rewrite (Hh o Ho) in Hc. discriminate.
  - rewrite !elem_of_cons, elem_of_nil in Ho. naive_solver.
  - exfalso. pose proof (select_page_plain (picks e) assets_by_category) as Hs.
    rewrite Forall_forall in Hs. rewrite (Hs o Ho) in Hc. discriminate.
  - exfalso. apply list_elem_of_bind in Ho as (t & Ho & _).
    pose proof (fetch_page_plain (src e) (iso_date (app_start e)) (iso_date (app_end e)) t) as Hs.
    rewrite Forall_forall in Hs. rewrite (Hs o Ho) in Hc. discriminate.
  - right; right. by apply report_page_elem.
  - exfalso. unfold logo_page in Ho. destruct (logo_exists e); [|by apply elem_of_nil in Ho].
    apply list_elem_of_singleton in Ho as ->. discriminate.
Qed.

(** C16: The end date picked is never charted (spec: the range is
    inclusive of its end): line 146 passes [end_date] as yfinance's
    [end], which is exclusive.  On the page of a run inside the window,
    under yfinance's documented window, every date of every trace of
    the chart lies in [[start, end)], where [start] and [end] are the
    values the two date inputs show: the end date's own prices never
    appear. *)
Theorem table_excludes_end e :
  date_le start_default (now e) -> date_le (now e) ceiling_date ->
  picks_ok assets_by_category (picks e) ->
  FetchFacts.source_wf (src e) -> yf_window (src e) ->
  forall s en fig,
    ODateInput "Date de début" s ∈ (run (run_app e)).1 ->
    ODateInput "Date de fin" en ∈ (run (run_app e)).1 ->
    valid_date s -> valid_date en ->
    OChart fig ∈ (run (run_app e)).1 ->
    forall tr d, tr ∈ fig_traces fig -> d ∈ tr_x tr -> date_le s d /\ date_lt d en.
Proof.
  intros H1 H2 Hp Hsrc Hwin s en fig Hs Hen Hvs Hve Hfig tr d Htr Hd.
  destruct (run_app_page_elem e _ H1 H2 Hp Hs eq_refl) as [[= ->]|[[=]|[=]]].
  destruct (run_app_page_elem e _ H1 H2 Hp Hen eq_refl) as [[=]|[[= ->]|[=]]].
  destruct (run_app_page_elem e _ H1 H2 Hp Hfig eq_refl) as [[=]|[[=]|[= ->]]].
  rewrite build_figure_traces in Htr. apply list_elem_of_fmap in Htr as (kc & -> & _).
  by apply table_dates_window.
Qed.

(** C13: The chart's legend names, in selection order, exactly the
    assets whose data loaded: on the page of a run inside the window,
    with widgets that return valid choices, the trace names of the chart
    are the display names the user chose, for the chosen assets whose
    own fetch gave a non-empty Series, in the order of the multiselects
    and of the choices. *)
Theorem chart_legend e :
  date_le start_default (now e) -> date_le (now e) ceiling_date ->
  picks_ok assets_by_category (picks e) ->
  forall fig, OChart fig ∈ (run (run_app e)).1 ->
  tr_name <$> fig_traces fig
  = snd <$> filter (fun p => is_Some (FetchFacts.fetch_result (src e) (iso_date (app_start e))
                                        (iso_date (app_end e)) (ticker_of assets_by_category p)))
                   (chosen (app_selection e)).
Proof.
  intros H1 H2 Hp fig Hfig.
  destruct (run_app_page_elem e _ H1 H2 Hp Hfig eq_refl) as [[=]|[[=]|[= ->]]].
  by apply table_legend.
Qed.

End AppFacts.

(** ** Concrete runs *)
Module AppExamples.
Import App AppFacts CatalogFacts.

(** Mid-2025, gold selected by default, the example source that knows
    gold only. *)
Definition ex_env_gold : env :=
  mkenv (mkdate 2025 6 1) None None (fun _ => None) FetchExamples.ex_source None true.

(** The same day, every multiselect cleared. *)
Definition ex_env_empty : env :=
  mkenv (mkdate 2025 6 1) None None (fun _ => Some []) FetchExamples.ex_source None false.

(** 9 November 2026. *)
Definition ex_env_late : env :=
  mkenv (mkdate 2026 11 9) None None (fun _ => None) FetchExamples.ex_source None true.

Lemma ex_env_gold_picks_ok : picks_ok assets_by_category (picks ex_env_gold).
Proof. unfold picks_ok. apply Forall_forall. intros ca _ v Hv. discriminate Hv. Qed.

Lemma run_app_spec_witness :
  run (run_app ex_env_gold)
  = (header_page
       ++ [ODateInput "Date de début" (app_start ex_env_gold);
           ODateInput "Date de fin" (app_end ex_env_gold)]
       ++ select_page (picks ex_env_gold) assets_by_category
       ++ (app_tickers ex_env_gold ≫= FetchFacts.fetch_page (src ex_env_gold)
             (iso_date (app_start ex_env_gold)) (iso_date (app_end ex_env_gold)))
       ++ report_page (app_start ex_env_gold) (app_end ex_env_gold) (show_pick ex_env_gold)
            (app_names ex_env_gold) (app_data ex_env_gold)
       ++ logo_page (logo_exists ex_env_gold), inr tt)
  /\ (app_data ex_env_gold).*1 = ["GC=F"]
  /\ display_name (app_names ex_env_gold) "GC=F" = "Or".
Proof.
  split; [|split; vm_compute; reflexivity].
  apply run_app_spec; [by_eval|by_eval|apply ex_env_gold_picks_ok].
Defined.

Lemma run_app_crash_witness :
  run (run_app ex_env_late)
  = (header_page ++ [ODateInput "Date de début" (mkdate 2010 1 1)],
     inl (StreamlitAPIException
            (msg_date_range (mkdate 2026 11 9) (mkdate 2010 1 1) ceiling_date))).
Proof. rewrite run_app_crash; [reflexivity|by_eval]. Defined.

(** With every multiselect cleared, no ticker is fetched and the page
    ends with the aggregate error of line 154. *)
Lemma ex_env_empty_report :
  app_tickers ex_env_empty = [] /\
  report_page (app_start ex_env_empty) (app_end ex_env_empty) (show_pick ex_env_empty)
              (app_names ex_env_empty) (app_data ex_env_empty) = [OError msg_no_valid].
Proof. split; reflexivity. Qed.
(** Three trading days around the end of May 2025. *)
Definition ex_days : list date := [mkdate 2025 5 30; mkdate 2025 6 2; mkdate 2025 6 3].

(** A source that follows yfinance's window: the rows of [ex_days] in
    [[start, end)], closing at 100. *)
Definition ex_window_source : source :=
  fun _ s e =>
    match parse_iso s, parse_iso e with
    | Some ds, Some de =>
        let idx := filter (fun d => date_le ds d /\ date_lt d de) ex_days in
        Downloaded (mkraw idx (FlatCols [("Close", (fun _ => Fin (qc 100)) <$> idx)]))
    | _, _ => DownloadError "Invalid input"
    end.

(** 3 June 2025, start picked on 30 May, gold by default. *)
Definition ex_env_window : env :=
  mkenv (mkdate 2025 6 3) (Some (mkdate 2025 5 30)) None (fun _ => None) ex_window_source None false.

Lemma ex_window_source_wf : FetchFacts.source_wf ex_window_source.
Proof.
  intros t s e f. unfold ex_window_source.
  destruct (parse_iso s) as [ds|], (parse_iso e) as [de|]; try done. intros [= <-].
  split.
  - unfold FetchFacts.frame_wf. simpl. constructor; [|constructor]. simpl. apply length_fmap.
  - apply FrameFacts.sorted_filter. repeat constructor; by_eval.
Qed.

Lemma ex_window_source_window : yf_window ex_window_source.
Proof.
  intros t s e f ds de d. unfold ex_window_source. intros Hf Hs He Hd.
  rewrite Hs, He in Hf. injection Hf as <-. simpl in Hd.
  by apply list_elem_of_filter in Hd as [Hd _].
Qed.

(** On 3 June 2025 with the start picked on 30 May, the chart holds 30 May
    and 2 June, not 3 June. *)
Lemma table_excludes_end_witness :
  (forall s en fig,
    ODateInput "Date de début" s ∈ (run (run_app ex_env_window)).1 ->
    ODateInput "Date de fin" en ∈ (run (run_app ex_env_window)).1 ->
    valid_date s -> valid_date en ->
    OChart fig ∈ (run (run_app ex_env_window)).1 ->
    forall tr d, tr ∈ fig_traces fig -> d ∈ tr_x tr -> date_le s d /\ date_lt d en) /\
  df_index (app_frame (app_names ex_env_window) (app_data ex_env_window))
  = [mkdate 2025 5 30; mkdate 2025 6 2] /\
  app_end ex_env_window = mkdate 2025 6 3.
Proof.
  split; [|split; vm_compute; reflexivity].
  apply table_excludes_end; [by_eval|by_eval| |exact ex_window_source_wf|exact ex_window_source_window].
  unfold picks_ok. apply Forall_forall. intros ca _ v Hv. discriminate Hv.
Defined.

Lemma chart_legend_witness :
  (forall fig, OChart fig ∈ (run (run_app ex_env_gold)).1 ->
   tr_name <$> fig_traces fig
   = snd <$> filter (fun p => is_Some (FetchFacts.fetch_result (src ex_env_gold)
                                         (iso_date (app_start ex_env_gold))
                                         (iso_date (app_end ex_env_gold))
                                         (ticker_of assets_by_category p)))
                    (chosen (app_selection ex_env_gold))) /\
  snd <$> filter (fun p => is_Some (FetchFacts.fetch_result (src ex_env_gold)
                                      (iso_date (app_start ex_env_gold))
                                      (iso_date (app_end ex_env_gold))
                                      (ticker_of assets_by_category p)))
                 (chosen (app_selection ex_env_gold)) = ["Or"].
Proof.
  split; [apply chart_legend; [by_eval|by_eval|apply ex_env_gold_picks_ok]|vm_compute; reflexivity].
Defined.
End AppExamples.
