(* ===== verification/Session.v ===== *)
(** * Session: the reruns of the script in one browser session

    Streamlit runs [src/idl/app.py] from the top again each time the user
    changes a widget, and hands the new run the widget states it keeps for
    the session.  This file models that loop, which is Streamlit's and
    not the repository's, from its documented behaviour.  A widget's
    state is kept under the widget's identity: the multiselects have the
    explicit keys of line 124 (the category names); the date inputs and
    the checkbox have no key, so their identity is their label together
    with their parameters.  The date inputs of lines 70-71 take
    [datetime.now()] and the chosen start date as parameters, so a stored
    date pick only applies while those are unchanged: a new day, or (for
    the end date) a new start date, makes the input a new widget that
    starts again from its default.  A session is the stored states plus
    the date of the next rerun; an [event] is one user action the browser
    offers (a date from a picker's range, a set of options of one
    multiselect, a checkbox value) or time passing; [step] applies one
    event, and every state is followed by a rerun of [run_app] on it.
    Reachability is [rtc step] from the initial state, in which no widget
    has been touched. *)

From stdpp Require Import base list relations decidable strings.
From S2P Require Import Prelude Dates Streamlit Widgets Catalog Fetch App.
Import Dates Widgets Sidebar Catalog CatalogFacts Fetch App AppFacts.

Module Session.

(** The widget states Streamlit keeps between reruns, and the date of
    the next rerun. *)
Record session : Type := mksession {
  ss_now : date;
  ss_start : option (date * date);              (** "Date de début": pick, and [now] when picked *)
  ss_end : option (date * (date * date));       (** "Date de fin": pick, and [now] and the start date when picked *)
  ss_picks : list (string * list string);       (** key [category] (line 124) *)
  ss_show : option bool                         (** key "Afficher les événements historiques" *)
}.

(** A new session on date [now]: no widget touched yet. *)
Definition initial (now : date) : session := mksession now None None [] None.

(** The state of the start-date input in a rerun: the stored pick, if
    it was made on a widget with the same parameters (the same day). *)
Definition start_state (s : session) : option date :=
  match ss_start s with
  | Some (d, n) => if decide (n = ss_now s) then Some d else None
  | None => None
  end.

(** The start date the rerun's line 70 returns. *)
Definition start_now (s : session) : date := SidebarFacts.start_of (ss_now s) (start_state s).

(** The state of the end-date input: the stored pick, if made the same
    day with the same start date as [min_value]. *)
Definition end_state (s : session) : option date :=
  match ss_end s with
  | Some (d, (n, st)) => if decide (n = ss_now s /\ st = start_now s) then Some d else None
  | None => None
  end.

(** What a rerun on the session reads. *)
Definition env_of (src : source) (logo : bool) (s : session) : env :=
  mkenv (ss_now s) (start_state s) (end_state s) (fun c => dict_get c (ss_picks s)) src
        (ss_show s) logo.

Inductive event : Type :=
| PickStart (d : date)
| PickEnd (d : date)
| PickAssets (category : string) (names : list string)
| ToggleEvents (b : bool)
| Tick (later : date).

(** A multiselect state the browser can produce for [category]: distinct
    options of that category. *)
Definition valid_pick (category : string) (v : list string) : Prop :=
  match dict_get category assets_by_category with
  | Some assets => NoDup v /\ Forall (fun n => n ∈ assets.*1) v
  | None => False
  end.

#[export] Instance valid_pick_dec c v : Decision (valid_pick c v).
Proof. unfold valid_pick. destruct (dict_get c assets_by_category); apply _. Defined.

(** What the browser lets the user do after a rerun: a date picker offers
    the dates between its bounds, a multiselect a list of distinct
    options of its own category; time only moves forward. *)
Definition offered (s : session) (ev : event) : Prop :=
  match ev with
  | PickStart d => in_range floor_date (ss_now s) d
  | PickEnd d => in_range (start_now s) ceiling_date d
  | PickAssets c v => valid_pick c v
  | ToggleEvents _ => True
  | Tick d => date_lt (ss_now s) d
  end.

(** The widget state after an event. *)
Definition apply_event (s : session) (ev : event) : session :=
  match ev with
  | PickStart d => mksession (ss_now s) (Some (d, ss_now s)) (ss_end s) (ss_picks s) (ss_show s)
  | PickEnd d => mksession (ss_now s) (ss_start s) (Some (d, (ss_now s, start_now s))) (ss_picks s)
                           (ss_show s)
  | PickAssets c v => mksession (ss_now s) (ss_start s) (ss_end s) (dict_set c v (ss_picks s))
                                (ss_show s)
  | ToggleEvents b => mksession (ss_now s) (ss_start s) (ss_end s) (ss_picks s) (Some b)
  | Tick d => mksession d (ss_start s) (ss_end s) (ss_picks s) (ss_show s)
  end.

#[export] Instance offered_dec s ev : Decision (offered s ev).
Proof. destruct ev; cbn [offered]; apply _. Defined.

Inductive step : session -> session -> Prop :=
| step_event s ev : offered s ev -> step s (apply_event s ev).

Definition reachable (now0 : date) (s : session) : Prop := rtc step (initial now0) s.

End Session.

Module SessionFacts.
Import Session.

(** Every stored multiselect state is one the browser can produce. *)
Definition session_inv (s : session) : Prop :=
  Forall (fun cv => valid_pick cv.1 cv.2) (ss_picks s).

Lemma session_inv_initial now : session_inv (initial now).
Proof. constructor. Qed.

Lemma session_inv_step s s' : step s s' -> session_inv s -> session_inv s'.
Proof.
  intros [s0 ev Hoff] Hinv. unfold session_inv in *.
  destruct ev; simpl in *; try done.
  apply Forall_forall. intros cv Hcv. apply dict_set_elem in Hcv as [->|Hcv]; [done|].
  rewrite Forall_forall in Hinv. by apply Hinv.
Qed.

Lemma reachable_session_inv now0 s : reachable now0 s -> session_inv s.
Proof.
  revert s. apply rtc_ind_r; [apply session_inv_initial|].
  intros s1 s2 _ Hstep IH. by apply (session_inv_step s1).
Qed.


Lemma session_inv_picks_ok src logo s :
  session_inv s -> picks_ok assets_by_category (picks (env_of src logo s)).
Proof.
  intros Hinv. destruct table_facts as ((Hnd & _ & _) & _ & _).
  unfold picks_ok. apply Forall_forall. intros [c assets] Hca v Hv.
  cbn [fst snd env_of picks] in Hv |- *.
  apply dict_get_Some_elem in Hv. unfold session_inv in Hinv. rewrite Forall_forall in Hinv.
  specialize (Hinv _ Hv). unfold valid_pick in Hinv. cbn [fst snd] in Hinv.
  by rewrite (dict_get_elem c assets _ Hnd Hca) in Hinv.
Qed.

(** The date window in which the script can run. *)
Definition in_window (now : date) : Prop := date_le start_default now /\ date_le now ceiling_date.


(** Each entry of the table comes from one category. *)
Lemma entries_elem (cat : catalog) c n t :
  ((c, n), t) ∈ entries cat -> exists assets, (c, assets) ∈ cat /\ (n, t) ∈ assets.
Proof.
  unfold entries. intros ([c' assets] & Hin & Hca)%list_elem_of_bind.
  apply list_elem_of_fmap in Hin as ([n' t'] & [= -> -> ->] & Hnt). by exists assets.
Qed.

(** After the user picks [[n]] in the multiselect of [c], the run's
    ticker list holds the ticker of [(c, n)]. *)
Lemma pick_fetches s src logo c n t :
  ((c, n), t) ∈ entries assets_by_category ->
  t ∈ app_tickers (env_of src logo (apply_event s (PickAssets c [n]))).
Proof.
  intros Hent. destruct table_facts as ((Hnd & Hnames & _) & _ & _).
  destruct (entries_elem _ _ _ _ Hent) as (assets & Hca & Hnt).
  assert (Hc : dict_get c assets_by_category = Some assets) by by apply dict_get_elem.
  unfold app_tickers. apply list_elem_of_fmap. exists (c, n). split.
  - unfold ticker_of. cbn [fst snd]. rewrite Hc. cbn. rewrite (dict_get_elem n t); [done| |done].
    rewrite Forall_forall in Hnames. apply (Hnames (c, assets) Hca).
  - unfold chosen, app_selection, selection.
    set (pk := picks (env_of src logo (apply_event s (PickAssets c [n])))).
    apply list_elem_of_bind. exists (c, picked pk c).
    split; [|apply (list_elem_of_fmap_2 (fun ca => (ca.1, picked pk ca.1)) _ (c, assets)), Hca].
    unfold picked, pk. cbn [picks env_of apply_event ss_picks]. rewrite dict_get_set_eq. by left.
Qed.

(** C18: Every asset of the table can always be brought in: from any
    reachable session whose date lies in the window, one user action
    (choosing that asset alone in its category) leads to a rerun that
    fetches its ticker and writes its loading message. *)
Theorem every_asset_fetchable now0 s src logo c n t :
  reachable now0 s -> in_window (ss_now s) -> ((c, n), t) ∈ entries assets_by_category ->
  exists s', step s s' /\ OWrite (msg_loading t) ∈ (run (run_app (env_of src logo s'))).1.
Proof.
  intros Hr [H1 H2] Hent. set (s' := apply_event s (PickAssets c [n])).
  assert (Hoff : offered s (PickAssets c [n])).
  { destruct table_facts as ((Hnd & _ & _) & _ & _).
    destruct (entries_elem _ _ _ _ Hent) as (assets & Hca & Hnt). cbn [offered]. unfold valid_pick.
    rewrite (dict_get_elem c assets _ Hnd Hca). split; [apply NoDup_singleton|].
    apply Forall_singleton, (list_elem_of_fmap_2 fst _ (n, t)), Hnt. }
  exists s'. split; [by constructor|].
  assert (Hr' : reachable now0 s') by (eapply rtc_r; [done|by constructor]).
  rewrite run_app_eq; [|done|done|by apply session_inv_picks_ok, (reachable_session_inv now0)].
  cbn [fst]. rewrite !elem_of_app. right; right; right; left.
  apply list_elem_of_bind. exists t. split; [|by apply pick_fetches].
  edestruct FetchFacts.fetch_page_loading as [rest ->]. left.
Qed.

End SessionFacts.

(** ** Concrete sessions *)
Module SessionExamples.
Import Session SessionFacts DateFacts.

Definition ex_day : date := mkdate 2025 6 1.

(** A session in which the user chose Tesla among the shares. *)
Definition ex_session : session :=
  apply_event (initial ex_day) (PickAssets "Actions" ["Tesla (TSLA)"]).

Lemma ex_session_reachable : reachable ex_day ex_session.
Proof. apply rtc_once. constructor. cbn [offered]. by_eval. Qed.



Lemma every_asset_fetchable_witness :
  exists s', step ex_session s' /\
    OWrite (msg_loading "GC=F") ∈ (run (run_app (env_of FetchExamples.ex_source true s'))).1.
Proof.
  apply (every_asset_fetchable ex_day ex_session _ _ "Métaux précieux" "Or" "GC=F").
  - exact ex_session_reachable.
  - split; by_eval.
  - by_eval.
Defined.
End SessionExamples.
